(** * Complaint triage agent: classification, routing and notification

    A shallow embedding of the Python sources under [backend/]:
    - [src/ai_classifier.py]  ([ComplaintClassifier]),
    - [src/router.py]         ([ComplaintRouter]),
    - [src/config.py]         ([Config]),
    - [src/email_handler.py]  (the message builders and senders),
    - [src/database.py]       ([insert_complaint], [get_complaint_by_email_id],
                               [get_complaint], [update_status]),
    - [main.py]               ([process_single_complaint], [process_complaints],
                               [run_once]),
    - [src/api.py]            (the endpoints that create, list, update, resolve,
                               escalate, reclassify and assign a complaint).

    Conventions.
    - A Python [str] is a Rocq [string]; the character classes, [lower] and
      [strip] below are those of Python on ASCII text.
    - A [Dict[str, Any]] is a [gmap string pyval]; [pyval] is the universe of
      values the dictionaries of this program hold (what a JSON document or
      an e-mail header decodes to).
    - A Python function that may raise returns [res]; [try/except Exception]
      is a match on [Raise].
    - Everything outside the repository (the classification service,
      [json.loads], [repr] of containers, SMTP, the Slack web hook, IMAP, the
      clock) is a field of [Env]: the theorems hold for every behaviour of
      these collaborators.
    - Calls to [logger] do not influence control flow and are not modelled. *)

From Stdlib Require Import ZArith String Ascii List Bool Lia.
From Stdlib Require Import Numbers.DecimalString.
From Stdlib Require Import Floats.PrimFloat.
From stdpp Require Import base option list gmap strings.

Set Warnings "-register-all".
Local Open Scope string_scope.
Local Open Scope list_scope.

(* ===================================================================== *)
(** ** Python strings (ASCII) *)
(* ===================================================================== *)

Module Str.

Definition nl : string := String (ascii_of_nat 10) EmptyString.

Definition between (lo hi : nat) (c : ascii) : bool :=
  let n := nat_of_ascii c in Nat.leb lo n && Nat.leb n hi.

Definition is_upper (c : ascii) : bool := between 65 90 c.
Definition is_lower (c : ascii) : bool := between 97 122 c.
Definition is_digit (c : ascii) : bool := between 48 57 c.

(** [\w]: letters, digits and the underscore. *)
Definition is_word (c : ascii) : bool :=
  is_upper c || is_lower c || is_digit c || Nat.eqb (nat_of_ascii c) 95.

(** [str.isspace] and [\s]: TAB, LF, VT, FF, CR, the four separators
    FS, GS, RS, US, and the space. *)
Definition is_space (c : ascii) : bool := between 9 13 c || between 28 32 c.

Definition lower_char (c : ascii) : ascii :=
  if is_upper c then ascii_of_nat (nat_of_ascii c + 32) else c.

(** [s.lower()] *)
Fixpoint lower (s : string) : string :=
  match s with
  | EmptyString => EmptyString
  | String c s' => String (lower_char c) (lower s')
  end.

(** [needle in hay] on strings *)
Fixpoint contains (needle hay : string) : bool :=
  if String.prefix needle hay then true
  else match hay with
       | EmptyString => false
       | String _ hay' => contains needle hay'
       end.

(** [any(word in text for word in words)] *)
Definition any_in (words : list string) (text : string) : bool :=
  existsb (fun w => contains w text) words.

Fixpoint lstrip (s : string) : string :=
  match s with
  | String c s' => if is_space c then lstrip s' else s
  | EmptyString => EmptyString
  end.

Fixpoint rstrip (s : string) : string :=
  match s with
  | EmptyString => EmptyString
  | String c s' =>
      match rstrip s' with
      | EmptyString => if is_space c then EmptyString else String c EmptyString
      | r => String c r
      end
  end.

(** [s.strip()] *)
Definition strip (s : string) : string := rstrip (lstrip s).

(** [s[:n]] for [n >= 0] *)
Definition take (n : nat) (s : string) : string := String.substring 0 n s.

(** [str(z)] for an [int] *)
Definition of_Z (z : Z) : string := NilEmpty.string_of_int (Z.to_int z).

End Str.

(* ===================================================================== *)
(** ** Python values, exceptions, dictionaries *)
(* ===================================================================== *)

Inductive pyval : Type :=
| VNone
| VBool (b : bool)
| VInt (z : Z)
| VFloat (f : float)
| VStr (s : string)
| VList (l : list pyval)
| VDict (d : gmap string pyval).

Abbreviation pydict := (gmap string pyval).

Inductive exn : Type :=
| TypeError
| AttributeError
| KeyError (key : string)
| ValueError (msg : string)
| ServiceError          (** anything raised while calling the classification
                            service or reading [response.content[0].text] *)
| DecodeFailure         (** an exception of [json.loads] other than
                            [JSONDecodeError] *)
| ProgrammingError      (** [sqlite3]: a parameter of an unsupported type *)
| OverflowError.        (** [sqlite3]: an [int] outside 64 bits *)

Inductive res (A : Type) : Type :=
| Ok (a : A)
| Raise (e : exn).
Arguments Ok {A} a.
Arguments Raise {A} e.

#[global] Instance res_ret : MRet res := fun A a => Ok a.

#[global] Instance res_bind : MBind res := fun A B k m =>
  match m with
  | Ok a => k a
  | Raise e => Raise e
  end.

Module Py.

(** [bool(v)] *)
Definition truthy (v : pyval) : bool :=
  match v with
  | VNone => false
  | VBool b => b
  | VInt z => negb (Z.eqb z 0)
  | VFloat f => negb (PrimFloat.eqb f 0%float)
  | VStr s => negb (String.eqb s "")
  | VList l => match l with [] => false | _ :: _ => true end
  | VDict d => negb (bool_decide (d = ∅))
  end.

(** [bool(d.get(k))]: a missing key gives [None], which is false. *)
Definition truthy_get (d : pydict) (k : string) : bool :=
  match d !! k with
  | Some v => truthy v
  | None => false
  end.

(** [d.get(k, default)] *)
Definition get (d : pydict) (k : string) (default : pyval) : pyval :=
  match d !! k with
  | Some v => v
  | None => default
  end.

(** [d[k]] *)
Definition item (d : pydict) (k : string) : res pyval :=
  match d !! k with
  | Some v => Ok v
  | None => Raise (KeyError k)
  end.

(** [v == s] for a string literal [s] *)
Definition eq_str (v : pyval) (s : string) : bool :=
  match v with
  | VStr t => String.eqb t s
  | _ => false
  end.

(** [v in xs] for a list [xs] of string literals: the list is searched
    with [==], which no value other than an equal string satisfies. *)
Definition in_strs (v : pyval) (xs : list string) : bool :=
  existsb (eq_str v) xs.

(** Values that can be used as a dictionary key. *)
Definition hashable (v : pyval) : bool :=
  match v with
  | VList _ | VDict _ => false
  | _ => true
  end.

(** [table.get(key, default)] for a table whose keys are all strings and
    an arbitrary [key]: an unhashable key raises [TypeError]; a hashable
    key that is not a string equals none of the keys. *)
Definition table_get {A : Type} (table : list (string * A)) (key : pyval)
    (default : A) : res A :=
  match key with
  | VList _ | VDict _ => Raise TypeError
  | VStr s =>
      Ok (match List.find (fun kv => String.eqb (fst kv) s) table with
          | Some kv => snd kv
          | None => default
          end)
  | _ => Ok default
  end.

(** [{**a, **b}]: the entries of [b] win. *)
Definition merge (a b : pydict) : pydict := b ∪ a.

End Py.

(* ===================================================================== *)
(** ** Regular expressions: the fragment of [re] the program uses *)
(* ===================================================================== *)

(** A backtracking matcher with the semantics of Python's [re]: the
    leftmost start position wins; at a position, alternatives are tried
    left to right and quantifiers are greedy. *)
Module Re.

(** Sets of one character. *)
Inductive cls : Type :=
| CChar (c : ascii)          (** a literal; folded under [IGNORECASE] *)
| CAny                       (** [.] with [DOTALL] *)
| CDigit                     (** [\d] *)
| CWord                      (** [\w] *)
| CSpace                     (** [\s] *)
| CRange (lo hi : ascii)     (** [[lo-hi]] *)
| COr (c1 c2 : cls)          (** union inside [[...]] *)
| CNot (c : cls).            (** [[^...]] *)

Inductive re : Type :=
| REmpty
| RCls (c : cls)
| RSeq (r1 r2 : re)
| RAlt (r1 r2 : re)                        (** [r1|r2] *)
| ROpt (r : re)                            (** [r?] *)
| RRep (c : cls) (lo : nat) (hi : option nat)
                                           (** [c{lo,hi}], [c*], [c+] *)
| RGroup (r : re)                          (** the capturing group 1 *)
| RBol.                                    (** [^] without [MULTILINE] *)

Definition star (c : cls) : re := RRep c 0 None.
Definition plus (c : cls) : re := RRep c 1 None.
Definition exactly (n : nat) (c : cls) : re := RRep c n (Some n).
Definition at_least (n : nat) (c : cls) : re := RRep c n None.
Definition chr (c : ascii) : re := RCls (CChar c).
Definition optc (c : cls) : re := ROpt (RCls c).

Fixpoint lit (s : string) : re :=
  match s with
  | EmptyString => REmpty
  | String c EmptyString => chr c
  | String c s' => RSeq (chr c) (lit s')
  end.

Fixpoint rseq (rs : list re) : re :=
  match rs with
  | [] => REmpty
  | [r] => r
  | r :: rs' => RSeq r (rseq rs')
  end.

Fixpoint ralt (rs : list re) : re :=
  match rs with
  | [] => REmpty
  | [r] => r
  | r :: rs' => RAlt r (ralt rs')
  end.

(** [ic] is the [IGNORECASE] flag. *)
Fixpoint cls_match (ic : bool) (c : cls) (x : ascii) : bool :=
  match c with
  | CChar a =>
      if ic then Ascii.eqb (Str.lower_char a) (Str.lower_char x)
      else Ascii.eqb a x
  | CAny => true
  | CDigit => Str.is_digit x
  | CWord => Str.is_word x
  | CSpace => Str.is_space x
  | CRange lo hi => Str.between (nat_of_ascii lo) (nat_of_ascii hi) x
  | COr c1 c2 => cls_match ic c1 x || cls_match ic c2 x
  | CNot c' => negb (cls_match ic c' x)
  end.

(** The matcher's state: the offset reached, the text still to read and
    the text captured by group 1. *)
Record mstate : Type := MState {
  ms_pos : nat;
  ms_rest : list ascii;
  ms_cap : option (list ascii)
}.

Definition advance (n : nat) (st : mstate) : mstate :=
  MState (ms_pos st + n) (List.skipn n (ms_rest st)) (ms_cap st).

(** The longest run of characters of [c] at the head of [l], at most
    [hi] of them. *)
Fixpoint run (ic : bool) (c : cls) (hi : option nat) (l : list ascii) : nat :=
  match hi, l with
  | Some O, _ => 0
  | _, [] => 0
  | _, x :: l' =>
      if cls_match ic c x
      then S (run ic c (match hi with Some (S h) => Some h | _ => hi end) l')
      else 0
  end.

(** Greedy repetition: try [n] characters, then [n-1], ... down to [lo]. *)
Fixpoint try_down {A : Type} (n lo : nat) (st : mstate)
    (k : mstate -> option A) : option A :=
  if Nat.ltb n lo then None
  else match k (advance n st) with
       | Some a => Some a
       | None =>
           match n with
           | O => None
           | S n' => try_down n' lo st k
           end
       end.

Fixpoint rmatch {A : Type} (ic : bool) (r : re) (st : mstate)
    (k : mstate -> option A) : option A :=
  match r with
  | REmpty => k st
  | RCls c =>
      match ms_rest st with
      | x :: _ => if cls_match ic c x then k (advance 1 st) else None
      | [] => None
      end
  | RSeq r1 r2 => rmatch ic r1 st (fun st' => rmatch ic r2 st' k)
  | RAlt r1 r2 =>
      match rmatch ic r1 st k with
      | Some a => Some a
      | None => rmatch ic r2 st k
      end
  | ROpt r' =>
      match rmatch ic r' st k with
      | Some a => Some a
      | None => k st
      end
  | RRep c lo hi => try_down (run ic c hi (ms_rest st)) lo st k
  | RGroup r' =>
      rmatch ic r' st (fun st' =>
        k (MState (ms_pos st') (ms_rest st')
             (Some (List.firstn (ms_pos st' - ms_pos st) (ms_rest st)))))
  | RBol => if Nat.eqb (ms_pos st) 0 then k st else None
  end.

(** A successful match: its span and the text of group 1. *)
Record rmatch_result : Type := Match {
  m_start : nat;
  m_end : nat;
  m_group1 : option string
}.

Definition match_at (ic : bool) (r : re) (pos : nat) (rest : list ascii)
    : option rmatch_result :=
  rmatch ic r (MState pos rest None)
    (fun st => Some (Match pos (ms_pos st)
                       (option_map string_of_list_ascii (ms_cap st)))).

Fixpoint search_from (ic : bool) (r : re) (pos : nat) (rest : list ascii)
    : option rmatch_result :=
  match match_at ic r pos rest with
  | Some m => Some m
  | None =>
      match rest with
      | [] => None
      | _ :: rest' => search_from ic r (S pos) rest'
      end
  end.

(** [re.search(r, s)] ([re.search(r, s, re.IGNORECASE)] when [ic]) *)
Definition search (ic : bool) (r : re) (s : string) : option rmatch_result :=
  search_from ic r 0 (list_ascii_of_string s).

(** [skip] characters of a match found earlier are still to be dropped. *)
Fixpoint sub_from (ic : bool) (r : re) (pos skip : nat) (rest : list ascii)
    : list ascii :=
  match rest with
  | [] => []
  | x :: rest' =>
      match skip with
      | S skip' => sub_from ic r (S pos) skip' rest'
      | O =>
          match match_at ic r pos rest with
          | Some m =>
              match m_end m - pos with
              | O => x :: sub_from ic r (S pos) 0 rest'
              | S n => sub_from ic r (S pos) n rest'
              end
          | None => x :: sub_from ic r (S pos) 0 rest'
          end
      end
  end.

(** [re.sub(r, '', s)]: every non-overlapping match, leftmost first, is
    removed (an empty match removes nothing). *)
Definition remove_all (ic : bool) (r : re) (s : string) : string :=
  string_of_list_ascii (sub_from ic r 0 0 (list_ascii_of_string s)).

End Re.

(* ===================================================================== *)
(** ** Messages, events and the collaborators outside the repository *)
(* ===================================================================== *)

(** What [client.messages.create(...)] followed by
    [response.content[0].text] comes to. *)
Inductive api_outcome : Type :=
| ApiText (text : string)
| ApiFailure.

(** What [json.loads] does on a text that starts with an opening brace. *)
Inductive json_outcome : Type :=
| JsonObject (d : pydict)
| JsonDecodeError
| JsonOtherError.

(** What [requests.post] does. *)
Inductive http_outcome : Type :=
| HttpStatus (code : Z)
| HttpRaises.

(** The [MIMEMultipart] message handed to [server.send_message]. *)
Record mail : Type := Mail {
  mail_from : string;
  mail_to : pyval;
  mail_subject : string;
  mail_text : string
}.

(** The four literals of [priority_emoji] are not ASCII. *)
Inductive emoji : Type := EmojiUrgent | EmojiHigh | EmojiMedium | EmojiLow.

(** The JSON payload of the Slack web hook. *)
Record slack_message : Type := SlackMessage {
  sm_emoji : emoji;
  sm_text : string;                          (** the text after the emoji *)
  sm_color : string;
  sm_fields : list (string * pyval * bool);  (** title, value, short *)
  sm_footer : string;
  sm_ts : Z
}.

Record Env : Type := {
  (** the classification service, asked at some instant with the prepared
      input text (model, token limit and system prompt are constants) *)
  messages_create : nat -> string -> api_outcome;
  json_loads : string -> json_outcome;
  (** [repr] of a float, a list or a dict *)
  repr : pyval -> string;
  (** connecting to the SMTP server and sending: [true] when no exception *)
  smtp_deliver : nat -> mail -> bool;
  requests_post : nat -> string -> slack_message -> http_outcome;
  (** [mark_as_read]: [true] when no exception *)
  imap_store : nat -> pyval -> bool;
  (** [datetime.now().isoformat()] and [int(datetime.now().timestamp())] *)
  now_iso : nat -> string;
  now_ts : nat -> Z;
  (** SQLite: the text stored for a float in a [TEXT] column ([None] is
      NULL, which is what a NaN is stored as), and [CURRENT_TIMESTAMP] *)
  sqlite_real_text : float -> option string;
  sqlite_timestamp : nat -> string
}.

(** [str(v)], as f-strings apply it. *)
Definition py_str (E : Env) (v : pyval) : string :=
  match v with
  | VStr s => s
  | VNone => "None"
  | VBool true => "True"
  | VBool false => "False"
  | VInt z => Str.of_Z z
  | VFloat _ | VList _ | VDict _ => repr E v
  end.

(** [len(v)] *)
Definition py_len (v : pyval) : res nat :=
  match v with
  | VStr s => Ok (String.length s)
  | VList l => Ok (List.length l)
  | VDict d => Ok (size d)
  | _ => Raise TypeError
  end.

(** [v[:n]]: strings and lists can be sliced; a dict rejects the slice as
    a key and the other values are not subscriptable. *)
Definition py_take (n : nat) (v : pyval) : res pyval :=
  match v with
  | VStr s => Ok (VStr (Str.take n s))
  | VList l => Ok (VList (List.firstn n l))
  | _ => Raise TypeError
  end.

(** A dict display [{k1: v1, ...}] with distinct keys. *)
Definition dict_of (kvs : list (string * pyval)) : pydict := list_to_map kvs.

(* ===================================================================== *)
(** ** [ai_classifier.py]: [ComplaintClassifier] *)
(* ===================================================================== *)

Definition valid_categories : list string :=
  ["Billing Issue"; "Product Defect"; "Refund Request";
   "Technical Support"; "Delivery Problem"; "Account Issue"; "General Inquiry"].

Definition valid_priorities : list string := ["Urgent"; "High"; "Medium"; "Low"].

Definition valid_sentiments : list string :=
  ["Angry"; "Frustrated"; "Neutral"; "Satisfied"].

Definition dquote : ascii := ascii_of_nat 34.

(** [<[^>]+>] *)
Definition angle_pattern : Re.re :=
  Re.rseq [Re.chr "<"; Re.plus (Re.CNot (Re.CChar ">")); Re.chr ">"].

(** A double quote, any characters but the double quote, a double quote. *)
Definition quoted_pattern : Re.re :=
  Re.rseq [Re.chr dquote; Re.star (Re.CNot (Re.CChar dquote)); Re.chr dquote].

(** [^(Mr\.|Ms\.|Mrs\.|Dr\.)\s*], used with [IGNORECASE] *)
Definition honorific_pattern : Re.re :=
  Re.rseq [Re.RBol;
           Re.RGroup (Re.ralt [Re.lit "Mr."; Re.lit "Ms."; Re.lit "Mrs."; Re.lit "Dr."]);
           Re.star Re.CSpace].

(** [order_patterns], in the order of the source. *)
Definition order_patterns : list Re.re :=
  [ (* order\s*#?\s*(\w+) *)
    Re.rseq [Re.lit "order"; Re.star Re.CSpace; Re.optc (Re.CChar "#");
             Re.star Re.CSpace; Re.RGroup (Re.plus Re.CWord)];
    (* order\s*number\s*:?\s*(\w+) *)
    Re.rseq [Re.lit "order"; Re.star Re.CSpace; Re.lit "number";
             Re.star Re.CSpace; Re.optc (Re.CChar ":"); Re.star Re.CSpace;
             Re.RGroup (Re.plus Re.CWord)];
    (* #(\w{6,}) *)
    Re.rseq [Re.chr "#"; Re.RGroup (Re.at_least 6 Re.CWord)];
    (* ref\s*:?\s*(\w+) *)
    Re.rseq [Re.lit "ref"; Re.star Re.CSpace; Re.optc (Re.CChar ":");
             Re.star Re.CSpace; Re.RGroup (Re.plus Re.CWord)] ].

(** [[-.\s]] *)
Definition separator : Re.cls :=
  Re.COr (Re.CChar "-") (Re.COr (Re.CChar ".") Re.CSpace).

(** [(\+?1?[-.\s]?\(?[0-9]{3}\)?[-.\s]?[0-9]{3}[-.\s]?[0-9]{4})] *)
Definition phone_pattern : Re.re :=
  Re.RGroup (Re.rseq
    [Re.optc (Re.CChar "+"); Re.optc (Re.CChar "1"); Re.optc separator;
     Re.optc (Re.CChar "("); Re.exactly 3 (Re.CRange "0" "9");
     Re.optc (Re.CChar ")"); Re.optc separator;
     Re.exactly 3 (Re.CRange "0" "9"); Re.optc separator;
     Re.exactly 4 (Re.CRange "0" "9")]).

(** [\$(\d+(?:\.\d{2})?)] *)
Definition amount_pattern : Re.re :=
  Re.rseq [Re.chr "$";
           Re.RGroup (Re.rseq [Re.plus Re.CDigit;
                               Re.ROpt (Re.rseq [Re.chr "."; Re.exactly 2 Re.CDigit])])].

(** [\{.*\}] with [DOTALL] *)
Definition json_pattern : Re.re :=
  Re.rseq [Re.chr "{"; Re.star Re.CAny; Re.chr "}"].

(** [match.group(1)]; group 1 takes part in every match of the patterns
    above. *)
Definition group1 (m : Re.rmatch_result) : string :=
  match Re.m_group1 m with
  | Some s => s
  | None => ""
  end.

(** [match.group(0)] *)
Definition group0 (s : string) (m : Re.rmatch_result) : string :=
  String.substring (Re.m_start m) (Re.m_end m - Re.m_start m) s.

Module ComplaintClassifier.
Section WithEnv.

Variable E : Env.

(** [_prepare_input_text]; the final [strip()] removes exactly the line
    break at either end of the template. *)
Definition _prepare_input_text (email_data : pydict) : res string :=
  let subject := Py.get email_data "subject" (VStr "No subject") in
  let body := Py.get email_data "body" (VStr "No body") in
  let sender := Py.get email_data "sender" (VStr "Unknown sender") in
  n ← py_len body;
  body ← (if Nat.ltb 3000 n
          then match body with
               | VStr s => Ok (VStr (Str.take 3000 s +:+ "... [truncated]"))
               | _ => Raise TypeError
               end
          else Ok body);
  Ok ("Subject: " +:+ py_str E subject +:+ Str.nl +:+ Str.nl
      +:+ "From: " +:+ py_str E sender +:+ Str.nl +:+ Str.nl
      +:+ "Body:" +:+ Str.nl +:+ py_str E body +:+ Str.nl +:+ Str.nl
      +:+ "Please analyze this customer complaint and provide the JSON classification.").

(** [_get_default_classification] *)
Definition _get_default_classification : pydict :=
  dict_of [("customer_name", VStr "Unknown");
           ("customer_email", VStr "");
           ("category", VStr "General Inquiry");
           ("priority", VStr "Medium");
           ("sentiment", VStr "Neutral");
           ("key_entities", VDict ∅);
           ("summary", VStr "Unable to analyze complaint content");
           ("suggested_action", VStr "Manual review required")].

(** [if field not in result: result[field] = 'Unknown'] *)
Definition set_default (field : string) (result : pydict) : pydict :=
  match result !! field with
  | Some _ => result
  | None => <[field := VStr "Unknown"]> result
  end.

(** [_parse_claude_response]: only [json.JSONDecodeError] is caught. *)
Definition _parse_claude_response (response_text : string) : res pydict :=
  match Re.search false json_pattern response_text with
  | Some json_match =>
      match json_loads E (group0 response_text json_match) with
      | JsonObject result =>
          let result := set_default "category" result in
          let result := set_default "priority" result in
          let result := set_default "sentiment" result in
          Ok (match result !! "key_entities" with
              | Some (VDict _) => result
              | _ => <["key_entities" := VDict ∅]> result
              end)
      | JsonDecodeError => Ok _get_default_classification
      | JsonOtherError => Raise DecodeFailure
      end
  | None => Ok _get_default_classification
  end.

(** [_extract_name_from_sender]: [re.sub] raises [TypeError] on anything
    but a string. *)
Definition _extract_name_from_sender (sender : pyval) : res string :=
  match sender with
  | VStr sender =>
      let name := Str.strip (Re.remove_all false angle_pattern sender) in
      let name := Str.strip (Re.remove_all false quoted_pattern name) in
      let name := Re.remove_all true honorific_pattern name in
      Ok (if negb (String.eqb name "") && Nat.ltb 2 (String.length name)
          then name else "Unknown")
  | _ => Raise TypeError
  end.

(** The loop over [order_patterns]: the first pattern that matches while
    no order number is known sets it and leaves the loop. *)
Fixpoint probe_order_patterns (patterns : list Re.re) (text : string)
    (entities : pydict) : pydict :=
  match patterns with
  | [] => entities
  | pattern :: patterns' =>
      match Re.search true pattern text with
      | Some m =>
          if negb (Py.truthy_get entities "order_number")
          then <["order_number" := VStr (group1 m)]> entities
          else probe_order_patterns patterns' text entities
      | None => probe_order_patterns patterns' text entities
      end
  end.

(** [_extract_additional_entities] *)
Definition _extract_additional_entities (email_data : pydict)
    (existing_entities : pydict) : pydict :=
  let text := py_str E (Py.get email_data "subject" (VStr "")) +:+ " "
              +:+ py_str E (Py.get email_data "body" (VStr "")) in
  let entities := existing_entities in
  let entities := probe_order_patterns order_patterns text entities in
  let entities :=
    match Re.search false phone_pattern text with
    | Some phone_match =>
        if negb (Py.truthy_get entities "phone_number")
        then <["phone_number" := VStr (group1 phone_match)]> entities
        else entities
    | None => entities
    end in
  match Re.search false amount_pattern text with
  | Some amount_match =>
      if negb (Py.truthy_get entities "amount")
      then <["amount" := VStr ("$" +:+ group1 amount_match)]> entities
      else entities
  | None => entities
  end.

(** [_enhance_classification]. The classification it receives comes from
    [_parse_claude_response], whose ["key_entities"] is a dict; the branch
    for any other value is never taken in [classify_complaint]. *)
Definition _enhance_classification (classification email_data : pydict)
    : res pydict :=
  let classification :=
    <["customer_email" := Py.get email_data "customer_email" (VStr "")]>
      classification in
  classification ←
    (if Py.eq_str (Py.get classification "customer_name" VNone) "Unknown"
     then name ← _extract_name_from_sender (Py.get email_data "sender" (VStr ""));
          Ok (<["customer_name" := VStr name]> classification)
     else Ok classification);
  let classification :=
    if Py.in_strs (Py.get classification "category" VNone) valid_categories
    then classification
    else <["category" := VStr "General Inquiry"]> classification in
  let classification :=
    if Py.in_strs (Py.get classification "priority" VNone) valid_priorities
    then classification
    else <["priority" := VStr "Medium"]> classification in
  let classification :=
    if Py.in_strs (Py.get classification "sentiment" VNone) valid_sentiments
    then classification
    else <["sentiment" := VStr "Neutral"]> classification in
  match Py.get classification "key_entities" (VDict ∅) with
  | VDict existing =>
      Ok (<["key_entities" :=
              VDict (_extract_additional_entities email_data existing)]>
            classification)
  | _ => Raise AttributeError
  end.

(** The [if]/[elif] chains of the fallback: the first keyword family
    found in the text decides. *)
Fixpoint first_family (families : list (list string * string))
    (text default : string) : string :=
  match families with
  | [] => default
  | (words, value) :: families' =>
      if Str.any_in words text then value
      else first_family families' text default
  end.

Definition category_families : list (list string * string) :=
  [(["bill"; "charge"; "payment"; "invoice"; "subscription"], "Billing Issue");
   (["broken"; "defective"; "not working"; "malfunction"], "Product Defect");
   (["refund"; "return"; "cancel"; "money back"], "Refund Request");
   (["technical"; "bug"; "error"; "login"; "password"], "Technical Support");
   (["delivery"; "shipping"; "late"; "missing"], "Delivery Problem");
   (["account"; "profile"; "settings"], "Account Issue")].

Definition priority_families : list (list string * string) :=
  [(["urgent"; "immediately"; "asap"; "critical"], "Urgent");
   (["broken"; "not working"; "frustrated"; "angry"], "High");
   (["question"; "info"; "help"], "Low")].

Definition sentiment_families : list (list string * string) :=
  [(["angry"; "furious"; "unacceptable"; "terrible"], "Angry");
   (["frustrated"; "annoying"; "disappointed"], "Frustrated");
   (["thank"; "good"; "satisfied"; "happy"], "Satisfied")].

(** [_get_fallback_classification] *)
Definition _get_fallback_classification (email_data : pydict) : res pydict :=
  let text := Str.lower (py_str E (Py.get email_data "subject" (VStr "")) +:+ " "
                         +:+ py_str E (Py.get email_data "body" (VStr ""))) in
  let category := first_family category_families text "General Inquiry" in
  let priority := first_family priority_families text "Medium" in
  let sentiment := first_family sentiment_families text "Neutral" in
  customer_name ← _extract_name_from_sender (Py.get email_data "sender" (VStr ""));
  Ok (dict_of
        [("customer_name", VStr customer_name);
         ("customer_email", Py.get email_data "customer_email" (VStr ""));
         ("category", VStr category);
         ("priority", VStr priority);
         ("sentiment", VStr sentiment);
         ("key_entities", VDict (_extract_additional_entities email_data ∅));
         ("summary", VStr ("Customer complaint regarding " +:+ Str.lower category));
         ("suggested_action", VStr "Review complaint and respond appropriately")]).

(** The body of the [try] of [classify_complaint], asked at instant [t]. *)
Definition classify_primary (t : nat) (email_data : pydict) : res pydict :=
  input_text ← _prepare_input_text email_data;
  match messages_create E t input_text with
  | ApiText response_text =>
      classification_result ← _parse_claude_response response_text;
      _enhance_classification classification_result email_data
  | ApiFailure => Raise ServiceError
  end.

(** [classify_complaint]: [except Exception] runs the fallback, outside
    any handler. *)
Definition classify_complaint (t : nat) (email_data : pydict) : res pydict :=
  match classify_primary t email_data with
  | Ok classification_result => Ok classification_result
  | Raise _ => _get_fallback_classification email_data
  end.

End WithEnv.
End ComplaintClassifier.

(* ===================================================================== *)
(** ** [ai_classifier.py]: [batch_classify] *)
(* ===================================================================== *)

Module ComplaintClassifierBatch.
Section WithEnv.

Variable E : Env.

(** [batch_classify], the first mail being classified at instant [t]: a
    mail whose classification raises gets the fallback classification,
    computed in the handler. *)
Fixpoint batch_classify (t : nat) (email_list : list pydict) : res (list pydict) :=
  match email_list with
  | [] => Ok []
  | email_data :: email_list' =>
      result ← match ComplaintClassifier.classify_complaint E t email_data with
               | Ok result => Ok result
               | Raise _ =>
                   ComplaintClassifier._get_fallback_classification E email_data
               end;
      results ← batch_classify (S t) email_list';
      Ok (result :: results)
  end.

End WithEnv.
End ComplaintClassifierBatch.

(* ===================================================================== *)
(** ** [config.py]: [Config] *)
(* ===================================================================== *)

(** The settings read from the environment that the pipeline uses.
    [os.getenv] gives a string, or [None] for the unset web hook. *)
Record Config : Type := {
  email_address : string;
  billing_team_email : string;
  tech_team_email : string;
  refunds_team_email : string;
  delivery_team_email : string;
  account_team_email : string;
  general_team_email : string;
  manager_email : string;
  slack_webhook_url : option string
}.

Definition team_mapping (config : Config) : list (string * string) :=
  [("Billing Issue", billing_team_email config);
   ("Product Defect", tech_team_email config);
   ("Refund Request", refunds_team_email config);
   ("Technical Support", tech_team_email config);
   ("Delivery Problem", delivery_team_email config);
   ("Account Issue", account_team_email config);
   ("General Inquiry", general_team_email config)].

(** [Config.get_team_email] *)
Definition get_team_email (config : Config) (category : pyval) : res string :=
  Py.table_get (team_mapping config) category (general_team_email config).

(* ===================================================================== *)
(** ** Observable effects *)
(* ===================================================================== *)

(** What became of a mail: building the message raised (the sender's
    [except] clause swallows it), or it was handed to SMTP. *)
Inductive mail_attempt : Type :=
| MailNotBuilt (e : exn)
| MailSent (m : mail) (delivered : bool).

(** What became of a run of [_send_slack_notification] with a web hook:
    preparing the payload raised, or the payload was posted. *)
Inductive slack_attempt : Type :=
| SlackNotBuilt (e : exn)
| SlackPosted (url : string) (payload : slack_message) (outcome : http_outcome).

Inductive event : Type :=
| EvClassify (email_data : pydict)      (** [classifier.classify_complaint] ran *)
| EvAcknowledgment (a : mail_attempt)   (** [send_acknowledgment_email] ran *)
| EvTeamNotification (a : mail_attempt) (** [EmailHandler.send_team_notification] ran *)
| EvSlack (a : slack_attempt)
| EvMarkRead (internal_id : pyval) (ok : bool).

(** Effects are appended to a trace in the order they happen; the length
    of the trace is the instant at which a collaborator is asked. *)
Definition io (A : Type) : Type := list event -> A * list event.

(* ===================================================================== *)
(** ** [email_handler.py]: [EmailHandler] *)
(* ===================================================================== *)

Module EmailHandler.
Section WithEnv.

Variable config : Config.
Variable E : Env.

Definition response_times : list (string * string) :=
  [("Urgent", "within 2 hours"); ("High", "within 4 hours");
   ("Medium", "within 24 hours"); ("Low", "within 48 hours")].

(** [_create_acknowledgment_text]; [category.lower()] needs a string. *)
Definition _create_acknowledgment_text (complaint_data : pydict) : res string :=
  let customer_name := Py.get complaint_data "customer_name" (VStr "Valued Customer") in
  let category := Py.get complaint_data "category" (VStr "your inquiry") in
  let priority := Py.get complaint_data "priority" (VStr "Medium") in
  let assigned_team := Py.get complaint_data "assigned_team" (VStr "our support team") in
  response_time ← Py.table_get response_times priority "within 24 hours";
  category_lower ← match category with
                   | VStr s => Ok (Str.lower s)
                   | _ => Raise AttributeError
                   end;
  Ok ("Dear " +:+ py_str E customer_name +:+ "," +:+ Str.nl +:+ Str.nl
      +:+ "Thank you for contacting us regarding " +:+ category_lower
      +:+ ". We have received your message and want to assure you that we take all customer concerns seriously."
      +:+ Str.nl +:+ Str.nl
      +:+ "Your complaint has been:" +:+ Str.nl
      +:+ "- Categorized as: " +:+ py_str E category +:+ Str.nl
      +:+ "- Priority Level: " +:+ py_str E priority +:+ Str.nl
      +:+ "- Assigned to: " +:+ py_str E assigned_team +:+ Str.nl +:+ Str.nl
      +:+ "We will respond to your inquiry " +:+ response_time
      +:+ " during business hours." +:+ Str.nl +:+ Str.nl
      +:+ "Your complaint reference: #"
      +:+ py_str E (Py.get complaint_data "id" (VStr "TBD")) +:+ Str.nl +:+ Str.nl
      +:+ "If you have any additional information or urgent concerns, please reply to this email or contact us directly."
      +:+ Str.nl +:+ Str.nl
      +:+ "Thank you for your patience and for choosing our services."
      +:+ Str.nl +:+ Str.nl
      +:+ "Best regards," +:+ Str.nl
      +:+ "Customer Service Team").

(** [send_acknowledgment_email] *)
Definition send_acknowledgment_email (customer_email : pyval)
    (complaint_data : pydict) : io bool := fun tr =>
  match _create_acknowledgment_text complaint_data with
  | Ok text =>
      let msg := Mail (email_address config) customer_email
                   ("Re: " +:+ py_str E (Py.get complaint_data "subject"
                                           (VStr "Your Complaint")))
                   text in
      let ok := smtp_deliver E (List.length tr) msg in
      (ok, tr ++ [EvAcknowledgment (MailSent msg ok)])
  | Raise e => (false, tr ++ [EvAcknowledgment (MailNotBuilt e)])
  end.

(** [_create_team_notification_text] *)
Definition _create_team_notification_text (complaint_data : pydict) : res string :=
  let field k default := py_str E (Py.get complaint_data k (VStr default)) in
  excerpt ← py_take 500 (Py.get complaint_data "body" (VStr "No body content"));
  n ← py_len (Py.get complaint_data "body" (VStr ""));
  Ok ("NEW CUSTOMER COMPLAINT ASSIGNED" +:+ Str.nl +:+ Str.nl
      +:+ "Complaint ID: #" +:+ field "id" "TBD" +:+ Str.nl
      +:+ "Priority: " +:+ field "priority" "Medium" +:+ Str.nl
      +:+ "Category: " +:+ field "category" "Unknown" +:+ Str.nl
      +:+ "Sentiment: " +:+ field "sentiment" "Neutral" +:+ Str.nl +:+ Str.nl
      +:+ "Customer Details:" +:+ Str.nl
      +:+ "- Name: " +:+ field "customer_name" "Unknown" +:+ Str.nl
      +:+ "- Email: " +:+ field "customer_email" "Unknown" +:+ Str.nl +:+ Str.nl
      +:+ "Subject: " +:+ field "subject" "No subject" +:+ Str.nl +:+ Str.nl
      +:+ "Complaint Summary:" +:+ Str.nl
      +:+ field "summary" "No summary available" +:+ Str.nl +:+ Str.nl
      +:+ "Suggested Action:" +:+ Str.nl
      +:+ field "suggested_action" "Review and respond appropriately"
      +:+ Str.nl +:+ Str.nl
      +:+ "Key Entities:" +:+ Str.nl
      +:+ field "key_entities" "None identified" +:+ Str.nl +:+ Str.nl
      +:+ "Full Complaint Body:" +:+ Str.nl
      +:+ py_str E excerpt +:+ (if Nat.ltb 500 n then "..." else "")
      +:+ Str.nl +:+ Str.nl
      +:+ "Please respond promptly based on the priority level.").

(** The subject line of [send_team_notification]. *)
Definition team_subject (complaint_data : pydict) : string :=
  "New " +:+ py_str E (Py.get complaint_data "priority" (VStr "Medium"))
  +:+ " Priority Complaint - #"
  +:+ py_str E (Py.get complaint_data "id" (VStr "TBD")).

(** [send_team_notification] *)
Definition send_team_notification (team_email : pyval)
    (complaint_data : pydict) : io bool := fun tr =>
  match _create_team_notification_text complaint_data with
  | Ok text =>
      let msg := Mail (email_address config) team_email
                   (team_subject complaint_data) text in
      let ok := smtp_deliver E (List.length tr) msg in
      (ok, tr ++ [EvTeamNotification (MailSent msg ok)])
  | Raise e => (false, tr ++ [EvTeamNotification (MailNotBuilt e)])
  end.

(** [mark_as_read] *)
Definition mark_as_read (internal_id : pyval) : io bool := fun tr =>
  let ok := imap_store E (List.length tr) internal_id in
  (ok, tr ++ [EvMarkRead internal_id ok]).

End WithEnv.
End EmailHandler.

(* ===================================================================== *)
(** ** [router.py]: [ComplaintRouter] *)
(* ===================================================================== *)

(** [s in container] for a string literal [s] *)
Definition py_contains_str (container : pyval) (s : string) : res bool :=
  match container with
  | VList l => Ok (existsb (fun v => Py.eq_str v s) l)
  | VStr t => Ok (Str.contains s t)
  | VDict d => Ok (bool_decide (is_Some (d !! s)))
  | _ => Raise TypeError
  end.

Module ComplaintRouter.
Section WithEnv.

Variable config : Config.
Variable E : Env.

Definition escalation_rules : list (string * list string) :=
  [("Urgent", ["manager"; "team"]);
   ("High", ["manager"]);
   ("Medium", ["team"]);
   ("Low", ["team"])].

Definition team_table : list (string * string) :=
  [("Billing Issue", "Billing Team");
   ("Product Defect", "Technical Team");
   ("Refund Request", "Refunds Team");
   ("Technical Support", "Technical Team");
   ("Delivery Problem", "Delivery Team");
   ("Account Issue", "Account Team");
   ("General Inquiry", "General Support Team")].

(** [_determine_assigned_team] *)
Definition _determine_assigned_team (category : pyval) : res string :=
  Py.table_get team_table category "General Support Team".

(** [_determine_escalation_actions] *)
Definition _determine_escalation_actions (priority : pyval) : res (list string) :=
  Py.table_get escalation_rules priority ["team"].

Definition str_list (l : list string) : pyval := VList (map VStr l).

(** [_get_fallback_routing], its clock read at instant [t] *)
Definition _get_fallback_routing (t : nat) (complaint_data : pydict) : pydict :=
  dict_of [("complaint_id", Py.get complaint_data "id" VNone);
           ("assigned_team", VStr "General Support Team");
           ("team_email", VStr (general_team_email config));
           ("priority", VStr "Medium");
           ("escalation_actions", str_list ["team"]);
           ("routing_timestamp", VStr (now_iso E t));
           ("status", VStr "routed_fallback")].

(** [route_complaint]. The dict [complaint_data] is passed by reference
    and assigned to: the second component is its content when the call
    returns. Either path reads the clock once, at instant [t]. *)
Definition route_complaint (t : nat) (complaint_data : pydict)
    : pydict * pydict :=
  let category := Py.get complaint_data "category" (VStr "General Inquiry") in
  let priority := Py.get complaint_data "priority" (VStr "Medium") in
  let complaint_id := Py.get complaint_data "id" VNone in
  match _determine_assigned_team category with
  | Ok assigned_team =>
      let complaint_data := <["assigned_team" := VStr assigned_team]> complaint_data in
      match (escalation_actions ← _determine_escalation_actions priority;
             team_email ← get_team_email config category;
             Ok (dict_of [("complaint_id", complaint_id);
                          ("assigned_team", VStr assigned_team);
                          ("team_email", VStr team_email);
                          ("priority", priority);
                          ("escalation_actions", str_list escalation_actions);
                          ("routing_timestamp", VStr (now_iso E t));
                          ("status", VStr "routed")])) with
      | Ok routing_result => (routing_result, complaint_data)
      | Raise _ => (_get_fallback_routing t complaint_data, complaint_data)
      end
  | Raise _ => (_get_fallback_routing t complaint_data, complaint_data)
  end.

Definition priority_emoji : list (string * emoji) :=
  [("Urgent", EmojiUrgent); ("High", EmojiHigh);
   ("Medium", EmojiMedium); ("Low", EmojiLow)].

(** [_get_priority_color] *)
Definition _get_priority_color (priority : pyval) : res string :=
  Py.table_get [("Urgent", "danger"); ("High", "warning");
                ("Medium", "good"); ("Low", "#36a64f")] priority "good".

(** The payload [slack_message] of [_send_slack_notification], its
    timestamp read at instant [t]. *)
Definition slack_payload (t : nat) (routing_result complaint_data : pydict)
    : res slack_message :=
  priority ← Py.item routing_result "priority";
  emoji ← Py.table_get priority_emoji priority EmojiMedium;
  color ← _get_priority_color priority;
  assigned_team ← Py.item routing_result "assigned_team";
  summary ← py_take 200 (Py.get complaint_data "summary"
                           (VStr "No summary available"));
  Ok (SlackMessage emoji
        (" New " +:+ py_str E priority +:+ " Priority Complaint")
        color
        [("Complaint ID",
          VStr ("#" +:+ py_str E (Py.get complaint_data "id" (VStr "TBD"))), true);
         ("Category", Py.get complaint_data "category" (VStr "Unknown"), true);
         ("Priority", priority, true);
         ("Assigned Team", assigned_team, true);
         ("Customer",
          VStr (py_str E (Py.get complaint_data "customer_name" (VStr "Unknown"))
                +:+ " ("
                +:+ py_str E (Py.get complaint_data "customer_email" (VStr "Unknown"))
                +:+ ")"), false);
         ("Summary", summary, false)]
        "Complaint Triage Agent"
        (now_ts E t)).

(** [bool(self.slack_webhook_url)] *)
Definition webhook_configured : bool :=
  match slack_webhook_url config with
  | Some url => negb (String.eqb url "")
  | None => false
  end.

(** [_send_slack_notification] *)
Definition _send_slack_notification (routing_result complaint_data : pydict)
    : io bool := fun tr =>
  match slack_webhook_url config with
  | Some url =>
      if String.eqb url "" then (false, tr)
      else
        match slack_payload (List.length tr) routing_result complaint_data with
        | Ok payload =>
            let outcome := requests_post E (List.length tr) url payload in
            (match outcome with
             | HttpStatus code => Z.eqb code 200
             | HttpRaises => false
             end,
             tr ++ [EvSlack (SlackPosted url payload outcome)])
        | Raise e => (false, tr ++ [EvSlack (SlackNotBuilt e)])
        end
  | None => (false, tr)
  end.

(** [_create_manager_notification] *)
Definition _create_manager_notification (routing_result complaint_data : pydict)
    : res pydict :=
  priority ← Py.item routing_result "priority";
  Ok (Py.merge complaint_data
        (dict_of
           [("subject",
             VStr ("ESCALATION: " +:+ py_str E priority
                   +:+ " Priority Complaint - #"
                   +:+ py_str E (Py.get complaint_data "id" (VStr "TBD"))));
            ("escalation_reason",
             VStr ("Complaint escalated due to " +:+ py_str E priority
                   +:+ " priority level"));
            ("assigned_team", VStr "Management")])).

(** [_send_escalation_notifications]. [manager_notification] is built
    and then not used: the mail is made from [complaint_data]. *)
Definition _send_escalation_notifications
    (routing_result complaint_data : pydict) : io bool := fun tr =>
  let escalation_actions := Py.get routing_result "escalation_actions" (VList []) in
  match py_contains_str escalation_actions "manager" with
  | Ok true =>
      match _create_manager_notification routing_result complaint_data with
      | Ok manager_notification =>
          EmailHandler.send_team_notification config E
            (VStr (manager_email config)) complaint_data tr
      | Raise _ => (false, tr)
      end
  | Ok false => (true, tr)
  | Raise _ => (false, tr)
  end.

(** [send_team_notification]: the values of [slack_sent] and
    [escalation_sent] are logged; [email_sent] is returned. *)
Definition send_team_notification (routing_result complaint_data : pydict)
    : io bool := fun tr =>
  match Py.item routing_result "team_email" with
  | Ok team_email =>
      let '(email_sent, tr) :=
        EmailHandler.send_team_notification config E team_email complaint_data tr in
      match (if webhook_configured
             then priority ← Py.item routing_result "priority";
                  Ok (Py.in_strs priority ["Urgent"; "High"])
             else Ok false) : res bool with
      | Ok high_priority =>
          let '(slack_sent, tr) :=
            (if high_priority
             then _send_slack_notification routing_result complaint_data tr
             else (false, tr)) : bool * list event in
          let '(escalation_sent, tr) :=
            _send_escalation_notifications routing_result complaint_data tr in
          (email_sent, tr)
      | Raise _ => (false, tr)
      end
  | Raise _ => (false, tr)
  end.

End WithEnv.
End ComplaintRouter.

(* ===================================================================== *)
(** ** [database.py]: [ComplaintDatabase] *)
(* ===================================================================== *)

(** The table [complaints]. Every column the program writes has [TEXT]
    affinity; [email_id] is [UNIQUE NOT NULL]; [id] is
    [INTEGER PRIMARY KEY AUTOINCREMENT]. *)
Module ComplaintDatabase.

Record row : Type := Row {
  row_id : Z;
  row_email_id : string;
  row_columns : pydict     (** the other columns *)
}.

Record database : Type := Database {
  rows : list row;
  last_rowid : Z           (** the largest [id] handed out so far *)
}.

(** [dict(row)] *)
Definition dict_of_row (r : row) : pydict :=
  <["id" := VInt (row_id r)]>
    (<["email_id" := VStr (row_email_id r)]> (row_columns r)).

(** Binding a parameter: [sqlite3] takes [None], [int] (64 bits),
    [float] and [str]; anything else is refused. *)
Definition sql_bind (v : pyval) : res pyval :=
  match v with
  | VList _ | VDict _ => Raise ProgrammingError
  | VInt z =>
      if ((- 2 ^ 63 <=? z) && (z <? 2 ^ 63))%Z then Ok v
      else Raise OverflowError
  | _ => Ok v
  end.

Section WithEnv.

Variable E : Env.

(** The text a bound value has under [TEXT] affinity; [None] is NULL. *)
Definition sql_text (v : pyval) : option string :=
  match v with
  | VStr s => Some s
  | VInt z => Some (Str.of_Z z)
  | VBool b => Some (if b then "1" else "0")
  | VFloat f => sqlite_real_text E f
  | _ => None
  end.

Definition sql_store (v : pyval) : pyval :=
  match sql_text v with
  | Some s => VStr s
  | None => VNone
  end.

Definition find_by_email_id (key : string) (db : database) : option row :=
  List.find (fun r => String.eqb (row_email_id r) key) (rows db).

(** [get_complaint_by_email_id] *)
Definition get_complaint_by_email_id (email_id : pyval) (db : database)
    : res (option pydict) :=
  v ← sql_bind email_id;
  Ok (match sql_text v with
      | Some key => option_map dict_of_row (find_by_email_id key db)
      | None => None
      end).

Definition integrity_error : exn :=
  ValueError "Complaint with this email ID already exists".

(** [insert_complaint] at instant [t]: the tuple of parameters is built
    first ([complaint_data[k]] raises [KeyError] on a missing key), then
    bound, then checked against the constraints of the table
    ([sqlite3.IntegrityError] is re-raised as [ValueError]). *)
Definition insert_complaint (t : nat) (complaint_data : pydict) (db : database)
    : res Z * database :=
  match (email_id ← Py.item complaint_data "email_id";
         customer_email ← Py.item complaint_data "customer_email";
         let customer_name := Py.get complaint_data "customer_name" VNone in
         subject ← Py.item complaint_data "subject";
         body ← Py.item complaint_data "body";
         category ← Py.item complaint_data "category";
         priority ← Py.item complaint_data "priority";
         let sentiment := Py.get complaint_data "sentiment" VNone in
         assigned_team ← Py.item complaint_data "assigned_team";
         let key_entities := Py.get complaint_data "key_entities" (VStr "") in
         let summary := Py.get complaint_data "summary" (VStr "") in
         let suggested_action := Py.get complaint_data "suggested_action" (VStr "") in
         email_id ← sql_bind email_id;
         customer_email ← sql_bind customer_email;
         customer_name ← sql_bind customer_name;
         subject ← sql_bind subject;
         body ← sql_bind body;
         category ← sql_bind category;
         priority ← sql_bind priority;
         sentiment ← sql_bind sentiment;
         assigned_team ← sql_bind assigned_team;
         key_entities ← sql_bind key_entities;
         summary ← sql_bind summary;
         suggested_action ← sql_bind suggested_action;
         match sql_text email_id, sql_text customer_email, sql_text subject,
               sql_text body, sql_text category, sql_text priority,
               sql_text assigned_team with
         | Some key, Some _, Some _, Some _, Some _, Some _, Some _ =>
             match find_by_email_id key db with
             | Some _ => Raise integrity_error
             | None =>
                 Ok (Row (last_rowid db + 1) key
                       (dict_of
                          [("customer_email", sql_store customer_email);
                           ("customer_name", sql_store customer_name);
                           ("subject", sql_store subject);
                           ("body", sql_store body);
                           ("category", sql_store category);
                           ("priority", sql_store priority);
                           ("sentiment", sql_store sentiment);
                           ("assigned_team", sql_store assigned_team);
                           ("status", VStr "New");
                           ("key_entities", sql_store key_entities);
                           ("summary", sql_store summary);
                           ("suggested_action", sql_store suggested_action);
                           ("created_at", VStr (sqlite_timestamp E t));
                           ("updated_at", VStr (sqlite_timestamp E t))]))
             end
         | _, _, _, _, _, _, _ => Raise integrity_error
         end) with
  | Ok r => (Ok (row_id r), Database (rows db ++ [r]) (row_id r))
  | Raise e => (Raise e, db)
  end.

End WithEnv.
End ComplaintDatabase.

(* ===================================================================== *)
(** ** [database.py]: reading and updating records *)
(* ===================================================================== *)

Module ComplaintRecords.
Import ComplaintDatabase.

(** What [update_status] comes to: it returns a flag, or an exception
    leaves it; [sqlite3.IntegrityError] is re-raised as it is. *)
Inductive update_outcome : Type :=
| Updated (found : bool)
| UpdateRaises (e : exn)
| UpdateIntegrityError.

(** The store satisfies the constraints of the table: [id] is a primary
    key handed out in increasing order and [email_id] is unique. *)
Definition consistent (db : database) : Prop :=
  NoDup (map row_id (rows db)) /\
  NoDup (map row_email_id (rows db)) /\
  Forall (fun r => (row_id r <= last_rowid db)%Z) (rows db).

Definition find_by_id (complaint_id : Z) (db : database) : option row :=
  List.find (fun r => Z.eqb (row_id r) complaint_id) (rows db).

(** [get_complaint] (and its alias [get_complaint_by_id]), for the [int]
    the signature asks for. *)
Definition get_complaint (complaint_id : Z) (db : database) : res (option pydict) :=
  _ ← sql_bind (VInt complaint_id);
  Ok (option_map dict_of_row (find_by_id complaint_id db)).

(** [if not complaint]: the record, when there is one and it is true in
    the Python sense. *)
Definition present (complaint : option pydict) : option pydict :=
  match complaint with
  | Some found => if Py.truthy (VDict found) then Some found else None
  | None => None
  end.

(** Two stores hold the same records, in the same order and under the same
    keys, and differ at most in the listed columns. *)
Definition same_but (columns : list string) (db db' : database) : Prop :=
  last_rowid db' = last_rowid db /\
  Forall2 (fun r r' => row_id r' = row_id r /\
                       row_email_id r' = row_email_id r /\
                       forall k, ~ In k columns ->
                                 row_columns r' !! k = row_columns r !! k)
    (rows db) (rows db').


Section WithEnv.

Variable E : Env.

(** The [UPDATE] of [update_status] on one row. *)
Definition set_status (t : nat) (status : pyval) (assigned_team : option pyval)
    (r : row) : row :=
  let columns := <["status" := sql_store E status]> (row_columns r) in
  let columns := <["updated_at" := VStr (sqlite_timestamp E t)]> columns in
  Row (row_id r) (row_email_id r)
    (match assigned_team with
     | Some team => <["assigned_team" := sql_store E team]> columns
     | None => columns
     end).

(** [update_status] (and its alias [update_complaint_status]) at instant
    [t]; [assigned_team] is [None] when the argument is left out. The
    parameters are bound first; when a row has the id, the new team must
    not be NULL. *)
Definition update_status (t : nat) (complaint_id : Z) (status assigned_team : pyval)
    (db : database) : update_outcome * database :=
  match (status ← sql_bind status;
         team ← (if Py.truthy assigned_team
                 then team ← sql_bind assigned_team; Ok (Some team)
                 else Ok None);
         _ ← sql_bind (VInt complaint_id);
         Ok (status, team)) with
  | Raise e => (UpdateRaises e, db)
  | Ok (status, team) =>
      match find_by_id complaint_id db with
      | None => (Updated false, db)
      | Some _ =>
          if match team with
             | Some v => bool_decide (sql_text E v = None)
             | None => false
             end
          then (UpdateIntegrityError, db)
          else (Updated true,
                Database
                  (map (fun r => if Z.eqb (row_id r) complaint_id
                                 then set_status t status team r else r)
                     (rows db))
                  (last_rowid db))
      end
  end.

End WithEnv.
End ComplaintRecords.

(* ===================================================================== *)
(** ** [main.py]: [ComplaintTriageAgent] *)
(* ===================================================================== *)

Module ComplaintTriageAgent.

(** The dict [result] of [process_single_complaint]. *)
Record result : Type := Result {
  classified : Z;
  routed : Z;
  notifications_sent : Z
}.

(** The store and the effects so far. *)
Record world : Type := World {
  w_db : ComplaintDatabase.database;
  w_trace : list event
}.

Section WithEnv.

Variable config : Config.
Variable E : Env.

(** Step 5 of [process_single_complaint]: the acknowledgment, if the
    complaint has a customer address, then the team notification. *)
Definition send_notifications (routing_result complaint_data : pydict)
    : io Z := fun tr =>
  let '(ack, tr) :=
    (if Py.truthy_get complaint_data "customer_email"
     then EmailHandler.send_acknowledgment_email config E
            (Py.get complaint_data "customer_email" VNone) complaint_data tr
     else (false, tr)) : bool * list event in
  let '(team, tr) :=
    ComplaintRouter.send_team_notification config E
      routing_result complaint_data tr in
  ((if ack then 1 else 0) + (if team then 1 else 0), tr)%Z.

(** [process_single_complaint]; an exception leaves the function (the
    handler logs and re-raises) with the effects made so far. *)
Definition process_single_complaint (email_data : pydict) (w : world)
    : res result * world :=
  let email_id := Py.get email_data "email_id" (VStr "unknown") in
  match ComplaintDatabase.get_complaint_by_email_id E email_id (w_db w) with
  | Raise e => (Raise e, w)
  | Ok existing_complaint =>
      if match existing_complaint with
         | Some found => Py.truthy (VDict found)
         | None => false
         end
      then (Ok (Result 0 0 0), w)
      else
        let tr := w_trace w ++ [EvClassify email_data] in
        match ComplaintClassifier.classify_complaint E (List.length tr) email_data with
        | Raise e => (Raise e, World (w_db w) tr)
        | Ok classification_result =>
            let complaint_data :=
              Py.merge
                (dict_of
                   [("email_id", email_id);
                    ("customer_email", Py.get email_data "customer_email" (VStr ""));
                    ("subject", Py.get email_data "subject" (VStr ""));
                    ("body", Py.get email_data "body" (VStr ""))])
                classification_result in
            match ComplaintDatabase.insert_complaint E (List.length tr)
                    complaint_data (w_db w) with
            | (Raise e, db) => (Raise e, World db tr)
            | (Ok complaint_id, db) =>
                let complaint_data := <["id" := VInt complaint_id]> complaint_data in
                let '(routing_result, complaint_data) :=
                  ComplaintRouter.route_complaint config E (List.length tr)
                    complaint_data in
                let complaint_data := Py.merge complaint_data routing_result in
                let '(notifications_sent, tr) :=
                  send_notifications routing_result complaint_data tr in
                let tr :=
                  if Py.truthy_get email_data "internal_id"
                  then snd (EmailHandler.mark_as_read E
                              (Py.get email_data "internal_id" VNone) tr)
                  else tr in
                (Ok (Result 1 1 notifications_sent), World db tr)
            end
        end
  end.

End WithEnv.
End ComplaintTriageAgent.

(* ===================================================================== *)
(** ** [main.py]: [process_complaints] *)
(* ===================================================================== *)

Module ProcessingCycle.
Import ComplaintTriageAgent.

(** The dict [results] of [process_complaints]; the processing time is the
    integer [0] until the loop has finished. *)
Record results : Type := Results {
  emails_processed : Z;
  complaints_classified : Z;
  complaints_routed : Z;
  notifications_sent : Z;
  errors : Z;
  processing_time : pyval
}.

(** [l[:n]] for an [int] [n]: a negative [n] counts from the end. *)
Definition py_slice_to {A : Type} (n : Z) (l : list A) : list A :=
  if (0 <=? n)%Z then firstn (Z.to_nat n) l
  else firstn (Z.to_nat (Z.of_nat (List.length l) + n)) l.

Section WithEnv.

Variable config : Config.
Variable E : Env.

(** The body of the loop: the counters move when the mail was processed,
    and an exception is counted and the loop goes on. *)
Definition count (outcome : res result) (r : results) : results :=
  match outcome with
  | Ok result =>
      Results (emails_processed r + 1)
        (complaints_classified r + classified result)
        (complaints_routed r + routed result)
        (notifications_sent r + ComplaintTriageAgent.notifications_sent result)
        (errors r) (processing_time r)
  | Raise _ =>
      Results (emails_processed r) (complaints_classified r) (complaints_routed r)
        (notifications_sent r) (errors r + 1) (processing_time r)
  end%Z.

Fixpoint process_each (emails_to_process : list pydict) (r : results) (w : world)
    : results * world :=
  match emails_to_process with
  | [] => (r, w)
  | email_data :: emails_to_process' =>
      let '(outcome, w) := process_single_complaint config E email_data w in
      process_each emails_to_process' (count outcome r) w
  end.

(** [process_complaints]. [unread] is what [get_unread_emails] gives (it
    can raise from its [finally] clause) and [elapsed] the seconds between
    the two readings of the clock. *)
Definition process_complaints (unread : res (list pydict)) (max_emails : Z)
    (elapsed : float) (w : world) : results * world :=
  let r := Results 0 0 0 0 0 (VInt 0) in
  match unread with
  | Raise _ => (Results 0 0 0 0 1 (VInt 0), w)
  | Ok [] => (r, w)
  | Ok unread_emails =>
      let '(r, w) := process_each (py_slice_to max_emails unread_emails) r w in
      (Results (emails_processed r) (complaints_classified r) (complaints_routed r)
         (notifications_sent r) (errors r) (VFloat elapsed), w)
  end.

(** [run_once]: the exit status, when [sys.exit] is called. *)
Definition run_once (unread : res (list pydict)) (elapsed : float) (w : world)
    : option Z * world :=
  let '(r, w) := process_complaints unread 50 elapsed w in
  (if (0 <? errors r)%Z then Some 1%Z else None, w).

End WithEnv.
End ProcessingCycle.

(* ===================================================================== *)
(** ** [api.py]: the endpoints on complaints *)
(* ===================================================================== *)

Module Api.
Import ComplaintDatabase ComplaintRecords ComplaintTriageAgent.

(** What a view returns: the JSON document and the HTTP status. *)
Record response : Type := Response {
  document : pydict;
  status_code : Z
}.

(** [success_response] *)
Definition success_response (data : pyval) (message : pyval) : pydict :=
  let response := dict_of [("success", VBool true); ("data", data)] in
  if Py.truthy message then <["message" := message]> response else response.

(** [error_response] *)
Definition error_response (error : string) (code : Z) : response :=
  Response (dict_of [("success", VBool false); ("error", VStr error);
                     ("code", VInt code)]) code.

Definition required_fields : list string :=
  ["customer_name"; "customer_email"; "subject"; "body"].

(** What [jsonify] shows for an optional record. *)
Definition json_of (complaint : option pydict) : pyval :=
  match complaint with
  | Some found => VDict found
  | None => VNone
  end.

(** [v[k]] for a string literal [k]: only a dict can be subscripted with
    a string. *)
Definition py_item (v : pyval) (k : string) : res pyval :=
  match v with
  | VDict d => Py.item d k
  | _ => Raise TypeError
  end.

(** What a view function returns: [jsonify(...)] alone, or a pair of it
    and a status. *)
Inductive view : Type :=
| Json (document : pydict)
| JsonStatus (document : pydict) (code : Z).

(** [l[start:stop]] for [int]s: a negative index counts from the end, and
    both are clipped to the list. *)
Definition py_slice {A : Type} (start stop : Z) (l : list A) : list A :=
  let n := Z.of_nat (List.length l) in
  let clip (i : Z) := if (i <? 0)%Z then Z.max 0 (n + i) else Z.min i n in
  firstn (Z.to_nat (clip stop - clip start)) (skipn (Z.to_nat (clip start)) l).

(** A filter of [get_complaints],
    [if value and complaint[column] != value: continue]: [true] when the
    complaint is passed over. A parameter of the query string is a string,
    or [None] when it is absent. *)
Definition differs (value : option string) (column : string) (complaint : pydict)
    : res bool :=
  match value with
  | Some v =>
      if negb (String.eqb v "")
      then stored ← Py.item complaint column; Ok (negb (Py.eq_str stored v))
      else Ok false
  | None => Ok false
  end.

(** [if search and search.lower() not in
    (complaint['subject'] + ' ' + complaint['body']).lower(): continue] *)
Definition search_misses (search : option string) (complaint : pydict) : res bool :=
  match search with
  | Some q =>
      if negb (String.eqb q "")
      then subject ← Py.item complaint "subject";
           match subject with
           | VStr subject =>
               body ← Py.item complaint "body";
               match body with
               | VStr body =>
                   Ok (negb (Str.contains (Str.lower q)
                               (Str.lower (subject +:+ " " +:+ body))))
               | _ => Raise TypeError
               end
           | _ => Raise TypeError
           end
      else Ok false
  | None => Ok false
  end.

(** The loop of [get_complaints] that applies the filters. *)
Fixpoint filter_complaints (status priority category search : option string)
    (all_complaints : list pydict) : res (list pydict) :=
  match all_complaints with
  | [] => Ok []
  | complaint :: all_complaints' =>
      skip ← (by_status ← differs status "status" complaint;
              if (by_status : bool) then Ok true
              else by_priority ← differs priority "priority" complaint;
                   if (by_priority : bool) then Ok true
                   else by_category ← differs category "category" complaint;
                        if (by_category : bool) then Ok true
                        else search_misses search complaint);
      filtered_complaints ← filter_complaints status priority category search
                              all_complaints';
      Ok (if (skip : bool) then filtered_complaints
          else complaint :: filtered_complaints)
  end.

(** [get_complaints]. [page] and [limit] are the results of [int(...)] on
    the parameters of the query string and [all_complaints] is what
    [get_recent_complaints(limit=1000)] gives. *)
Definition get_complaints (status priority category search : option string)
    (page limit : res Z) (all_complaints : res (list pydict)) : response :=
  match (page ← page;
         limit ← limit;
         all_complaints ← all_complaints;
         filtered_complaints ← filter_complaints status priority category search
                                 all_complaints;
         Ok (page, limit, filtered_complaints)) with
  | Ok (page, limit, filtered_complaints) =>
      let total := Z.of_nat (List.length filtered_complaints) in
      let start := ((page - 1) * limit)%Z in
      let stop := (start + limit)%Z in
      let paginated_complaints := py_slice start stop filtered_complaints in
      if (limit =? 0)%Z
      then error_response "Failed to fetch complaints" 500
      else Response
             (success_response
                (VDict (dict_of
                   [("complaints", VList (map VDict paginated_complaints));
                    ("total", VInt total);
                    ("page", VInt page);
                    ("total_pages", VInt ((total + limit - 1) / limit));
                    ("limit", VInt limit)]))
                VNone)
             200
  | Raise _ => error_response "Failed to fetch complaints" 500
  end.

(** The complaints of a page that was answered. *)
Definition page_complaints (r : response) : list pyval :=
  match document r !! "data" with
  | Some (VDict result) =>
      match result !! "complaints" with
      | Some (VList complaints) => complaints
      | _ => []
      end
  | _ => []
  end.

(** The list [teams] of [get_teams]. *)
Definition team_list (config : Config) (team_stats : pydict) : list pyval :=
  let team (id : Z) (name email description : string) (categories : list string) :=
    VDict (dict_of [("id", VInt id);
                    ("name", VStr name);
                    ("email", VStr email);
                    ("description", VStr description);
                    ("active_complaints", Py.get team_stats email (VInt 0));
                    ("categories", ComplaintRouter.str_list categories)]) in
  [team 1%Z "Billing Team" (billing_team_email config)
     "Handles billing and payment issues" ["Billing Issue"];
   team 2%Z "Technical Team" (tech_team_email config)
     "Handles technical support and product defects"
     ["Technical Support"; "Product Defect"];
   team 3%Z "Refunds Team" (refunds_team_email config)
     "Processes refunds and returns" ["Refund Request"];
   team 4%Z "Delivery Team" (delivery_team_email config)
     "Manages shipping and delivery issues" ["Delivery Problem"];
   team 5%Z "Account Team" (account_team_email config)
     "Handles account-related issues" ["Account Issue"];
   team 6%Z "General Support Team" (general_team_email config)
     "Handles general inquiries and other issues" ["General Inquiry"]].

(** [get_teams], given what [database.get_analytics()] returns:
    [team_stats.get] needs a dict. *)
Definition get_teams (config : Config) (analytics : res pydict) : view :=
  match (analytics ← analytics;
         match Py.get analytics "by_team" (VDict ∅) with
         | VDict team_stats => Ok team_stats
         | _ => Raise AttributeError
         end) with
  | Ok team_stats => Json (success_response (VList (team_list config team_stats)) VNone)
  | Raise _ =>
      JsonStatus (document (error_response "Failed to fetch teams" 500)) 500
  end.

Section AssignToTeam.

(** What [assign_to_team] does from [teams_data] on (it looks for the
    team, updates the record and answers), left open. *)
Variable assign : pyval -> pyval -> Z -> world -> response * world.

(** [assign_to_team]: [teams_response[0]] subscripts what [get_teams]
    returned, and the object [jsonify] gives cannot be subscripted. *)
Definition assign_to_team (config : Config) (team_id : Z)
    (request_json : res pyval) (analytics : res pydict) (w : world)
    : response * world :=
  let failed := (error_response "Failed to assign complaint to team" 500, w) in
  match request_json with
  | Ok (VDict data) =>
      let complaint_id := Py.get data "complaint_id" VNone in
      if negb (Py.truthy complaint_id)
      then (error_response "Missing complaint_id" 400, w)
      else
        match get_teams config analytics with
        | Json _ => failed
        | JsonStatus document _ =>
            match Py.item document "data" with
            | Ok teams_data => assign teams_data complaint_id team_id w
            | Raise _ => failed
            end
        end
  | _ => failed
  end.

End AssignToTeam.

Section WithEnv.

Variable config : Config.
Variable E : Env.

(** The dict [email_data] that [create_complaint] classifies; [stamp] is
    the text of [datetime.now().timestamp()]. *)
Definition form_email_data (stamp : string) (data : pydict) : res pydict :=
  subject ← Py.item data "subject";
  body ← Py.item data "body";
  customer_name ← Py.item data "customer_name";
  customer_email ← Py.item data "customer_email";
  Ok (dict_of [("email_id", VStr ("web-form-" +:+ stamp));
               ("subject", subject);
               ("body", body);
               ("sender", VStr (py_str E customer_name +:+ " <"
                                +:+ py_str E customer_email +:+ ">"));
               ("customer_email", customer_email)]).

(** The dict [complaint_data] that [create_complaint] stores. *)
Definition form_complaint_data (data email_data classification_result : pydict)
    : res pydict :=
  email_id ← Py.item email_data "email_id";
  customer_email ← Py.item data "customer_email";
  customer_name ← Py.item data "customer_name";
  subject ← Py.item data "subject";
  body ← Py.item data "body";
  category ← Py.item classification_result "category";
  priority ← Py.item classification_result "priority";
  sentiment ← Py.item classification_result "sentiment";
  category' ← Py.item classification_result "category";
  assigned_team ← ComplaintRouter._determine_assigned_team category';
  key_entities ← Py.item classification_result "key_entities";
  summary ← Py.item classification_result "summary";
  suggested_action ← Py.item classification_result "suggested_action";
  Ok (dict_of [("email_id", email_id);
               ("customer_email", customer_email);
               ("customer_name", customer_name);
               ("subject", subject);
               ("body", body);
               ("category", category);
               ("priority", priority);
               ("sentiment", sentiment);
               ("assigned_team", VStr assigned_team);
               ("key_entities", VStr (py_str E key_entities));
               ("summary", summary);
               ("suggested_action", suggested_action)]).

(** [create_complaint] for the request body [request_json] (what
    [request.get_json()] gives). Any exception ends in the answer 500, with
    the effects made so far. *)
Definition create_complaint (stamp : string) (request_json : res pyval) (w : world)
    : response * world :=
  let failed (w : world) := (error_response "Failed to create complaint" 500, w) in
  match request_json with
  | Ok (VDict data) =>
      match List.find (fun field => negb (Py.truthy_get data field))
              required_fields with
      | Some field => (error_response ("Missing required field: " +:+ field) 400, w)
      | None =>
          match form_email_data stamp data with
          | Raise _ => failed w
          | Ok email_data =>
              let tr := w_trace w ++ [EvClassify email_data] in
              match ComplaintClassifier.classify_complaint E (List.length tr)
                      email_data with
              | Raise _ => failed (World (w_db w) tr)
              | Ok classification_result =>
                  match form_complaint_data data email_data
                          classification_result with
                  | Raise _ => failed (World (w_db w) tr)
                  | Ok complaint_data =>
                      match insert_complaint E (List.length tr) complaint_data
                              (w_db w) with
                      | (Raise _, db) => failed (World db tr)
                      | (Ok complaint_id, db) =>
                          let complaint_data :=
                            <["id" := VInt complaint_id]> complaint_data in
                          let '(routing_result, complaint_data) :=
                            ComplaintRouter.route_complaint config E
                              (List.length tr) complaint_data in
                          let complaint_data :=
                            Py.merge complaint_data routing_result in
                          match Py.item data "customer_email" with
                          | Raise _ => failed (World db tr)
                          | Ok customer_email =>
                              let '(email_sent, tr) :=
                                EmailHandler.send_acknowledgment_email config E
                                  customer_email complaint_data tr in
                              let '(notification_sent, tr) :=
                                ComplaintRouter.send_team_notification config E
                                  routing_result complaint_data tr in
                              (Response
                                 (success_response
                                    (VDict
                                       (Py.merge complaint_data
                                          (dict_of
                                             [("email_sent", VBool email_sent);
                                              ("notification_sent",
                                               VBool notification_sent)])))
                                    (VStr "Complaint created successfully"))
                                 200,
                               World db tr)
                          end
                      end
                  end
              end
          end
      end
  | Ok _ => failed w
  | Raise _ => failed w
  end.

(** [resolve_complaint] *)
Definition resolve_complaint (complaint_id : Z) (w : world) : response * world :=
  let failed (w : world) := (error_response "Failed to resolve complaint" 500, w) in
  match update_status E (List.length (w_trace w)) complaint_id (VStr "Resolved")
          VNone (w_db w) with
  | (Updated true, db) =>
      match get_complaint complaint_id db with
      | Ok complaint =>
          (Response (success_response (json_of complaint)
                       (VStr "Complaint resolved successfully")) 200,
           World db (w_trace w))
      | Raise _ => failed (World db (w_trace w))
      end
  | (Updated false, db) =>
      (error_response "Complaint not found" 404, World db (w_trace w))
  | (_, db) => failed (World db (w_trace w))
  end.

(** [escalate_complaint]; the result of [update_status] is not looked
    at. *)
Definition escalate_complaint (complaint_id : Z) (w : world) : response * world :=
  let failed (w : world) := (error_response "Failed to escalate complaint" 500, w) in
  match get_complaint complaint_id (w_db w) with
  | Raise _ => failed w
  | Ok complaint =>
      match present complaint with
      | None => (error_response "Complaint not found" 404, w)
      | Some complaint =>
          match (match Py.item complaint "priority" with
                 | Ok priority =>
                     if negb (Py.eq_str priority "Urgent")
                     then match Py.item complaint "status" with
                          | Ok status =>
                              match update_status E (List.length (w_trace w))
                                      complaint_id status VNone (w_db w) with
                              | (Updated _, db) => Some db
                              | _ => None
                              end
                          | Raise _ => None
                          end
                     else Some (w_db w)
                 | Raise _ => None
                 end) with
          | None => failed w
          | Some db =>
              match Py.item complaint "priority" with
              | Raise _ => failed (World db (w_trace w))
              | Ok priority =>
                  let escalation_data :=
                    Py.merge complaint
                      (dict_of
                         [("subject",
                           VStr ("ESCALATION: " +:+ py_str E priority
                                 +:+ " Priority Complaint - #"
                                 +:+ Str.of_Z complaint_id));
                          ("assigned_team", VStr "Management")]) in
                  let '(notification_sent, tr) :=
                    EmailHandler.send_team_notification config E
                      (VStr (manager_email config)) escalation_data (w_trace w) in
                  match get_complaint complaint_id db with
                  | Ok (Some updated_complaint) =>
                      (Response
                         (success_response
                            (VDict (Py.merge updated_complaint
                                      (dict_of [("escalation_sent",
                                                 VBool notification_sent)])))
                            (VStr "Complaint escalated successfully")) 200,
                       World db tr)
                  | _ => failed (World db tr)
                  end
              end
          end
      end
  end.

(** The dict [email_data] that [reclassify_complaint] classifies. *)
Definition stored_email_data (complaint : pydict) : res pydict :=
  email_id ← Py.item complaint "email_id";
  subject ← Py.item complaint "subject";
  body ← Py.item complaint "body";
  customer_name ← Py.item complaint "customer_name";
  customer_email ← Py.item complaint "customer_email";
  customer_email' ← Py.item complaint "customer_email";
  Ok (dict_of [("email_id", email_id);
               ("subject", subject);
               ("body", body);
               ("sender", VStr (py_str E customer_name +:+ " <"
                                +:+ py_str E customer_email +:+ ">"));
               ("customer_email", customer_email')]).

(** The dict [updated_data] of [reclassify_complaint]; only its
    ["assigned_team"] is used afterwards. *)
Definition updated_data (classification_result : pydict) : res pydict :=
  category ← Py.item classification_result "category";
  priority ← Py.item classification_result "priority";
  sentiment ← Py.item classification_result "sentiment";
  category' ← Py.item classification_result "category";
  assigned_team ← ComplaintRouter._determine_assigned_team category';
  key_entities ← Py.item classification_result "key_entities";
  summary ← Py.item classification_result "summary";
  suggested_action ← Py.item classification_result "suggested_action";
  Ok (dict_of [("category", category);
               ("priority", priority);
               ("sentiment", sentiment);
               ("assigned_team", VStr assigned_team);
               ("key_entities", VStr (py_str E key_entities));
               ("summary", summary);
               ("suggested_action", suggested_action)]).

(** [reclassify_complaint]; the result of [update_status] is not looked
    at. *)
Definition reclassify_complaint (complaint_id : Z) (w : world) : response * world :=
  let failed (w : world) :=
    (error_response "Failed to reclassify complaint" 500, w) in
  match get_complaint complaint_id (w_db w) with
  | Raise _ => failed w
  | Ok complaint =>
      match present complaint with
      | None => (error_response "Complaint not found" 404, w)
      | Some complaint =>
          match stored_email_data complaint with
          | Raise _ => failed w
          | Ok email_data =>
              let tr := w_trace w ++ [EvClassify email_data] in
              match (classification_result ←
                       ComplaintClassifier.classify_complaint E (List.length tr)
                         email_data;
                     updated ← updated_data classification_result;
                     status ← Py.item complaint "status";
                     assigned_team ← Py.item updated "assigned_team";
                     Ok (classification_result, status, assigned_team)) with
              | Raise _ => failed (World (w_db w) tr)
              | Ok (classification_result, status, assigned_team) =>
                  match update_status E (List.length tr) complaint_id status
                          assigned_team (w_db w) with
                  | (Updated _, db) =>
                      match get_complaint complaint_id db with
                      | Ok (Some updated_complaint) =>
                          (Response
                             (success_response
                                (VDict (Py.merge updated_complaint
                                          (dict_of [("reclassification_result",
                                                     VDict classification_result)])))
                                (VStr "Complaint reclassified successfully")) 200,
                           World db tr)
                      | _ => failed (World db tr)
                      end
                  | (_, db) => failed (World db tr)
                  end
              end
          end
      end
  end.

(** The dict [update_fields] of [update_complaint]: the entries of the
    request body among status, team and priority. *)
Definition update_fields (data : pyval) : res pydict :=
  let copy (field : string) (fields : pydict) : res pydict :=
    given ← py_contains_str data field;
    if (given : bool)
    then v ← py_item data field; Ok (<[field := v]> fields)
    else Ok fields in
  fields ← copy "status" ∅;
  fields ← copy "assigned_team" fields;
  copy "priority" fields.

(** [update_complaint] for the request body [request_json]. *)
Definition update_complaint (complaint_id : Z) (request_json : res pyval)
    (w : world) : response * world :=
  let failed (w : world) := (error_response "Failed to update complaint" 500, w) in
  match (data ← request_json;
         complaint ← get_complaint complaint_id (w_db w);
         Ok (data, complaint)) with
  | Raise _ => failed w
  | Ok (data, complaint) =>
      match present complaint with
      | None => (error_response "Complaint not found" 404, w)
      | Some complaint =>
          match update_fields data with
          | Raise _ => failed w
          | Ok fields =>
              match (if Py.truthy (VDict fields)
                     then match Py.item complaint "status" with
                          | Ok current =>
                              match update_status E (List.length (w_trace w))
                                      complaint_id (Py.get fields "status" current)
                                      (Py.get fields "assigned_team" VNone)
                                      (w_db w) with
                              | (Updated success, db) => Some (success, db)
                              | _ => None
                              end
                          | Raise _ => None
                          end
                     else Some (true, w_db w)) with
              | None => failed w
              | Some (false, db) => failed (World db (w_trace w))
              | Some (true, db) =>
                  match get_complaint complaint_id db with
                  | Ok updated_complaint =>
                      (Response
                         (success_response (json_of updated_complaint)
                            (VStr "Complaint updated successfully")) 200,
                       World db (w_trace w))
                  | Raise _ => failed (World db (w_trace w))
                  end
              end
          end
      end
  end.

End WithEnv.
End Api.

(* ===================================================================== *)
(** ** Properties and sample data used by the statements below *)
(* ===================================================================== *)

(** A field of a classification holds one of the listed strings. *)
Definition has_enum (c : pydict) (field : string) (values : list string) : Prop :=
  exists s, c !! field = Some (VStr s) /\ In s values.

Definition valid_classification (c : pydict) : Prop :=
  has_enum c "category" valid_categories /\
  has_enum c "priority" valid_priorities /\
  has_enum c "sentiment" valid_sentiments.

(** The ["sender"] entry is present and is not a string. *)
Definition sender_not_str (email_data : pydict) : Prop :=
  exists v, email_data !! "sender" = Some v /\ forall s, v <> VStr s.

(** The ["sender"] entry is absent or is a string. *)
Definition sender_str_or_absent (email_data : pydict) : bool :=
  match email_data !! "sender" with
  | Some (VStr _) | None => true
  | Some _ => false
  end.

(** The entity [kind] of a classification. *)
Definition entity (c : pydict) (kind : string) : option pyval :=
  match c !! "key_entities" with
  | Some (VDict entities) => entities !! kind
  | _ => None
  end.

(** A field, or an entity, of the classification a call returned. *)
Definition field_of (r : res pydict) (field : string) : option pyval :=
  match r with
  | Ok c => c !! field
  | Raise _ => None
  end.

Definition entity_of (r : res pydict) (kind : string) : option pyval :=
  match r with
  | Ok c => entity c kind
  | Raise _ => None
  end.


Definition team_mails (tr : list event) : list mail :=
  omap (fun ev => match ev with
                  | EvTeamNotification (MailSent m _) => Some m
                  | _ => None
                  end) tr.

(** The events of a trace that notify somebody: every event but the
    calls of the classifier and the IMAP flag. *)
Definition notifications (tr : list event) : list event :=
  List.filter (fun ev => match ev with
                         | EvClassify _ | EvMarkRead _ _ => false
                         | _ => true
                         end) tr.

(** How often the classifier ran. *)
Definition classifications (tr : list event) : nat :=
  List.length
    (List.filter (fun ev => match ev with EvClassify _ => true | _ => false end) tr).

(** Collaborators that all work, around a classification service that
    answers [service]. *)
Definition sample_env (service : api_outcome) (smtp : mail -> bool)
    (slack : http_outcome) : Env := {|
  messages_create := fun _ _ => service;
  json_loads := fun _ => JsonDecodeError;
  repr := fun _ => "?";
  smtp_deliver := fun _ m => smtp m;
  requests_post := fun _ _ _ => slack;
  imap_store := fun _ _ => true;
  now_iso := fun _ => "2024-01-01T00:00:00";
  now_ts := fun _ => 1704067200%Z;
  sqlite_real_text := fun _ => Some "0.0";
  sqlite_timestamp := fun _ => "2024-01-01 00:00:00"
|}.

(** The classification service is unavailable. *)
Definition offline_env : Env :=
  sample_env ApiFailure (fun _ => true) (HttpStatus 200).

(** [E] with the classification service made unavailable. *)
Definition offline (E : Env) : Env := {|
  messages_create := fun _ _ => ApiFailure;
  json_loads := json_loads E;
  repr := repr E;
  smtp_deliver := smtp_deliver E;
  requests_post := requests_post E;
  imap_store := imap_store E;
  now_iso := now_iso E;
  now_ts := now_ts E;
  sqlite_real_text := sqlite_real_text E;
  sqlite_timestamp := sqlite_timestamp E
|}.

Definition sample_config : Config := {|
  email_address := "agent@company.com";
  billing_team_email := "billing@company.com";
  tech_team_email := "tech@company.com";
  refunds_team_email := "refunds@company.com";
  delivery_team_email := "delivery@company.com";
  account_team_email := "accounts@company.com";
  general_team_email := "support@company.com";
  manager_email := "manager@company.com";
  slack_webhook_url := Some "https://hooks.slack.com/services/T0/B0/X0"
|}.

(** The scenario of the specification. *)
Definition unusual_charge : pydict :=
  dict_of [("subject", VStr "Unusual charge");
           ("body", VStr "Charged $150 for a service I never ordered. Unacceptable.");
           ("sender", VStr "John Doe <john@x.com>")].

(** The mail of [test_entity_extraction]. *)
Definition order_issue : pydict :=
  dict_of [("subject", VStr "Order #12345 issue");
           ("body", VStr "My order #12345 for iPhone 15 was delivered damaged. Please call me at (555) 123-4567.");
           ("sender", VStr "Customer <customer@example.com>");
           ("customer_email", VStr "customer@example.com")].

(** The mail of [test_fallback_classification], with a message id. *)
Definition billing_question : pydict :=
  dict_of [("email_id", VStr "<msg-1@example.com>");
           ("subject", VStr "Billing question");
           ("body", VStr "I have a question about my bill.");
           ("sender", VStr "test@example.com");
           ("customer_email", VStr "test@example.com")].

(** A mail whose sender is [None]. *)
Definition no_sender : pydict :=
  dict_of [("subject", VStr "Hello"); ("body", VStr "A question."); ("sender", VNone)].

(** The complaint of [test_route_billing_complaint]. *)
Definition billing_complaint : pydict :=
  dict_of [("id", VInt 123);
           ("category", VStr "Billing Issue");
           ("priority", VStr "High");
           ("customer_name", VStr "Test Customer");
           ("customer_email", VStr "test@example.com")].

(** The same complaint with priority [Urgent]. *)
Definition urgent_complaint : pydict :=
  <["priority" := VStr "Urgent"]> billing_complaint.

Definition empty_world : ComplaintTriageAgent.world :=
  ComplaintTriageAgent.World (ComplaintDatabase.Database [] 0) [].


(** A complaint whose category and priority are not in the tables. *)
Definition unknown_complaint : pydict :=
  dict_of [("id", VInt 7); ("category", VStr "Warranty"); ("priority", VStr "Critical")].

(** Another complaint with the category and priority of
    [billing_complaint]. *)
Definition second_billing_complaint : pydict :=
  dict_of [("id", VInt 124);
           ("category", VStr "Billing Issue");
           ("priority", VStr "High");
           ("customer_name", VStr "Other Customer");
           ("summary", VStr "Charged twice")].

(** Collaborators of which only the mail to the billing team gets through:
    SMTP refuses every other recipient and the web hook answers 500. *)
Definition degraded_env : Env :=
  sample_env ApiFailure (fun m => Py.eq_str (mail_to m) "billing@company.com")
    (HttpStatus 500).

(** Recipient and outcome of the mails handed to SMTP by
    [EmailHandler.send_team_notification]. *)
Definition deliveries (tr : list event) : list (pyval * bool) :=
  omap (fun ev => match ev with
                  | EvTeamNotification (MailSent m ok) => Some (mail_to m, ok)
                  | _ => None
                  end) tr.

(** The answers of the web hook to the payloads posted. *)
Definition slack_statuses (tr : list event) : list http_outcome :=
  omap (fun ev => match ev with
                  | EvSlack (SlackPosted _ _ outcome) => Some outcome
                  | _ => None
                  end) tr.

(** The columns declared [NOT NULL], the key apart. *)
Definition not_null_columns : list string :=
  ["customer_email"; "subject"; "body"; "category"; "priority"; "assigned_team"].

(** The key of a mail has a record in the store: what makes
    [process_single_complaint] skip the mail. *)
Definition has_record (E : Env) (db : ComplaintDatabase.database)
    (email_data : pydict) : bool :=
  match ComplaintDatabase.get_complaint_by_email_id E
          (Py.get email_data "email_id" (VStr "unknown")) db with
  | Ok (Some found) => Py.truthy (VDict found)
  | _ => false
  end.

(** The complaint that [create_complaint] stores for the form with the
    text of [unusual_charge], and the store that holds it alone. *)
Definition web_complaint : pydict :=
  dict_of [("email_id", VStr "web-form-1704067200.5");
           ("customer_email", VStr "john@x.com");
           ("customer_name", VStr "John Doe");
           ("subject", VStr "Unusual charge");
           ("body", VStr "Charged $150 for a service I never ordered. Unacceptable.");
           ("category", VStr "Billing Issue");
           ("priority", VStr "Medium");
           ("sentiment", VStr "Angry");
           ("assigned_team", VStr "Billing Team");
           ("key_entities", VStr "{'amount': '$150'}");
           ("summary", VStr "Customer complaint regarding billing issue");
           ("suggested_action", VStr "Review complaint and respond appropriately")].

Definition one_record : ComplaintDatabase.database :=
  snd (ComplaintDatabase.insert_complaint offline_env 0 web_complaint
         (ComplaintDatabase.Database [] 0)).

(** A mail with the key of the stored record. *)
Definition repeated_mail : pydict :=
  dict_of [("email_id", VStr "web-form-1704067200.5");
           ("subject", VStr "Unusual charge");
           ("body", VStr "Charged again.");
           ("sender", VStr "John Doe <john@x.com>")].

(** A form without a subject. *)
Definition form_without_subject : pydict :=
  dict_of [("customer_name", VStr "John Doe");
           ("customer_email", VStr "john@x.com");
           ("subject", VStr "");
           ("body", VStr "Charged $150 for a service I never ordered.")].



(** The acknowledgments handed to the mail handler, in order. *)
Definition acknowledgments (tr : list event) : list mail_attempt :=
  omap (fun ev => match ev with EvAcknowledgment a => Some a | _ => None end) tr.

(** The classification service answers with a text that holds no JSON. *)
Definition no_json_env : Env :=
  sample_env (ApiText "no json here") (fun _ => true) (HttpStatus 200).

(** What [classify_complaint] returns when the answer of the service
    cannot be read as JSON: the default classification, enhanced. *)
Definition default_enhanced (E : Env) (email_data c : pydict) : Prop :=
  ComplaintClassifier._enhance_classification E
    ComplaintClassifier._get_default_classification email_data = Ok c /\
  c !! "category" = Some (VStr "General Inquiry") /\
  c !! "priority" = Some (VStr "Medium") /\
  c !! "sentiment" = Some (VStr "Neutral") /\
  c !! "summary" = Some (VStr "Unable to analyze complaint content").

(* ===================================================================== *)
(** * Properties *)
(* ===================================================================== *)

Import ComplaintClassifier ComplaintRouter ComplaintDatabase ComplaintTriageAgent.

(** ** The matcher on the patterns of the program *)

Example str_of_int : map Str.of_Z [0; 123; -15]%Z = ["0"; "123"; "-15"].
Proof. vm_compute. reflexivity. Qed.

Example strip_both_ends :
  Str.strip (" " +:+ Str.nl +:+ "a b " +:+ Str.nl) = "a b".
Proof. vm_compute. reflexivity. Qed.

Example name_from_display_name :
  _extract_name_from_sender (VStr "John Doe <john@x.com>") = Ok "John Doe".
Proof. vm_compute. reflexivity. Qed.

Example name_without_honorific :
  _extract_name_from_sender (VStr "Mrs.  Smith <a@b>") = Ok "Smith".
Proof. vm_compute. reflexivity. Qed.

Example name_too_short :
  _extract_name_from_sender (VStr "dr. Al") = Ok "Unknown".
Proof. vm_compute. reflexivity. Qed.

Example name_of_non_string : _extract_name_from_sender (VInt 5) = Raise TypeError.
Proof. reflexivity. Qed.

(** The second order pattern is shadowed by the first one. *)
Example order_number_patterns :
  map (fun p => option_map group1 (Re.search true p "order number: 789")) order_patterns
  = [Some "number"; Some "789"; None; None].
Proof. vm_compute. reflexivity. Qed.

Example order_reference_patterns :
  map (fun p => option_map group1 (Re.search true p "see #ABCDEF1, ref: AB12"))
    order_patterns
  = [None; None; Some "ABCDEF1"; Some "AB12"].
Proof. vm_compute. reflexivity. Qed.

Example json_span :
  option_map (group0 "Here: {a {b} c} done }.")
    (Re.search false json_pattern "Here: {a {b} c} done }.")
  = Some "{a {b} c} done }".
Proof. vm_compute. reflexivity. Qed.

(** ** The classifier *)

Lemma mem_in_strs (v : pyval) (xs : list string) :
  Py.in_strs v xs = true -> exists s, v = VStr s /\ In s xs.
Proof.
  unfold Py.in_strs. rewrite existsb_exists.
  intros (x & Hin & Heq). destruct v; simpl in Heq; try discriminate.
  apply String.eqb_eq in Heq. subst. eauto.
Qed.

Lemma has_enum_insert_ne (c : pydict) (f g : string) (v : pyval) (vs : list string) :
  f <> g -> has_enum c f vs -> has_enum (<[g := v]> c) f vs.
Proof.
  intros Hne (s & Hs & Hin). exists s. split; [|done].
  rewrite lookup_insert_ne; done.
Qed.

(** A clamping step of [_enhance_classification] establishes its field. *)
Lemma clamp_has_enum (c : pydict) (f d : string) (vs : list string) :
  In d vs ->
  has_enum (if Py.in_strs (Py.get c f VNone) vs then c else <[f := VStr d]> c) f vs.
Proof.
  intros Hd. destruct (Py.in_strs (Py.get c f VNone) vs) eqn:Hm.
  - apply mem_in_strs in Hm as (s & Hs & Hin). exists s. split; [|done].
    unfold Py.get in Hs. destruct (c !! f); congruence.
  - exists d. split; [|done]. apply lookup_insert_eq.
Qed.

(** ... and keeps the other fields. *)
Lemma clamp_keeps (c : pydict) (f g d : string) (vs ws : list string) :
  f <> g -> has_enum c f vs ->
  has_enum (if Py.in_strs (Py.get c g VNone) ws then c else <[g := VStr d]> c) f vs.
Proof.
  intros Hne H. destruct (Py.in_strs _ _); [done|]. by apply has_enum_insert_ne.
Qed.

Ltac enum_kept :=
  repeat first [ apply has_enum_insert_ne; [done|]
               | apply clamp_keeps; [done|] ];
  apply clamp_has_enum; simpl; tauto.

(** The lookup of a key in a dict display. *)
Ltac dict_lookup :=
  unfold dict_of; simpl;
  repeat (rewrite lookup_insert_ne by done);
  first [ apply lookup_insert_eq | rewrite lookup_insert_eq; reflexivity ].

Local Opaque Py.in_strs.

Lemma enhance_valid (E : Env) (c email_data c' : pydict) :
  _enhance_classification E c email_data = Ok c' -> valid_classification c'.
Proof.
  unfold _enhance_classification, mbind, res_bind. intros H.
  destruct (Py.eq_str _ _);
    [destruct (_extract_name_from_sender _) as [name|]; [|discriminate]|];
    (match type of H with
     | context [Py.get ?c1 "key_entities" _] =>
         destruct (Py.get c1 "key_entities" (VDict ∅)); try discriminate
     end;
     injection H as <-; repeat split; enum_kept).
Qed.

Lemma enhance_key_entities (E : Env) (c email_data c' : pydict) :
  _enhance_classification E c email_data = Ok c' ->
  exists entities, c' !! "key_entities" = Some (VDict entities).
Proof.
  unfold _enhance_classification, mbind, res_bind. intros H.
  destruct (Py.eq_str _ _);
    [destruct (_extract_name_from_sender _); [|discriminate]|];
    (match type of H with
     | context [Py.get ?c1 "key_entities" _] =>
         destruct (Py.get c1 "key_entities" (VDict ∅)); try discriminate
     end;
     injection H as <-; eexists; apply lookup_insert_eq).
Qed.

Local Transparent Py.in_strs.

Lemma first_family_in (families : list (list string * string)) (text default : string) :
  In (first_family families text default) (default :: map snd families).
Proof.
  induction families as [|[words value] families IH]; simpl; [tauto|].
  destruct (Str.any_in words text); simpl in *; tauto.
Qed.

Lemma extract_name_raise (v : pyval) (e : exn) :
  _extract_name_from_sender v = Raise e -> forall s, v <> VStr s.
Proof. destruct v; simpl; intros; congruence. Qed.

Lemma fallback_valid (E : Env) (email_data c : pydict) :
  _get_fallback_classification E email_data = Ok c -> valid_classification c.
Proof.
  unfold _get_fallback_classification, mbind, res_bind. intros H.
  destruct (_extract_name_from_sender _) as [name|]; [|discriminate].
  match type of H with
  | context [first_family category_families ?text _] =>
      pose proof (first_family_in category_families text "General Inquiry") as Hc;
      pose proof (first_family_in priority_families text "Medium") as Hp;
      pose proof (first_family_in sentiment_families text "Neutral") as Hs;
      set (category := first_family category_families text "General Inquiry") in *;
      set (priority := first_family priority_families text "Medium") in *;
      set (sentiment := first_family sentiment_families text "Neutral") in *
  end.
  clearbody category priority sentiment.
  injection H as <-.
  repeat split; eexists; (split; [dict_lookup|]).
  - simpl in Hc. unfold valid_categories. simpl. tauto.
  - simpl in Hp. unfold valid_priorities. simpl. tauto.
  - simpl in Hs. unfold valid_sentiments. simpl. tauto.
Qed.

Lemma fallback_raise (E : Env) (email_data : pydict) (e : exn) :
  _get_fallback_classification E email_data = Raise e -> sender_not_str email_data.
Proof.
  unfold _get_fallback_classification, mbind, res_bind. intros H.
  destruct (_extract_name_from_sender _) eqn:Hn; [discriminate|].
  unfold Py.get in Hn. destruct (email_data !! "sender") as [v|] eqn:Hs.
  - exists v. split; [done|]. by eapply extract_name_raise.
  - simpl in Hn. discriminate.
Qed.

Lemma fallback_ok (E : Env) (email_data : pydict) :
  sender_str_or_absent email_data = true ->
  exists c, _get_fallback_classification E email_data = Ok c.
Proof.
  unfold sender_str_or_absent, _get_fallback_classification, mbind, res_bind, Py.get.
  intros H.
  destruct (email_data !! "sender") as [[]|] eqn:Hs; try discriminate; simpl; eauto.
Qed.

(** What [_parse_claude_response] returns has a dict of key entities. *)
Lemma parse_key_entities (E : Env) (response_text : string) (c : pydict) :
  _parse_claude_response E response_text = Ok c ->
  exists entities, c !! "key_entities" = Some (VDict entities).
Proof.
  unfold _parse_claude_response.
  destruct (Re.search false json_pattern response_text) as [m|].
  - destruct (json_loads E (group0 response_text m)) as [result| |];
      [|intros [= <-]; eexists; unfold _get_default_classification; dict_lookup
       |discriminate].
    intros [= <-].
    set (r := set_default "sentiment" _).
    destruct (r !! "key_entities") as [[]|] eqn:Hk;
      first [ eexists; exact Hk | eexists; apply lookup_insert_eq ].
  - intros [= <-]. eexists. unfold _get_default_classification. dict_lookup.
Qed.

(** What the primary path returns went through [_enhance_classification]. *)
Lemma primary_enhanced (E : Env) (t : nat) (email_data c : pydict) :
  classify_primary E t email_data = Ok c ->
  exists parsed, _enhance_classification E parsed email_data = Ok c.
Proof.
  unfold classify_primary, mbind, res_bind. intros H.
  destruct (_prepare_input_text E email_data) as [input_text|]; [|discriminate].
  destruct (messages_create E t input_text); [|discriminate].
  destruct (_parse_claude_response E text) as [parsed|]; [|discriminate].
  eauto.
Qed.

(** With the service unavailable, [classify_complaint] is the fallback. *)
Lemma offline_uses_fallback (E : Env) (t : nat) (email_data : pydict) :
  classify_complaint (offline E) t email_data
  = _get_fallback_classification E email_data.
Proof.
  unfold classify_complaint, classify_primary, mbind, res_bind.
  destruct (_prepare_input_text (offline E) email_data); reflexivity.
Qed.

Lemma classify_key_entities (E : Env) (t : nat) (email_data c : pydict) :
  classify_complaint E t email_data = Ok c ->
  exists entities, c !! "key_entities" = Some (VDict entities).
Proof.
  unfold classify_complaint.
  destruct (classify_primary E t email_data) as [c0|] eqn:Hp.
  - intros [= <-]. destruct (primary_enhanced E t email_data c0 Hp) as [parsed H].
    by eapply enhance_key_entities.
  - unfold _get_fallback_classification, mbind, res_bind.
    destruct (_extract_name_from_sender _); [|discriminate].
    intros [= <-]. eexists. dict_lookup.
Qed.

(** C1. Whatever the mail and whatever the classification service, the
    JSON decoder and the other collaborators do, a classification returned
    by [classify_complaint] has its category among the seven categories,
    its priority among [Urgent], [High], [Medium], [Low] and its sentiment
    among [Angry], [Frustrated], [Neutral], [Satisfied]; and the call
    returns one unless the mail has a sender that is not a string. *)
Theorem classification_in_enumerations (E : Env) (t : nat) (email_data : pydict) :
  match classify_complaint E t email_data with
  | Ok c => valid_classification c
  | Raise _ => sender_not_str email_data
  end.
Proof.
  unfold classify_complaint.
  destruct (classify_primary E t email_data) as [c|e] eqn:Hp.
  - destruct (primary_enhanced E t email_data c Hp) as [parsed H].
    by eapply enhance_valid.
  - destruct (_get_fallback_classification E email_data) as [c|e'] eqn:Hf.
    + by eapply fallback_valid.
    + by eapply fallback_raise.
Qed.

(** C2, as amended. For the mail "Unusual charge" of the specification and
    an unavailable classification service, [classify_complaint] returns the
    fallback classification with category [Billing Issue], priority
    [Medium], sentiment [Angry] and the amount [$150]. *)
Theorem fallback_unusual_charge (E : Env) (t : nat) :
  let r := classify_complaint (offline E) t unusual_charge in
  field_of r "category" = Some (VStr "Billing Issue") /\
  field_of r "priority" = Some (VStr "Medium") /\
  field_of r "sentiment" = Some (VStr "Angry") /\
  entity_of r "amount" = Some (VStr "$150").
Proof.
  cbv zeta. rewrite offline_uses_fallback.
  vm_compute. repeat split; reflexivity.
Qed.

(** C2, as stated, fails: the priority of that classification is [Medium],
    not [Urgent]. *)
Lemma fallback_unusual_charge_not_urgent :
  let r := classify_complaint offline_env 0 unusual_charge in
  field_of r "priority" = Some (VStr "Medium") /\
  field_of r "priority" <> Some (VStr "Urgent").
Proof. vm_compute. split; [reflexivity|discriminate]. Qed.

Lemma enhance_default (E : Env) (email_data : pydict) :
  sender_str_or_absent email_data = true ->
  exists c, default_enhanced E email_data c.
Proof.
  unfold sender_str_or_absent, default_enhanced. intros Hs.
  unfold _enhance_classification, _get_default_classification.
  assert (Hname : exists name,
             _extract_name_from_sender
               (Py.get email_data "sender" (VStr "")) = Ok name).
  { unfold Py.get. destruct (email_data !! "sender") as [[]|];
      try discriminate; simpl; eauto. }
  destruct Hname as [name Hname].
  set (customer_email := Py.get email_data "customer_email" (VStr "")).
  set (entities := _extract_additional_entities E email_data).
  replace (Py.eq_str (Py.get (<["customer_email" := customer_email]>
                                (dict_of _)) "customer_name" VNone) "Unknown")
    with true by reflexivity.
  rewrite Hname. cbn [mbind res_bind].
  eexists. split; [reflexivity|].
  repeat split; vm_compute; reflexivity.
Qed.


Lemma clamp_lookup (c : pydict) (f g d : string) (vs : list string) :
  f <> g ->
  (if Py.in_strs (Py.get c g VNone) vs then c else <[g := VStr d]> c) !! f = c !! f.
Proof. intros Hne. destruct (Py.in_strs _ _); [done|]. by apply lookup_insert_ne. Qed.

Local Opaque Py.in_strs.

(** [_enhance_classification] returns when the sender is absent or a
    string and the key entities are a dict. *)
Lemma enhance_returns (E : Env) (parsed email_data entities : pydict) :
  sender_str_or_absent email_data = true ->
  parsed !! "key_entities" = Some (VDict entities) ->
  exists c, _enhance_classification E parsed email_data = Ok c.
Proof.
  unfold sender_str_or_absent. intros Hs Hk.
  assert (Hname : exists name,
             _extract_name_from_sender
               (Py.get email_data "sender" (VStr "")) = Ok name).
  { unfold Py.get. destruct (email_data !! "sender") as [[]|];
      try discriminate; simpl; eauto. }
  destruct Hname as [name Hname].
  unfold _enhance_classification, mbind, res_bind.
  destruct (Py.eq_str _ _); [rewrite Hname|];
    (match goal with
     | |- context [Py.get ?c1 "key_entities" _] =>
         assert (Py.get c1 "key_entities" (VDict ∅) = VDict entities) as ->
     end;
     [cbv zeta; unfold Py.get at 1; rewrite !clamp_lookup by done;
      repeat (rewrite lookup_insert_ne by done); rewrite Hk; reflexivity
     |eauto]).
Qed.

Local Transparent Py.in_strs.

(** C3, as amended. For a mail whose sender is absent or a string,
    [classify_complaint] returns a classification whatever the
    collaborators do. It is the fallback classification when an exception
    leaves the primary path: when preparing the input raises, when the
    call of the service fails, or when [json.loads] raises something other
    than [JSONDecodeError]. An answer that holds no JSON object, or one
    that [json.loads] rejects with [JSONDecodeError], does not lead to the
    fallback: the parser returns the default classification, which is
    enhanced and returned. A decoded answer is enhanced and returned: for
    such a sender the handling after the parser does not raise. *)
Theorem classify_complaint_never_raises (E : Env) (t : nat) (email_data : pydict) :
  sender_str_or_absent email_data = true ->
  exists c,
    classify_complaint E t email_data = Ok c /\
    (forall e, classify_primary E t email_data = Raise e ->
               _get_fallback_classification E email_data = Ok c) /\
    match _prepare_input_text E email_data with
    | Raise _ => _get_fallback_classification E email_data = Ok c
    | Ok input_text =>
        match messages_create E t input_text with
        | ApiFailure => _get_fallback_classification E email_data = Ok c
        | ApiText response_text =>
            match Re.search false json_pattern response_text with
            | None => default_enhanced E email_data c
            | Some json_match =>
                match json_loads E (group0 response_text json_match) with
                | JsonDecodeError => default_enhanced E email_data c
                | JsonOtherError => _get_fallback_classification E email_data = Ok c
                | JsonObject _ =>
                    exists parsed,
                      _parse_claude_response E response_text = Ok parsed /\
                      _enhance_classification E parsed email_data = Ok c
                end
            end
        end
    end.
Proof.
  intros Hs.
  destruct (fallback_ok E email_data Hs) as [fb Hfb].
  destruct (enhance_default E email_data Hs) as [dflt Hdflt].
  unfold classify_complaint, classify_primary, mbind, res_bind.
  destruct (_prepare_input_text E email_data) as [input_text|].
  2:{ exists fb. repeat split; try done. }
  destruct (messages_create E t input_text) as [response_text|].
  2:{ exists fb. repeat split; try done. }
  pose proof (parse_key_entities E response_text) as Hentities.
  unfold _parse_claude_response in *.
  destruct (Re.search false json_pattern response_text) as [json_match|].
  - destruct (json_loads E (group0 response_text json_match)) as [decoded| |].
    + destruct (Hentities _ eq_refl) as [entities Hk].
      destruct (enhance_returns E _ email_data entities Hs Hk) as [c Hc].
      rewrite Hc. exists c. split; [done|]. split; [discriminate|]. eauto.
    + pose proof Hdflt as (Hd & _). rewrite Hd.
      exists dflt. split; [done|]. split; [discriminate|exact Hdflt].
    + exists fb. repeat split; try done.
  - pose proof Hdflt as (Hd & _). rewrite Hd.
    exists dflt. split; [done|]. split; [discriminate|exact Hdflt].
Qed.

(** The amended C3 at the mail "Unusual charge", the service answering
    with a text that holds no JSON. *)
Lemma classify_complaint_never_raises_witness :
  sender_str_or_absent unusual_charge = true /\
  exists c,
    classify_complaint no_json_env 0 unusual_charge = Ok c /\
    (forall e, classify_primary no_json_env 0 unusual_charge = Raise e ->
               _get_fallback_classification no_json_env unusual_charge = Ok c) /\
    match _prepare_input_text no_json_env unusual_charge with
    | Raise _ => _get_fallback_classification no_json_env unusual_charge = Ok c
    | Ok input_text =>
        match messages_create no_json_env 0 input_text with
        | ApiFailure => _get_fallback_classification no_json_env unusual_charge = Ok c
        | ApiText response_text =>
            match Re.search false json_pattern response_text with
            | None => default_enhanced no_json_env unusual_charge c
            | Some json_match =>
                match json_loads no_json_env (group0 response_text json_match) with
                | JsonDecodeError => default_enhanced no_json_env unusual_charge c
                | JsonOtherError =>
                    _get_fallback_classification no_json_env unusual_charge = Ok c
                | JsonObject _ =>
                    exists parsed,
                      _parse_claude_response no_json_env response_text = Ok parsed /\
                      _enhance_classification no_json_env parsed unusual_charge = Ok c
                end
            end
        end
    end.
Proof.
  split; [reflexivity|].
  apply (classify_complaint_never_raises no_json_env 0 unusual_charge).
  reflexivity.
Defined.

(** C3, as stated, fails twice. With the service unavailable and a sender
    that is [None], the fallback raises and so does [classify_complaint].
    And when the answer of the service holds no JSON, what is returned is
    not the fallback classification (here [Billing Issue]) but the
    enhanced default classification ([General Inquiry]). *)
Lemma classify_raises_or_skips_fallback :
  classify_complaint offline_env 0 no_sender = Raise TypeError /\
  field_of (classify_complaint no_json_env 0 unusual_charge) "category"
  = Some (VStr "General Inquiry") /\
  field_of (_get_fallback_classification no_json_env unusual_charge) "category"
  = Some (VStr "Billing Issue").
Proof. vm_compute. repeat split; reflexivity. Qed.

(** X25. The order patterns are probed in the order of the list and the
    first one that matches gives the order number. *)
Lemma probe_order_first_match (text : string) (entities : pydict)
    (before after : list Re.re) (pattern : Re.re) (m : Re.rmatch_result) :
  Py.truthy_get entities "order_number" = false ->
  Forall (fun p => Re.search true p text = None) before ->
  Re.search true pattern text = Some m ->
  probe_order_patterns (before ++ pattern :: after) text entities
  = <["order_number" := VStr (group1 m)]> entities.
Proof.
  intros Hnone Hbefore Hm.
  induction Hbefore as [|p before Hp _ IH]; simpl.
  - rewrite Hm, Hnone. reflexivity.
  - rewrite Hp. exact IH.
Qed.

(** An order number supplied by the classification service is kept. *)
Lemma probe_order_keeps_known (patterns : list Re.re) (text : string)
    (entities : pydict) :
  Py.truthy_get entities "order_number" = true ->
  probe_order_patterns patterns text entities = entities.
Proof.
  intros Hk. induction patterns as [|p patterns IH]; simpl; [done|].
  destruct (Re.search true p text); rewrite ?Hk; simpl; exact IH.
Qed.

(** C9, on the code. For the mail of [test_entity_extraction] the
    extraction gives the order number [12345], and a phone number that
    starts with the space before the opening parenthesis: the optional
    separator at the head of the phone pattern matches that space. *)
Theorem order_issue_entities (E : Env) :
  let entities := _extract_additional_entities E order_issue ∅ in
  entities !! "order_number" = Some (VStr "12345") /\
  entities !! "phone_number" = Some (VStr " (555) 123-4567") /\
  entities !! "phone_number" <> Some (VStr "(555) 123-4567").
Proof. vm_compute. repeat split; try reflexivity. discriminate. Qed.

(** ** The router *)

Lemma table_get_hashable {A : Type} (table : list (string * A)) (key : pyval) (d : A) :
  Py.hashable key = true -> exists a, Py.table_get table key d = Ok a.
Proof. destruct key; simpl; intros; try discriminate; eauto. Qed.

(** A hashable key that is none of the keys of a table gets the default. *)
Lemma table_get_other {A : Type} (table : list (string * A)) (key : pyval) (d : A) :
  Py.hashable key = true ->
  Py.in_strs key (map fst table) = false ->
  Py.table_get table key d = Ok d.
Proof.
  destruct key; simpl; intros Hh Hn; try discriminate; try reflexivity.
  f_equal. induction table as [|[k a] table IH]; simpl in *; [done|].
  apply orb_false_iff in Hn as [Hk Hn].
  rewrite String.eqb_sym, Hk. auto.
Qed.

(** The decision of the normal path. *)
Lemma route_routed (config : Config) (E : Env) (t : nat) (cd : pydict)
    (team : string) (actions : list string) (team_email : string) :
  let category := Py.get cd "category" (VStr "General Inquiry") in
  let priority := Py.get cd "priority" (VStr "Medium") in
  _determine_assigned_team category = Ok team ->
  _determine_escalation_actions priority = Ok actions ->
  get_team_email config category = Ok team_email ->
  route_complaint config E t cd
  = (dict_of [("complaint_id", Py.get cd "id" VNone);
              ("assigned_team", VStr team);
              ("team_email", VStr team_email);
              ("priority", priority);
              ("escalation_actions", str_list actions);
              ("routing_timestamp", VStr (now_iso E t));
              ("status", VStr "routed")],
     <["assigned_team" := VStr team]> cd).
Proof.
  intros category priority Ht Ha He. unfold route_complaint.
  fold category. fold priority. rewrite Ht. unfold mbind, res_bind.
  rewrite Ha, He. reflexivity.
Qed.

(** What [route_complaint] leaves in the dict it was given. *)
Lemma route_after (config : Config) (E : Env) (t : nat) (cd : pydict) :
  snd (route_complaint config E t cd)
  = match _determine_assigned_team (Py.get cd "category" (VStr "General Inquiry")) with
    | Ok team => <["assigned_team" := VStr team]> cd
    | Raise _ => cd
    end.
Proof.
  unfold route_complaint.
  destruct (_determine_assigned_team _); [|reflexivity].
  match goal with |- snd (match ?m with _ => _ end) = _ => destruct m end; reflexivity.
Qed.

(** The entries of a routing decision, on either path. *)
Lemma route_fields (config : Config) (E : Env) (t : nat) (cd : pydict) :
  let category := Py.get cd "category" (VStr "General Inquiry") in
  let priority := Py.get cd "priority" (VStr "Medium") in
  let r := fst (route_complaint config E t cd) in
  match _determine_assigned_team category, _determine_escalation_actions priority with
  | Ok team, Ok actions =>
      r !! "assigned_team" = Some (VStr team) /\
      r !! "escalation_actions" = Some (str_list actions) /\
      r !! "priority" = Some priority /\
      r !! "status" = Some (VStr "routed")
  | _, _ =>
      r !! "assigned_team" = Some (VStr "General Support Team") /\
      r !! "escalation_actions" = Some (str_list ["team"]) /\
      r !! "priority" = Some (VStr "Medium") /\
      r !! "status" = Some (VStr "routed_fallback")
  end /\
  exists team_email, r !! "team_email" = Some (VStr team_email).
Proof.
  intros category priority r. subst r.
  unfold route_complaint, _get_fallback_routing.
  fold category. fold priority.
  destruct (_determine_assigned_team category) as [team|] eqn:Ht.
  - assert (Hh : Py.hashable category = true)
      by (destruct category; simpl in Ht; try discriminate; reflexivity).
    destruct (table_get_hashable (team_mapping config) category
                (general_team_email config) Hh) as [team_email He].
    fold (get_team_email config category) in He.
    unfold mbind, res_bind. rewrite He.
    destruct (_determine_escalation_actions priority) as [actions|]; cbn [fst].
    + split; [repeat split; dict_lookup|]. eexists. dict_lookup.
    + split; [repeat split; dict_lookup|]. eexists. dict_lookup.
  - cbn [fst]. split; [repeat split; dict_lookup|]. eexists. dict_lookup.
Qed.

Lemma route_has_keys (config : Config) (E : Env) (t : nat) (cd : pydict) :
  let r := fst (route_complaint config E t cd) in
  exists team_email priority,
    r !! "team_email" = Some (VStr team_email) /\ r !! "priority" = Some priority.
Proof.
  intros r. destruct (route_fields config E t cd) as [H [team_email He]].
  fold r in H, He. exists team_email.
  destruct (_determine_assigned_team _); [destruct (_determine_escalation_actions _)|];
    destruct H as (_ & _ & Hp & _); eauto.
Qed.

(** C10. When the category and the priority of a complaint can be looked
    up (any value but a list or a dict, so every string), [route_complaint]
    returns a decision with status [routed]; a category outside the seven
    categories is assigned to the General Support Team and a priority
    outside the four priorities gets the escalation actions [team]. *)
Theorem unrecognised_values_take_defaults (config : Config) (E : Env) (t : nat)
    (complaint_data : pydict) :
  let category := Py.get complaint_data "category" (VStr "General Inquiry") in
  let priority := Py.get complaint_data "priority" (VStr "Medium") in
  Py.hashable category = true ->
  Py.hashable priority = true ->
  let r := fst (route_complaint config E t complaint_data) in
  r !! "status" = Some (VStr "routed") /\
  (Py.in_strs category valid_categories = false ->
   r !! "assigned_team" = Some (VStr "General Support Team")) /\
  (Py.in_strs priority valid_priorities = false ->
   r !! "escalation_actions" = Some (str_list ["team"])).
Proof.
  intros category priority Hc Hp r.
  destruct (table_get_hashable team_table category "General Support Team" Hc)
    as [team Ht].
  destruct (table_get_hashable escalation_rules priority ["team"] Hp)
    as [actions Ha].
  destruct (table_get_hashable (team_mapping config) category
              (general_team_email config) Hc) as [team_email He].
  subst r.
  rewrite (route_routed config E t complaint_data team actions team_email Ht Ha He).
  cbn [fst]. split; [dict_lookup|]. split.
  - intros Hn.
    pose proof (table_get_other team_table category "General Support Team" Hc Hn) as Hd.
    assert (team = "General Support Team") as -> by congruence.
    dict_lookup.
  - intros Hn.
    pose proof (table_get_other escalation_rules priority ["team"] Hp Hn) as Hd.
    assert (actions = ["team"]) as -> by congruence.
    dict_lookup.
Qed.

(** C10 at a complaint of category [Warranty] and priority [Critical]. *)
Lemma unrecognised_values_take_defaults_witness :
  let complaint_data := unknown_complaint in
  let category := Py.get complaint_data "category" (VStr "General Inquiry") in
  let priority := Py.get complaint_data "priority" (VStr "Medium") in
  Py.hashable category = true /\
  Py.hashable priority = true /\
  let r := fst (route_complaint sample_config offline_env 0 complaint_data) in
  r !! "status" = Some (VStr "routed") /\
  (Py.in_strs category valid_categories = false ->
   r !! "assigned_team" = Some (VStr "General Support Team")) /\
  (Py.in_strs priority valid_priorities = false ->
   r !! "escalation_actions" = Some (str_list ["team"])).
Proof.
  split; [reflexivity|]. split; [reflexivity|].
  apply (unrecognised_values_take_defaults sample_config offline_env 0 unknown_complaint);
    reflexivity.
Defined.

(** C7, as amended. For two complaints with the same category and the same
    priority, whatever the collaborators and the instants of the calls,
    [route_complaint] returns decisions with the same team and the same
    escalation actions; and it changes the dict it is given in one entry:
    when the category can be looked up, ["assigned_team"] is set to the
    team of the category. *)
Theorem route_is_function_of_category_and_priority
    (config : Config) (E1 E2 : Env) (t1 t2 : nat) (cd1 cd2 : pydict) :
  Py.get cd1 "category" (VStr "General Inquiry")
  = Py.get cd2 "category" (VStr "General Inquiry") ->
  Py.get cd1 "priority" (VStr "Medium") = Py.get cd2 "priority" (VStr "Medium") ->
  let r1 := fst (route_complaint config E1 t1 cd1) in
  let r2 := fst (route_complaint config E2 t2 cd2) in
  r1 !! "assigned_team" = r2 !! "assigned_team" /\
  r1 !! "escalation_actions" = r2 !! "escalation_actions" /\
  snd (route_complaint config E1 t1 cd1)
  = match _determine_assigned_team
            (Py.get cd1 "category" (VStr "General Inquiry")) with
    | Ok team => <["assigned_team" := VStr team]> cd1
    | Raise _ => cd1
    end.
Proof.
  intros Hc Hp r1 r2.
  pose proof (route_fields config E1 t1 cd1) as [H1 _].
  pose proof (route_fields config E2 t2 cd2) as [H2 _].
  cbv zeta in H1, H2. rewrite <- Hc, <- Hp in H2. fold r1 in H1. fold r2 in H2.
  assert (r1 !! "assigned_team" = r2 !! "assigned_team" /\
          r1 !! "escalation_actions" = r2 !! "escalation_actions") as [Ht Ha].
  { destruct (_determine_assigned_team _); [destruct (_determine_escalation_actions _)|];
      destruct H1 as (-> & -> & _), H2 as (-> & -> & _); split; reflexivity. }
  split; [exact Ht|]. split; [exact Ha|]. apply route_after.
Qed.

(** The amended C7 at two billing complaints of priority [High], routed
    at different instants with different collaborators. *)
Lemma route_is_function_of_category_and_priority_witness :
  Py.get billing_complaint "category" (VStr "General Inquiry")
  = Py.get second_billing_complaint "category" (VStr "General Inquiry") /\
  Py.get billing_complaint "priority" (VStr "Medium")
  = Py.get second_billing_complaint "priority" (VStr "Medium") /\
  let r1 := fst (route_complaint sample_config offline_env 0 billing_complaint) in
  let r2 := fst (route_complaint sample_config degraded_env 5
                   second_billing_complaint) in
  r1 !! "assigned_team" = r2 !! "assigned_team" /\
  r1 !! "escalation_actions" = r2 !! "escalation_actions" /\
  snd (route_complaint sample_config offline_env 0 billing_complaint)
  = match _determine_assigned_team
            (Py.get billing_complaint "category" (VStr "General Inquiry")) with
    | Ok team => <["assigned_team" := VStr team]> billing_complaint
    | Raise _ => billing_complaint
    end.
Proof.
  split; [reflexivity|]. split; [reflexivity|].
  apply (route_is_function_of_category_and_priority sample_config offline_env
           degraded_env 0 5 billing_complaint second_billing_complaint);
    reflexivity.
Defined.

(** C7, as stated, fails: the complaint of [test_route_billing_complaint]
    has no assigned team before the call and has one after it. *)
Lemma route_assigns_to_complaint_data :
  let after := snd (route_complaint sample_config offline_env 0 billing_complaint) in
  billing_complaint !! "assigned_team" = None /\
  after !! "assigned_team" = Some (VStr "Billing Team").
Proof. vm_compute. split; reflexivity. Qed.

(** ** The notification fan-out *)


Lemma team_mails_app (tr1 tr2 : list event) :
  team_mails (tr1 ++ tr2) = team_mails tr1 ++ team_mails tr2.
Proof. unfold team_mails. apply omap_app. Qed.

(** [EmailHandler.send_team_notification] appends one event; a mail it
    hands to SMTP has the subject line of a team notification. *)
Lemma team_mail_event (config : Config) (E : Env) (to : pyval) (cd : pydict)
    (tr : list event) :
  exists a, snd (EmailHandler.send_team_notification config E to cd tr)
            = tr ++ [EvTeamNotification a] /\
            match a with
            | MailSent m _ =>
                mail_to m = to /\ mail_subject m = EmailHandler.team_subject E cd
            | MailNotBuilt _ => True
            end.
Proof.
  unfold EmailHandler.send_team_notification.
  destruct (EmailHandler._create_team_notification_text E cd); eexists; split;
    try reflexivity; simpl; auto.
Qed.


(** [_send_escalation_notifications] does nothing, or sends the manager
    a team notification. *)
Lemma escalation_events (config : Config) (E : Env) (rr cd : pydict) (tr : list event) :
  snd (_send_escalation_notifications config E rr cd tr) = tr \/
  exists a, snd (_send_escalation_notifications config E rr cd tr)
            = tr ++ [EvTeamNotification a] /\
            match a with
            | MailSent m _ =>
                mail_to m = VStr (manager_email config) /\
                mail_subject m = EmailHandler.team_subject E cd
            | MailNotBuilt _ => True
            end.
Proof.
  unfold _send_escalation_notifications.
  destruct (py_contains_str _ _) as [[]|]; [|left; reflexivity..].
  destruct (_create_manager_notification _ _ _); [|left; reflexivity].
  right. apply team_mail_event.
Qed.


(** With a web hook, [_send_slack_notification] leaves one Slack event. *)
Lemma slack_notification_event (config : Config) (E : Env) (rr cd : pydict)
    (tr : list event) :
  webhook_configured config = true ->
  exists a, snd (_send_slack_notification config E rr cd tr) = tr ++ [EvSlack a].
Proof.
  unfold webhook_configured, _send_slack_notification.
  destruct (slack_webhook_url config) as [url|]; [|discriminate].
  destruct (String.eqb url ""); [discriminate|]. intros _.
  destruct (slack_payload E (length tr) rr cd); eexists; reflexivity.
Qed.

(** The three steps of [send_team_notification] on a routing result that
    has a team address and a priority. *)
Lemma send_team_notification_steps (config : Config) (E : Env)
    (rr cd : pydict) (tr : list event) (team_email priority : pyval) :
  rr !! "team_email" = Some team_email ->
  rr !! "priority" = Some priority ->
  send_team_notification config E rr cd tr
  = let mailed := EmailHandler.send_team_notification config E team_email cd tr in
    let slacked :=
      if webhook_configured config && Py.in_strs priority ["Urgent"; "High"]
      then _send_slack_notification config E rr cd (snd mailed)
      else (false, snd mailed) in
    (fst mailed, snd (_send_escalation_notifications config E rr cd (snd slacked))).
Proof.
  intros Ht Hp. unfold send_team_notification, Py.item, mbind, res_bind.
  rewrite Ht, Hp.
  destruct (EmailHandler.send_team_notification config E team_email cd tr)
    as [email_sent tr1].
  destruct (webhook_configured config); cbn [andb fst snd].
  - destruct (Py.in_strs priority ["Urgent"; "High"]).
    + destruct (_send_slack_notification config E rr cd tr1) as [slack_sent tr2].
      cbn [snd]. destruct (_send_escalation_notifications config E rr cd tr2).
      reflexivity.
    + cbn [snd]. destruct (_send_escalation_notifications config E rr cd tr1).
      reflexivity.
  - cbn [snd]. destruct (_send_escalation_notifications config E rr cd tr1).
    reflexivity.
Qed.





Lemma acknowledgments_app (tr1 tr2 : list event) :
  acknowledgments (tr1 ++ tr2) = acknowledgments tr1 ++ acknowledgments tr2.
Proof. unfold acknowledgments. apply omap_app. Qed.

(** The Slack channel adds Slack events only. *)
Lemma slack_keeps_acknowledgments (config : Config) (E : Env) (rr cd : pydict)
    (tr : list event) :
  acknowledgments (snd (_send_slack_notification config E rr cd tr))
  = acknowledgments tr.
Proof.
  unfold _send_slack_notification.
  destruct (slack_webhook_url config) as [url|]; [|reflexivity].
  destruct (String.eqb url ""); [reflexivity|].
  destruct (slack_payload E (length tr) rr cd); cbn [snd];
    rewrite acknowledgments_app; apply app_nil_r.
Qed.

(** C5, as amended. For a routing decision made by [route_complaint], the
    fan-out [send_team_notification] returns one flag: the outcome of the
    mail to the assigned team. The outcomes of the Slack and escalation
    channels are not part of its result, and it sends no acknowledgment. *)
Theorem team_notification_returns_email_flag (config : Config) (E : Env) (t : nat)
    (routed complaint_data : pydict) (tr : list event) :
  let routing_result := fst (route_complaint config E t routed) in
  let out := send_team_notification config E routing_result complaint_data tr in
  fst out
  = fst (EmailHandler.send_team_notification config E
           (Py.get routing_result "team_email" VNone) complaint_data tr) /\
  acknowledgments (snd out) = acknowledgments tr.
Proof.
  intros rr out. subst out.
  destruct (route_has_keys config E t routed) as (team_email & p & Ht & Hp).
  fold rr in Ht, Hp.
  rewrite (send_team_notification_steps config E rr _ _ _ _ Ht Hp).
  cbn [fst snd]. split.
  - unfold Py.get. rewrite Ht. reflexivity.
  - destruct (team_mail_event config E (VStr team_email) complaint_data tr)
      as (a & Ha & _).
    assert (Hs : acknowledgments
                   (snd (if webhook_configured config
                            && Py.in_strs p ["Urgent"; "High"]
                         then _send_slack_notification config E rr complaint_data
                                (snd (EmailHandler.send_team_notification config E
                                        (VStr team_email) complaint_data tr))
                         else (false,
                               snd (EmailHandler.send_team_notification config E
                                      (VStr team_email) complaint_data tr))))
                 = acknowledgments tr).
    { destruct (_ && _); [rewrite slack_keeps_acknowledgments|cbn [snd]];
        rewrite Ha, acknowledgments_app; apply app_nil_r. }
    destruct (escalation_events config E rr complaint_data
                (snd (if webhook_configured config
                         && Py.in_strs p ["Urgent"; "High"]
                      then _send_slack_notification config E rr complaint_data
                             (snd (EmailHandler.send_team_notification config E
                                     (VStr team_email) complaint_data tr))
                      else (false,
                            snd (EmailHandler.send_team_notification config E
                                   (VStr team_email) complaint_data tr)))))
      as [->|(b & -> & _)]; [exact Hs|].
    rewrite acknowledgments_app, Hs. apply app_nil_r.
Qed.

(** C5, as stated, fails: for an urgent complaint the fan-out returns
    [true] both when every channel works and when only the mail to the
    team gets through (the web hook answers 500 and the mail to the
    manager is refused). *)
Lemma fan_out_flag_hides_channels :
  let rr := fst (route_complaint sample_config offline_env 0 urgent_complaint) in
  let run E := send_team_notification sample_config E rr urgent_complaint [] in
  fst (run offline_env) = true /\
  fst (run degraded_env) = true /\
  slack_statuses (snd (run offline_env)) = [HttpStatus 200] /\
  slack_statuses (snd (run degraded_env)) = [HttpStatus 500] /\
  deliveries (snd (run offline_env))
  = [(VStr "billing@company.com", true); (VStr "manager@company.com", true)] /\
  deliveries (snd (run degraded_env))
  = [(VStr "billing@company.com", true); (VStr "manager@company.com", false)].
Proof. vm_compute. repeat split; reflexivity. Qed.

Lemma team_subject_not_escalation (E : Env) (cd : pydict) :
  String.prefix "ESCALATION:" (EmailHandler.team_subject E cd) = false.
Proof. reflexivity. Qed.

(** X9. No mail sent by [_send_escalation_notifications] has a subject
    that starts with [ESCALATION:]. *)
Lemma escalation_subject_never_prefixed (config : Config) (E : Env) (rr cd : pydict)
    (tr : list event) :
  exists sent,
    team_mails (snd (_send_escalation_notifications config E rr cd tr))
    = team_mails tr ++ sent /\
    Forall (fun m => mail_subject m = EmailHandler.team_subject E cd /\
                     String.prefix "ESCALATION:" (mail_subject m) = false) sent.
Proof.
  destruct (escalation_events config E rr cd tr) as [->|(a & -> & Ha)].
  - exists []. split; [symmetry; apply app_nil_r|constructor].
  - rewrite team_mails_app. eexists. split; [reflexivity|].
    destruct a as [e|m ok]; simpl; constructor; [|constructor].
    destruct Ha as [_ ->]. split; [reflexivity|apply team_subject_not_escalation].
Qed.

(** C4, on the code. The complaint of [test_route_billing_complaint] has
    priority [High], so [manager] is among its escalation actions. The
    mail the manager gets is the team notification: its subject is that of
    a team notification, it does not start with [ESCALATION:] and the text
    does not give the escalation reason. The notification built by
    [_create_manager_notification] has the prefixed subject, and is not
    what is sent. *)
Theorem escalation_mail_is_plain_team_mail :
  let rr := fst (route_complaint sample_config offline_env 0 billing_complaint) in
  let out := _send_escalation_notifications sample_config offline_env
               rr billing_complaint [] in
  py_contains_str (Py.get rr "escalation_actions" (VList [])) "manager" = Ok true /\
  fst out = true /\
  map (fun m => (mail_to m, mail_subject m)) (team_mails (snd out))
  = [(VStr "manager@company.com", "New High Priority Complaint - #123")] /\
  existsb (fun m => String.prefix "ESCALATION:" (mail_subject m)
                    || Str.contains "escalated due to" (mail_text m))
    (team_mails (snd out)) = false /\
  field_of (_create_manager_notification offline_env rr billing_complaint) "subject"
  = Some (VStr "ESCALATION: High Priority Complaint - #123").
Proof. vm_compute. repeat split; reflexivity. Qed.

(** ** Processing a mail *)

Lemma bind_all_raise {A B : Type} (m : res A) (k : A -> res B) :
  (forall a, exists e, k a = Raise e) -> exists e, m ≫= k = Raise e.
Proof. intros H. destruct m as [a|e]; simpl; [apply H|eauto]. Qed.

(** A complaint whose key entities are a dict is never inserted: when
    every subscripted key is there, binding the dict is refused. *)
Lemma insert_refuses_dict_entities (E : Env) (t : nat) (cd : pydict) (db : database)
    (entities : pydict) :
  cd !! "key_entities" = Some (VDict entities) ->
  exists e, insert_complaint E t cd db = (Raise e, db).
Proof.
  intros Hk. unfold insert_complaint.
  match goal with
  | |- exists e, match ?m with _ => _ end = _ =>
      assert (exists e, m = Raise e) as [e ->]; [|eexists; reflexivity]
  end.
  unfold Py.get. rewrite Hk. cbv beta iota.
  repeat (lazymatch goal with
          | |- exists e, sql_bind (VDict _) ≫= _ = _ => fail
          | _ => apply bind_all_raise; intros ?
          end).
  simpl. eauto.
Qed.

Lemma found_is_truthy (E : Env) (email_id : pyval) (db : database) (found : pydict) :
  get_complaint_by_email_id E email_id db = Ok (Some found) ->
  Py.truthy (VDict found) = true.
Proof.
  unfold get_complaint_by_email_id, mbind, res_bind.
  destruct (sql_bind email_id) as [v|]; [|discriminate].
  destruct (sql_text E v) as [key|]; [|discriminate].
  destruct (find_by_email_id key db) as [r|]; [|discriminate].
  intros [= <-]. unfold dict_of_row. simpl.
  rewrite bool_decide_eq_false_2; [reflexivity|]. apply insert_non_empty.
Qed.

(** X17. A mail whose key has a record is skipped: nothing is classified,
    stored or sent. *)
Lemma process_skips_existing (config : Config) (E : Env) (email_data : pydict)
    (w : world) (found : pydict) :
  get_complaint_by_email_id E (Py.get email_data "email_id" (VStr "unknown")) (w_db w)
  = Ok (Some found) ->
  process_single_complaint config E email_data w = (Ok (Result 0 0 0), w).
Proof.
  intros H. unfold process_single_complaint. rewrite H.
  rewrite (found_is_truthy E _ _ _ H). reflexivity.
Qed.

(** [process_single_complaint] never stores a record and never sends a
    notification: it skips the mail, or an exception leaves it at the
    insertion at the latest. *)
Lemma process_never_stores (config : Config) (E : Env) (email_data : pydict)
    (w : world) :
  let out := process_single_complaint config E email_data w in
  w_db (snd out) = w_db w /\
  notifications (w_trace (snd out)) = notifications (w_trace w) /\
  (fst out = Ok (Result 0 0 0) \/ exists e, fst out = Raise e).
Proof.
  unfold process_single_complaint.
  destruct (get_complaint_by_email_id E _ (w_db w)) as [existing|e]; cbn zeta.
  2: { cbn [fst snd]. eauto. }
  match goal with |- context [if ?b then _ else _] => destruct b end.
  { cbn [fst snd]. eauto. }
  assert (Hn : notifications (w_trace w ++ [EvClassify email_data])
               = notifications (w_trace w)).
  { unfold notifications. rewrite List.filter_app. simpl. apply app_nil_r. }
  destruct (classify_complaint E _ email_data) as [c|e] eqn:Hc.
  2: { cbn [fst snd w_db w_trace]. eauto. }
  destruct (classify_key_entities E _ email_data c Hc) as [entities Hk].
  match goal with
  | |- context [insert_complaint E ?t ?cd ?db] =>
      destruct (insert_refuses_dict_entities E t cd db entities) as [e ->]
  end.
  { unfold Py.merge. apply lookup_union_Some_l. exact Hk. }
  cbn [fst snd w_db w_trace]. eauto.
Qed.

(** C6, on the code. The mail of [test_fallback_classification] is
    processed twice on an empty store, the classification service being
    unavailable. Both runs classify the mail and leave at the insertion
    with [KeyError] for ["assigned_team"], which is only set by the
    routing step that comes after it: no record is stored and no
    notification is sent. *)
Theorem processing_twice_stores_nothing :
  let out1 := process_single_complaint sample_config offline_env
                billing_question empty_world in
  let out2 := process_single_complaint sample_config offline_env
                billing_question (snd out1) in
  fst out1 = Raise (KeyError "assigned_team") /\
  fst out2 = Raise (KeyError "assigned_team") /\
  rows (w_db (snd out2)) = [] /\
  notifications (w_trace (snd out2)) = [] /\
  classifications (w_trace (snd out2)) = 2.
Proof. vm_compute. repeat split; reflexivity. Qed.

(* ===================================================================== *)
(** * Further properties *)
(* ===================================================================== *)

Import ComplaintClassifierBatch ComplaintRecords.

(** ** Classification *)

(** The two outcomes of [classify_complaint]. *)
Lemma classify_cases (E : Env) (t : nat) (email_data : pydict) :
  match classify_complaint E t email_data with
  | Ok c => valid_classification c
  | Raise _ => sender_not_str email_data /\
               exists e, _get_fallback_classification E email_data = Raise e
  end.
Proof.
  unfold classify_complaint.
  destruct (classify_primary E t email_data) as [c|e] eqn:Hp.
  - destruct (primary_enhanced E t email_data c Hp) as [parsed H].
    by eapply enhance_valid.
  - destruct (_get_fallback_classification E email_data) as [c|e'] eqn:Hf.
    + by eapply fallback_valid.
    + split; [by eapply fallback_raise|eauto].
Qed.

(** X1. [batch_classify] returns one classification per mail, in the
    order of the mails: the result at an index is what
    [classify_complaint] returns for the mail at that index, called after
    the mails before it, and it is within the enumerations. (The handler
    of the loop never supplies a result: when [classify_complaint]
    raises, so does the fallback called in the handler.) [batch_classify]
    raises only when some mail has a sender that is not a string. *)
Theorem batch_classify_valid (E : Env) (t : nat) (email_list : list pydict) :
  match batch_classify E t email_list with
  | Ok results =>
      length results = length email_list /\
      Forall valid_classification results /\
      forall i email_data,
        email_list !! i = Some email_data ->
        exists result,
          results !! i = Some result /\
          classify_complaint E (t + i) email_data = Ok result /\
          valid_classification result
  | Raise _ => Exists sender_not_str email_list
  end.
Proof.
  revert t. induction email_list as [|email_data rest IH]; intros t; simpl.
  - split; [reflexivity|]. split; [constructor|]. intros i x Hx. discriminate.
  - pose proof (classify_cases E t email_data) as Hc.
    destruct (classify_complaint E t email_data) as [c|e] eqn:Hcl.
    + specialize (IH (S t)). simpl.
      destruct (batch_classify E (S t) rest) as [results|]; simpl.
      * destruct IH as (Hl & Hv & Hi).
        split; [congruence|]. split; [by constructor|].
        intros [|i] x Hx; simpl in Hx.
        -- injection Hx as <-. exists c. rewrite Nat.add_0_r.
           split; [reflexivity|]. split; [exact Hcl|exact Hc].
        -- destruct (Hi i x Hx) as (result & Hr & Hcr & Hvr).
           exists result. replace (t + S i) with (S t + i) by lia.
           split; [exact Hr|]. split; [exact Hcr|exact Hvr].
      * by apply Exists_cons_tl.
    + destruct Hc as [Hs [e' ->]]. simpl. by apply Exists_cons_hd.
Qed.

(** What [set_default] leaves under a key. *)
Lemma set_default_same (result : pydict) (field : string) :
  set_default field result !! field = Some (Py.get result field (VStr "Unknown")).
Proof.
  unfold set_default, Py.get. destruct (result !! field) eqn:Hf; [done|].
  apply lookup_insert_eq.
Qed.

Lemma set_default_other (result : pydict) (field k : string) :
  k <> field -> set_default field result !! k = result !! k.
Proof.
  intros Hne. unfold set_default. destruct (result !! field); [done|].
  by rewrite lookup_insert_ne.
Qed.

Lemma set_default_keeps (result : pydict) (field k : string) (v : pyval) :
  result !! k = Some v -> set_default field result !! k = Some v.
Proof.
  intros Hk. unfold set_default. destruct (result !! field) eqn:Hf; [done|].
  rewrite lookup_insert_ne; [done|congruence].
Qed.

(** X2. What [_parse_claude_response] makes of the answer of the service.
    Whatever it returns has a category, a priority, a sentiment and key
    entities that are a dict. Without braces, or when the text between
    them is not JSON, it returns the default classification. Otherwise
    it returns the decoded object changed in exactly this way: its key
    entities are kept when they are a dict and are the empty dict
    otherwise; category, priority and sentiment are kept when present and
    are [Unknown] otherwise; under every other key the result has what the
    decoded object has, and nothing where it has nothing. It raises only
    when the decoder raises something other than a decoding error. *)
Theorem parse_response_shape (E : Env) (response_text : string) :
  (forall c,
      _parse_claude_response E response_text = Ok c ->
      Forall (fun k => is_Some (c !! k)) ["category"; "priority"; "sentiment"] /\
      exists entities, c !! "key_entities" = Some (VDict entities)) /\
  match Re.search false json_pattern response_text with
  | None => _parse_claude_response E response_text = Ok _get_default_classification
  | Some m =>
      match json_loads E (group0 response_text m) with
      | JsonDecodeError =>
          _parse_claude_response E response_text = Ok _get_default_classification
      | JsonOtherError => _parse_claude_response E response_text = Raise DecodeFailure
      | JsonObject decoded =>
          exists c,
            _parse_claude_response E response_text = Ok c /\
            c !! "key_entities"
            = Some (match decoded !! "key_entities" with
                    | Some (VDict entities) => VDict entities
                    | _ => VDict ∅
                    end) /\
            Forall (fun k => c !! k = Some (Py.get decoded k (VStr "Unknown")))
              ["category"; "priority"; "sentiment"] /\
            (forall k, k <> "key_entities" -> k <> "category" ->
                       k <> "priority" -> k <> "sentiment" ->
                       c !! k = decoded !! k) /\
            (forall k v, decoded !! k = Some v -> k <> "key_entities" ->
                         c !! k = Some v) /\
            (forall entities, decoded !! "key_entities" = Some (VDict entities) ->
                              c !! "key_entities" = Some (VDict entities))
      end
  end.
Proof.
  assert (Hdefault :
            Forall (fun k => is_Some (_get_default_classification !! k))
              ["category"; "priority"; "sentiment"]).
  { repeat constructor; eexists; unfold _get_default_classification; dict_lookup. }
  split.
  { intros c Hc. split; [|by eapply parse_key_entities].
    revert Hc. unfold _parse_claude_response.
    destruct (Re.search false json_pattern response_text) as [m|];
      [|by intros [= <-]].
    destruct (json_loads E (group0 response_text m)) as [decoded| |];
      [|by intros [= <-]|discriminate].
    intros [= <-].
    set (c3 := set_default "sentiment" _).
    assert (H3 : Forall (fun k => is_Some (c3 !! k))
                   ["category"; "priority"; "sentiment"]).
    { subst c3. repeat constructor.
      - rewrite !set_default_other by done. rewrite set_default_same. eauto.
      - rewrite set_default_other by done. rewrite set_default_same. eauto.
      - rewrite set_default_same. eauto. }
    destruct (c3 !! "key_entities") as [[]|]; try exact H3;
      (eapply Forall_impl; [exact H3|]; intros k Hk; simpl in Hk;
       destruct (decide (k = "key_entities")) as [->|Hne];
       [rewrite lookup_insert_eq; eauto|by rewrite lookup_insert_ne]). }
  unfold _parse_claude_response.
  destruct (Re.search false json_pattern response_text) as [m|]; [|reflexivity].
  destruct (json_loads E (group0 response_text m)) as [decoded| |]; try reflexivity.
  eexists. split; [reflexivity|].
  set (c1 := set_default "category" decoded).
  set (c2 := set_default "priority" c1).
  set (c3 := set_default "sentiment" c2).
  assert (Hentities : c3 !! "key_entities" = decoded !! "key_entities").
  { subst c3 c2 c1. by rewrite !set_default_other. }
  assert (Hfinal : forall k, k <> "key_entities" ->
             match c3 !! "key_entities" with
             | Some (VDict _) => c3
             | _ => <["key_entities" := VDict ∅]> c3
             end !! k = c3 !! k).
  { intros k Hne. destruct (c3 !! "key_entities") as [[]|];
      try done; by rewrite lookup_insert_ne. }
  assert (Hfields :
            Forall (fun k => c3 !! k = Some (Py.get decoded k (VStr "Unknown")))
              ["category"; "priority"; "sentiment"]).
  { subst c3 c2 c1. repeat constructor.
    - rewrite !set_default_other by done. apply set_default_same.
    - rewrite set_default_other by done. rewrite set_default_same. unfold Py.get.
      by rewrite set_default_other.
    - rewrite set_default_same. unfold Py.get. by rewrite !set_default_other. }
  assert (Hkey :
            match c3 !! "key_entities" with
            | Some (VDict _) => c3
            | _ => <["key_entities" := VDict ∅]> c3
            end !! "key_entities"
            = Some (match decoded !! "key_entities" with
                    | Some (VDict entities) => VDict entities
                    | _ => VDict ∅
                    end)).
  { rewrite <- Hentities.
    destruct (c3 !! "key_entities") as [[]|] eqn:Hk;
      first [ exact Hk | apply lookup_insert_eq ]. }
  split; [exact Hkey|].
  rewrite !Forall_cons in Hfields. destruct Hfields as (Hcat & Hpri & Hsen & _).
  split; [by repeat constructor; rewrite Hfinal|].
  split.
  { intros k H1 H2 H3 H4. rewrite Hfinal by done. subst c3 c2 c1.
    by rewrite !set_default_other. }
  split.
  { intros k v Hk Hne. rewrite Hfinal by done. subst c3 c2 c1.
    by do 3 apply set_default_keeps. }
  intros entities He. rewrite Hkey. by rewrite He.
Qed.

(** ** Entities and keywords *)

Lemma probe_order_frame (patterns : list Re.re) (text : string)
    (entities : pydict) (k : string) :
  k <> "order_number" ->
  probe_order_patterns patterns text entities !! k = entities !! k.
Proof.
  intros Hk. induction patterns as [|p patterns IH]; simpl; [done|].
  destruct (Re.search true p text); [|exact IH].
  destruct (negb (Py.truthy_get entities "order_number")); [|exact IH].
  by rewrite lookup_insert_ne.
Qed.

(** X3. [_extract_additional_entities] only supplements the entities it is
    given: an entity whose value is true in the Python sense is kept, and
    so is every entry other than the order number, the phone number and
    the amount. *)
Theorem extraction_supplements (E : Env) (email_data existing : pydict)
    (k : string) :
  Py.truthy_get existing k = true \/
  ~ In k ["order_number"; "phone_number"; "amount"] ->
  _extract_additional_entities E email_data existing !! k = existing !! k.
Proof.
  intros Hk. unfold _extract_additional_entities.
  set (text := py_str E (Py.get email_data "subject" (VStr "")) +:+ " "
               +:+ py_str E (Py.get email_data "body" (VStr ""))).
  set (e1 := probe_order_patterns order_patterns text existing).
  assert (H1 : e1 !! k = existing !! k).
  { subst e1. destruct (decide (k = "order_number")) as [->|Hne].
    - destruct Hk as [Hk|Hk]; [by rewrite probe_order_keeps_known|].
      exfalso. apply Hk. simpl. auto.
    - by apply probe_order_frame. }
  set (e2 := match Re.search false phone_pattern text with
             | Some phone_match =>
                 if negb (Py.truthy_get e1 "phone_number")
                 then <["phone_number" := VStr (group1 phone_match)]> e1
                 else e1
             | None => e1
             end).
  assert (H2 : e2 !! k = existing !! k).
  { subst e2. destruct (Re.search false phone_pattern text); [|exact H1].
    destruct (Py.truthy_get e1 "phone_number") eqn:Hp; simpl; [exact H1|].
    destruct (decide (k = "phone_number")) as [->|Hne].
    - destruct Hk as [Hk|Hk].
      + unfold Py.truthy_get in Hp, Hk. rewrite H1 in Hp. congruence.
      + exfalso. apply Hk. simpl. auto.
    - by rewrite lookup_insert_ne. }
  destruct (Re.search false amount_pattern text); [|exact H2].
  destruct (Py.truthy_get e2 "amount") eqn:Ha; simpl; [exact H2|].
  destruct (decide (k = "amount")) as [->|Hne].
  - destruct Hk as [Hk|Hk].
    + unfold Py.truthy_get in Ha, Hk. rewrite H2 in Ha. congruence.
    + exfalso. apply Hk. simpl. auto.
  - by rewrite lookup_insert_ne.
Qed.

Lemma extraction_supplements_witness :
  (Py.truthy_get (dict_of [("order_number", VStr "A-77")]) "order_number" = true \/
   ~ In "order_number" ["order_number"; "phone_number"; "amount"]) /\
  _extract_additional_entities offline_env order_issue
    (dict_of [("order_number", VStr "A-77")]) !! "order_number"
  = dict_of [("order_number", VStr "A-77")] !! "order_number".
Proof.
  split; [left; vm_compute; reflexivity|].
  apply (extraction_supplements offline_env order_issue
           (dict_of [("order_number", VStr "A-77")]) "order_number").
  left. vm_compute. reflexivity.
Defined.

Lemma str_lower_append (a b : string) :
  Str.lower (a +:+ b) = Str.lower a +:+ Str.lower b.
Proof. induction a as [|c a IH]; simpl; [done|by rewrite IH]. Qed.

(** X4. The keyword rules of the fallback do not distinguish upper and
    lower case: two mails with the same sender whose subjects and bodies
    are strings that differ only in the case of their letters get the same
    category, priority, sentiment and summary. *)
Theorem fallback_ignores_case (E : Env) (email_data : pydict)
    (subject body subject' body' : string) (field : string) :
  email_data !! "subject" = Some (VStr subject) ->
  email_data !! "body" = Some (VStr body) ->
  Str.lower subject' = Str.lower subject ->
  Str.lower body' = Str.lower body ->
  In field ["category"; "priority"; "sentiment"; "summary"] ->
  field_of (_get_fallback_classification E
              (<["subject" := VStr subject']> (<["body" := VStr body']> email_data)))
           field
  = field_of (_get_fallback_classification E email_data) field.
Proof.
  intros Hs Hb Hls Hlb Hf. unfold _get_fallback_classification, Py.get.
  rewrite Hs, Hb, lookup_insert_eq.
  rewrite (lookup_insert_ne _ "subject" "body") by done.
  rewrite lookup_insert_eq.
  do 2 rewrite (lookup_insert_ne _ _ "sender") by done.
  simpl py_str.
  rewrite !str_lower_append, Hls, Hlb.
  destruct (_extract_name_from_sender _) as [name|e]; [|reflexivity].
  simpl in Hf.
  destruct Hf as [<-|[<-|[<-|[<-|[]]]]]; cbn [field_of mbind res_bind];
    unfold dict_of; simpl list_to_map;
    repeat (rewrite lookup_insert_ne by done); rewrite !lookup_insert_eq; reflexivity.
Qed.

Lemma fallback_ignores_case_witness :
  field_of (_get_fallback_classification offline_env
              (<["subject" := VStr "UNUSUAL CHARGE"]>
                 (<["body" := VStr "CHARGED $150 for a service I never ordered. UNACCEPTABLE."]>
                    unusual_charge)))
           "sentiment"
  = field_of (_get_fallback_classification offline_env unusual_charge) "sentiment".
Proof.
  apply (fallback_ignores_case offline_env unusual_charge
           "Unusual charge" "Charged $150 for a service I never ordered. Unacceptable.");
    vm_compute; auto.
Defined.

Lemma probe_order_first_match_witness :
  probe_order_patterns order_patterns "see #ABCDEF1, ref: AB12" ∅
  = <["order_number" := VStr "ABCDEF1"]> ∅.
Proof.
  apply (probe_order_first_match "see #ABCDEF1, ref: AB12" ∅
           (firstn 2 order_patterns) (skipn 3 order_patterns)
           (nth 2 order_patterns Re.REmpty) (Re.Match 4 12 (Some "ABCDEF1"))).
  - reflexivity.
  - repeat constructor; vm_compute; reflexivity.
  - vm_compute. reflexivity.
Defined.

(** ** The text sent to the classification service *)

Lemma str_length_append (a b : string) :
  String.length (a +:+ b) = String.length a + String.length b.
Proof. induction a as [|c a IH]; simpl; [done|by rewrite IH]. Qed.

Lemma str_length_take (n : nat) (s : string) :
  String.length (Str.take n s) = Nat.min n (String.length s).
Proof.
  unfold Str.take. revert s. induction n as [|n IH]; intros [|c s]; simpl; try done.
  by rewrite IH.
Qed.

(** X5. [_prepare_input_text] sends at most 3000 characters of a body that
    is a string, followed by a 15-character marker when it was cut: the
    text is the body part plus the subject, the sender and 102 characters
    of template. *)
Theorem prepared_text_bounded (E : Env) (email_data : pydict) (body : string) :
  email_data !! "body" = Some (VStr body) ->
  exists text,
    _prepare_input_text E email_data = Ok text /\
    String.length text
    = 102
      + String.length (py_str E (Py.get email_data "subject" (VStr "No subject")))
      + String.length (py_str E (Py.get email_data "sender" (VStr "Unknown sender")))
      + (if Nat.ltb 3000 (String.length body) then 3015 else String.length body).
Proof.
  intros Hb. unfold _prepare_input_text.
  replace (Py.get email_data "body" (VStr "No body")) with (VStr body)
    by (unfold Py.get; by rewrite Hb).
  cbn [py_len mbind res_bind].
  destruct (Nat.ltb 3000 (String.length body)) eqn:Hlen;
    cbn [mbind res_bind]; eexists; (split; [reflexivity|]);
    rewrite !str_length_append; cbn [py_str]; rewrite ?str_length_append, ?str_length_take;
    change (String.length Str.nl) with 1; cbn [String.length];
    try (apply Nat.ltb_lt in Hlen); lia.
Qed.

Lemma prepared_text_bounded_witness :
  exists text,
    _prepare_input_text offline_env unusual_charge = Ok text /\
    String.length text
    = 102
      + String.length (py_str offline_env (Py.get unusual_charge "subject" (VStr "No subject")))
      + String.length (py_str offline_env (Py.get unusual_charge "sender" (VStr "Unknown sender")))
      + (if Nat.ltb 3000 (String.length "Charged $150 for a service I never ordered. Unacceptable.")
         then 3015
         else String.length "Charged $150 for a service I never ordered. Unacceptable.").
Proof.
  apply (prepared_text_bounded offline_env unusual_charge
           "Charged $150 for a service I never ordered. Unacceptable.").
  vm_compute. reflexivity.
Defined.

(** ** Routing *)

Local Opaque String.eqb.

Lemma escalation_table (priority : pyval) (actions : list string) :
  _determine_escalation_actions priority = Ok actions ->
  existsb (fun v => Py.eq_str v "manager") (map VStr actions)
  = Py.in_strs priority ["Urgent"; "High"] /\
  existsb (fun v => Py.eq_str v "team") (map VStr actions)
  = negb (Py.eq_str priority "High").
Proof.
  unfold _determine_escalation_actions, Py.table_get, Py.in_strs.
  destruct priority as [| | | |s| |]; try discriminate;
    try (intros [= <-]; split; reflexivity).
  intros [= <-]. simpl.
  rewrite !(String.eqb_sym s).
  destruct (String.eqb "Urgent" s) eqn:Hu.
  { apply String.eqb_eq in Hu as <-. split; vm_compute; reflexivity. }
  destruct (String.eqb "High" s) eqn:Hh; [split; vm_compute; reflexivity|].
  destruct (String.eqb "Medium" s); [split; vm_compute; reflexivity|].
  destruct (String.eqb "Low" s); split; vm_compute; reflexivity.
Qed.

(** The team and the address of a category. *)
Lemma team_table_agrees (config : Config) (category : pyval) (team address : string) :
  _determine_assigned_team category = Ok team ->
  get_team_email config category = Ok address ->
  In (team, address)
    [("Billing Team", billing_team_email config);
     ("Technical Team", tech_team_email config);
     ("Refunds Team", refunds_team_email config);
     ("Delivery Team", delivery_team_email config);
     ("Account Team", account_team_email config);
     ("General Support Team", general_team_email config)].
Proof.
  unfold _determine_assigned_team, get_team_email, Py.table_get.
  destruct category as [| | | |s| |]; try discriminate;
    try (intros [= <-] [= <-]; simpl; tauto).
  intros [= <-] [= <-]. unfold team_table, team_mapping. cbn [find fst snd].
  repeat (match goal with
          | |- context [String.eqb ?k s] => destruct (String.eqb k s)
          end; cbn [snd]; [simpl; tauto|]).
  simpl; tauto.
Qed.

Local Transparent String.eqb.

(** The escalation actions and the priority of a routing decision. *)
Lemma route_escalation_actions (config : Config) (E : Env) (t : nat)
    (complaint_data : pydict) :
  let r := fst (route_complaint config E t complaint_data) in
  exists actions priority,
    r !! "escalation_actions" = Some (str_list actions) /\
    r !! "priority" = Some priority /\
    existsb (fun v => Py.eq_str v "manager") (map VStr actions)
    = Py.in_strs priority ["Urgent"; "High"] /\
    existsb (fun v => Py.eq_str v "team") (map VStr actions)
    = negb (Py.eq_str priority "High").
Proof.
  intros r.
  destruct (route_fields config E t complaint_data) as [H _]. fold r in H.
  destruct (_determine_assigned_team _) as [team|];
    [destruct (_determine_escalation_actions _) as [acts|] eqn:Ha|];
    destruct H as (_ & Hact & Hp & _); do 2 eexists;
    (split; [exact Hact|]); (split; [exact Hp|]);
    try (split; reflexivity).
  exact (escalation_table _ _ Ha).
Qed.

(** X6. In every routing decision, on the normal path and on the fallback
    path, the manager is among the escalation actions exactly when the
    routed priority is [Urgent] or [High], and the team is among them
    exactly when it is not [High]. *)
Theorem manager_escalated_iff_high (config : Config) (E : Env) (t : nat)
    (complaint_data : pydict) :
  let r := fst (route_complaint config E t complaint_data) in
  let actions := Py.get r "escalation_actions" (VList []) in
  let priority := Py.get r "priority" VNone in
  py_contains_str actions "manager" = Ok (Py.in_strs priority ["Urgent"; "High"]) /\
  py_contains_str actions "team" = Ok (negb (Py.eq_str priority "High")).
Proof.
  intros r actions priority. subst actions priority.
  destruct (route_escalation_actions config E t complaint_data)
    as (actions & p & Hact & Hp & Hm & Ht).
  fold r in Hact, Hp. unfold Py.get. rewrite Hact, Hp.
  unfold str_list, py_contains_str. by rewrite Hm, Ht.
Qed.

(** X7. Every routing decision pairs a team with the address the
    configuration gives for that team: the table of teams in the router
    and the table of addresses in the configuration agree on all seven
    categories, on the default and on the fallback decision. *)
Theorem team_and_address_agree (config : Config) (E : Env) (t : nat)
    (complaint_data : pydict) :
  let r := fst (route_complaint config E t complaint_data) in
  exists team address,
    r !! "assigned_team" = Some (VStr team) /\
    r !! "team_email" = Some (VStr address) /\
    In (team, address)
      [("Billing Team", billing_team_email config);
       ("Technical Team", tech_team_email config);
       ("Refunds Team", refunds_team_email config);
       ("Delivery Team", delivery_team_email config);
       ("Account Team", account_team_email config);
       ("General Support Team", general_team_email config)].
Proof.
  intros r. subst r. unfold route_complaint, _get_fallback_routing.
  set (category := Py.get complaint_data "category" (VStr "General Inquiry")).
  set (priority := Py.get complaint_data "priority" (VStr "Medium")).
  destruct (_determine_assigned_team category) as [team|] eqn:Ht.
  - unfold mbind, res_bind.
    destruct (_determine_escalation_actions priority) as [actions|].
    + destruct (get_team_email config category) as [address|] eqn:He; cbn [fst].
      * exists team, address. repeat split; [dict_lookup..|].
        by eapply team_table_agrees.
      * do 2 eexists. repeat split; [dict_lookup..|]. simpl; tauto.
    + cbn [fst]. do 2 eexists. repeat split; [dict_lookup..|]. simpl; tauto.
  - cbn [fst]. do 2 eexists. repeat split; [dict_lookup..|]. simpl; tauto.
Qed.

(** ** The order of the channels *)

(** X8. For a routing decision made by [route_complaint], the fan-out
    [send_team_notification] runs its channels in a fixed order and none
    of them depends on the outcome of another: first the mail to the
    address of the assigned team, then one Slack attempt when a web hook
    is configured and the priority is [Urgent] or [High], then one mail to
    the manager when the priority is [Urgent] or [High]; nothing else is
    appended to the trace. *)
Theorem fan_out_order (config : Config) (E : Env) (t : nat)
    (routed complaint_data : pydict) (tr : list event) :
  let rr := fst (route_complaint config E t routed) in
  let high := Py.in_strs (Py.get rr "priority" VNone) ["Urgent"; "High"] in
  exists team_attempt slack manager,
    snd (send_team_notification config E rr complaint_data tr)
    = tr ++ EvTeamNotification team_attempt :: slack ++ manager /\
    match team_attempt with
    | MailSent m _ => rr !! "team_email" = Some (mail_to m)
    | MailNotBuilt _ => True
    end /\
    (if webhook_configured config && high
     then exists a, slack = [EvSlack a]
     else slack = []) /\
    (if high
     then exists a, manager = [EvTeamNotification a] /\
                    match a with
                    | MailSent m _ => mail_to m = VStr (manager_email config)
                    | MailNotBuilt _ => True
                    end
     else manager = []).
Proof.
  intros rr high.
  destruct (route_has_keys config E t routed) as (team_email & p0 & Hte & Hp0).
  destruct (route_escalation_actions config E t routed)
    as (actions & p & Hact & Hp & Hm & _).
  fold rr in Hte, Hp0, Hact, Hp.
  assert (p0 = p) as -> by congruence.
  assert (high = Py.in_strs p ["Urgent"; "High"]) as Hhigh
    by (unfold high, Py.get; by rewrite Hp).
  rewrite (send_team_notification_steps config E rr _ _ _ _ Hte Hp). cbn [snd].
  destruct (team_mail_event config E (VStr team_email) complaint_data tr)
    as (a & Hmail & Ha).
  rewrite Hmail. rewrite <- Hhigh.
  set (tr1 := tr ++ [EvTeamNotification a]).
  assert (Hesc : forall tr2,
             if high
             then exists b, snd (_send_escalation_notifications config E rr
                                   complaint_data tr2)
                            = tr2 ++ [EvTeamNotification b] /\
                            match b with
                            | MailSent m _ => mail_to m = VStr (manager_email config)
                            | MailNotBuilt _ => True
                            end
             else snd (_send_escalation_notifications config E rr complaint_data tr2)
                  = tr2).
  { intros tr2. unfold _send_escalation_notifications, Py.get.
    rewrite Hact. unfold str_list, py_contains_str. rewrite Hm, <- Hhigh.
    destruct high; [|reflexivity].
    unfold _create_manager_notification, Py.item. rewrite Hp.
    cbn [mbind res_bind].
    destruct (team_mail_event config E (VStr (manager_email config))
                complaint_data tr2) as (b & Hb & Hto).
    exists b. split; [exact Hb|]. destruct b; [done|]. by destruct Hto. }
  assert (Hteam : match a with
                  | MailSent m _ => rr !! "team_email" = Some (mail_to m)
                  | MailNotBuilt _ => True
                  end).
  { destruct a as [|m ok]; [done|]. destruct Ha as [-> _]. exact Hte. }
  exists a.
  destruct (webhook_configured config) eqn:Hw; cbn [andb].
  - destruct high eqn:Hh.
    + destruct (slack_notification_event config E rr complaint_data tr1 Hw)
        as [s Hs].
      rewrite Hs. specialize (Hesc (tr1 ++ [EvSlack s])).
      destruct Hesc as (b & Hb & Hto). rewrite Hb.
      exists [EvSlack s], [EvTeamNotification b].
      split; [subst tr1; by rewrite <- !app_assoc|].
      split; [exact Hteam|]. split; eauto.
    + cbn [snd]. specialize (Hesc tr1). cbn in Hesc. rewrite Hesc.
      exists [], []. subst tr1. repeat split; try done.
  - cbn [snd]. specialize (Hesc tr1). destruct high.
    + destruct Hesc as (b & Hb & Hto). rewrite Hb.
      exists [], [EvTeamNotification b].
      split; [subst tr1; by rewrite <- !app_assoc|].
      split; [exact Hteam|]. split; eauto.
    + rewrite Hesc. exists [], []. subst tr1. repeat split; try done.
Qed.

(** ** The acknowledgment *)

Lemma str_prefix_append (a b : string) : String.prefix a (a +:+ b) = true.
Proof.
  induction a as [|c a IH]; simpl; [by destruct b|].
  destruct (ascii_dec c c); [exact IH|done].
Qed.

Lemma contains_prefix (needle rest : string) :
  Str.contains needle (needle +:+ rest) = true.
Proof.
  assert (H : forall hay, String.prefix needle hay = true ->
                          Str.contains needle hay = true)
    by (intros [|c hay] Hp; simpl in *; by rewrite Hp).
  apply H, str_prefix_append.
Qed.

Lemma contains_append (needle a s : string) :
  Str.contains needle s = true -> Str.contains needle (a +:+ s) = true.
Proof.
  intros H. induction a as [|c a IH]; [exact H|].
  change (Str.contains needle (String c a +:+ s))
    with (if String.prefix needle (String c (a +:+ s)) then true
          else Str.contains needle (a +:+ s)).
  rewrite IH. by destruct (String.prefix needle (String c (a +:+ s))).
Qed.

Lemma str_append_assoc (a b c : string) : (a +:+ b) +:+ c = a +:+ b +:+ c.
Proof.
  induction a as [|x a IH]; [reflexivity|].
  change (String x ((a +:+ b) +:+ c) = String x (a +:+ b +:+ c)).
  by rewrite IH.
Qed.

(** X10. The acknowledgment promises an answer within the delay of the
    priority: 2 hours for [Urgent], 4 for [High], 48 for [Low], and 24 for
    [Medium] and for any other value that can be looked up. The text
    exists whenever the category is a string. *)
Theorem acknowledgment_promise (E : Env) (complaint_data : pydict)
    (category : string) :
  let priority := Py.get complaint_data "priority" (VStr "Medium") in
  complaint_data !! "category" = Some (VStr category) ->
  Py.hashable priority = true ->
  exists text,
    EmailHandler._create_acknowledgment_text E complaint_data = Ok text /\
    Str.contains
      ("We will respond to your inquiry "
       +:+ (if Py.eq_str priority "Urgent" then "within 2 hours"
            else if Py.eq_str priority "High" then "within 4 hours"
            else if Py.eq_str priority "Low" then "within 48 hours"
            else "within 24 hours")
       +:+ " during business hours.")
      text = true.
Proof.
  intros priority Hc Hp. unfold EmailHandler._create_acknowledgment_text.
  fold priority.
  replace (Py.get complaint_data "category" (VStr "your inquiry"))
    with (VStr category) by (unfold Py.get; by rewrite Hc).
  assert (Ht : Py.table_get EmailHandler.response_times priority "within 24 hours"
               = Ok (if Py.eq_str priority "Urgent" then "within 2 hours"
                     else if Py.eq_str priority "High" then "within 4 hours"
                     else if Py.eq_str priority "Low" then "within 48 hours"
                     else "within 24 hours")).
  { destruct priority as [| | | |s| |]; try discriminate; try reflexivity.
    unfold Py.table_get, EmailHandler.response_times, Py.eq_str. f_equal.
    cbn [find fst snd]. rewrite !(String.eqb_sym s).
    destruct (String.eqb_spec "Urgent" s) as [<-|_]; [reflexivity|].
    destruct (String.eqb_spec "High" s) as [<-|_]; [reflexivity|].
    destruct (String.eqb_spec "Medium" s) as [<-|_]; [reflexivity|].
    destruct (String.eqb_spec "Low" s) as [<-|_]; reflexivity. }
  rewrite Ht. cbn [mbind res_bind]. eexists. split; [reflexivity|].
  set (promise := if Py.eq_str priority "Urgent" then _ else _).
  clearbody promise.
  repeat (first
    [ match goal with
      | |- Str.contains ?needle
             ("We will respond to your inquiry " +:+ promise
              +:+ " during business hours." +:+ ?rest) = true =>
          replace ("We will respond to your inquiry " +:+ promise
                   +:+ " during business hours." +:+ rest)
            with (needle +:+ rest) by (by rewrite !str_append_assoc);
          apply contains_prefix
      end
    | apply contains_append ]).
Qed.

Lemma acknowledgment_promise_witness :
  exists text,
    EmailHandler._create_acknowledgment_text offline_env urgent_complaint = Ok text /\
    Str.contains
      ("We will respond to your inquiry "
       +:+ (if Py.eq_str (Py.get urgent_complaint "priority" (VStr "Medium")) "Urgent"
            then "within 2 hours"
            else if Py.eq_str (Py.get urgent_complaint "priority" (VStr "Medium")) "High"
            then "within 4 hours"
            else if Py.eq_str (Py.get urgent_complaint "priority" (VStr "Medium")) "Low"
            then "within 48 hours"
            else "within 24 hours")
       +:+ " during business hours.")
      text = true.
Proof.
  apply (acknowledgment_promise offline_env urgent_complaint "Billing Issue");
    vm_compute; reflexivity.
Defined.

(** ** The store *)

Lemma sql_bind_ok (v v' : pyval) : sql_bind v = Ok v' -> v' = v.
Proof.
  destruct v; simpl; try (intros [= <-]; reflexivity); try discriminate.
  destruct (_ && _); [intros [= <-]; reflexivity|discriminate].
Qed.

(** What a successful [insert_complaint] did. *)
Lemma insert_ok (E : Env) (t : nat) (cd : pydict) (db db' : database) (id : Z) :
  insert_complaint E t cd db = (Ok id, db') ->
  exists r key_value,
    db' = Database (rows db ++ [r]) id /\
    row_id r = id /\ id = (last_rowid db + 1)%Z /\
    find_by_email_id (row_email_id r) db = None /\
    cd !! "email_id" = Some key_value /\
    sql_bind key_value = Ok key_value /\
    sql_text E key_value = Some (row_email_id r) /\
    dict_of_row r !! "status" = Some (VStr "New") /\
    Forall (fun k => exists v, cd !! k = Some v /\
                               dict_of_row r !! k = Some (sql_store E v))
      not_null_columns /\
    dict_of_row r !! "sentiment" = Some (sql_store E (Py.get cd "sentiment" VNone)).
Proof.
  unfold insert_complaint, Py.item, mbind, res_bind. intros H.
  destruct (cd !! "email_id") as [email_id|] eqn:H1; [|discriminate].
  destruct (cd !! "customer_email") as [customer_email|] eqn:H2; [|discriminate].
  destruct (cd !! "subject") as [subject|] eqn:H3; [|discriminate].
  destruct (cd !! "body") as [body|] eqn:H4; [|discriminate].
  destruct (cd !! "category") as [category|] eqn:H5; [|discriminate].
  destruct (cd !! "priority") as [priority|] eqn:H6; [|discriminate].
  destruct (cd !! "assigned_team") as [assigned_team|] eqn:H7; [|discriminate].
  destruct (sql_bind email_id) as [b1|] eqn:B1; [|discriminate].
  destruct (sql_bind customer_email) as [b2|] eqn:B2; [|discriminate].
  destruct (sql_bind (Py.get cd "customer_name" VNone)) as [b3|] eqn:B3; [|discriminate].
  destruct (sql_bind subject) as [b4|] eqn:B4; [|discriminate].
  destruct (sql_bind body) as [b5|] eqn:B5; [|discriminate].
  destruct (sql_bind category) as [b6|] eqn:B6; [|discriminate].
  destruct (sql_bind priority) as [b7|] eqn:B7; [|discriminate].
  destruct (sql_bind (Py.get cd "sentiment" VNone)) as [b8|] eqn:B8; [|discriminate].
  destruct (sql_bind assigned_team) as [b9|] eqn:B9; [|discriminate].
  destruct (sql_bind (Py.get cd "key_entities" (VStr ""))) as [b10|] eqn:B10; [|discriminate].
  destruct (sql_bind (Py.get cd "summary" (VStr ""))) as [b11|] eqn:B11; [|discriminate].
  destruct (sql_bind (Py.get cd "suggested_action" (VStr ""))) as [b12|] eqn:B12;
    [|discriminate].
  apply sql_bind_ok in B2, B4, B5, B6, B7, B8, B9. subst b2 b4 b5 b6 b7 b8 b9.
  pose proof (sql_bind_ok _ _ B1) as ->.
  destruct (sql_text E email_id) as [key|] eqn:T1; [|discriminate].
  destruct (sql_text E customer_email); [|discriminate].
  destruct (sql_text E subject); [|discriminate].
  destruct (sql_text E body); [|discriminate].
  destruct (sql_text E category); [|discriminate].
  destruct (sql_text E priority); [|discriminate].
  destruct (sql_text E assigned_team); [|discriminate].
  destruct (find_by_email_id key db) eqn:F; [discriminate|].
  injection H as <- <-.
  eexists _, email_id. split; [reflexivity|].
  cbn [row_id row_email_id]. unfold dict_of_row.
  repeat split; try done; try dict_lookup.
  unfold not_null_columns.
  repeat (constructor; [eexists; split; [eassumption|dict_lookup]|]).
  constructor.
Qed.

Lemma find_app_none {A : Type} (f : A -> bool) (l1 l2 : list A) :
  List.find f l1 = None -> List.find f (l1 ++ l2) = List.find f l2.
Proof.
  induction l1 as [|x l1 IH]; simpl; [done|].
  destruct (f x); [discriminate|exact IH].
Qed.

Lemma find_app_some {A : Type} (f : A -> bool) (l1 l2 : list A) (x : A) :
  List.find f l1 = Some x -> List.find f (l1 ++ l2) = Some x.
Proof.
  induction l1 as [|y l1 IH]; simpl; [discriminate|].
  destruct (f y); [done|exact IH].
Qed.

Lemma find_by_email_id_new (key : string) (db : database) (r : row) (id : Z) :
  find_by_email_id key db = None ->
  row_email_id r = key ->
  find_by_email_id key (Database (rows db ++ [r]) id) = Some r.
Proof.
  unfold find_by_email_id. cbn [rows]. intros Hn <-.
  rewrite (find_app_none _ _ _ Hn). simpl. rewrite String.eqb_refl. reflexivity.
Qed.

Lemma find_none_not_in (key : string) (l : list row) :
  List.find (fun r => String.eqb (row_email_id r) key) l = None ->
  ~ In key (map row_email_id l).
Proof.
  intros Hn Hin. apply in_map_iff in Hin as (r & <- & Hr).
  apply (find_none _ _ Hn) in Hr. rewrite String.eqb_refl in Hr. discriminate.
Qed.

(** X11. A record that was inserted is found under its e-mail id: the lookup
    returns the new id, the status [New] and, for each column that must
    not be NULL, the text of the value given. *)
Theorem insert_then_lookup (E : Env) (t : nat) (cd : pydict)
    (db db' : database) (id : Z) :
  insert_complaint E t cd db = (Ok id, db') ->
  exists found,
    get_complaint_by_email_id E (Py.get cd "email_id" VNone) db' = Ok (Some found) /\
    found !! "id" = Some (VInt id) /\
    found !! "status" = Some (VStr "New") /\
    Forall (fun k => found !! k = Some (sql_store E (Py.get cd k VNone)))
      not_null_columns.
Proof.
  intros H.
  destruct (insert_ok E t cd db db' id H)
    as (r & v & -> & Hid & _ & Hf & Hk & Hb & Ht & Hs & Hc & _).
  exists (dict_of_row r). unfold get_complaint_by_email_id, Py.get, mbind, res_bind.
  rewrite Hk, Hb, Ht.
  rewrite (find_by_email_id_new _ db r id Hf eq_refl). cbn [option_map].
  split; [reflexivity|]. split; [rewrite <- Hid; apply lookup_insert_eq|].
  split; [exact Hs|].
  eapply Forall_impl; [exact Hc|]. cbn beta. intros k (w & -> & Hw). exact Hw.
Qed.

(** X12. Inserting the same complaint again is refused as a duplicate, with
    [ValueError], and leaves the store as it is. *)
Theorem insert_twice_conflict (E : Env) (t t' : nat) (cd : pydict)
    (db db' : database) (id : Z) :
  insert_complaint E t cd db = (Ok id, db') ->
  insert_complaint E t' cd db' = (Raise integrity_error, db').
Proof.
  intros H.
  destruct (insert_ok E t cd db db' id H)
    as (r & v & Hdb & Hid & _ & Hf & Hk & Hb & Ht & _ & _).
  pose proof (find_by_email_id_new _ db r id Hf eq_refl) as Hnew.
  rewrite <- Hdb in Hnew. clear Hdb Hf.
  revert H. unfold insert_complaint, Py.item, mbind, res_bind.
  rewrite Hk, Hb, Ht.
  destruct (cd !! "customer_email") as [customer_email|]; [|discriminate].
  destruct (cd !! "subject") as [subject|]; [|discriminate].
  destruct (cd !! "body") as [body|]; [|discriminate].
  destruct (cd !! "category") as [category|]; [|discriminate].
  destruct (cd !! "priority") as [priority|]; [|discriminate].
  destruct (cd !! "assigned_team") as [assigned_team|]; [|discriminate].
  destruct (sql_bind customer_email) as [b2|]; [|discriminate].
  destruct (sql_bind (Py.get cd "customer_name" VNone)) as [b3|]; [|discriminate].
  destruct (sql_bind subject) as [b4|]; [|discriminate].
  destruct (sql_bind body) as [b5|]; [|discriminate].
  destruct (sql_bind category) as [b6|]; [|discriminate].
  destruct (sql_bind priority) as [b7|]; [|discriminate].
  destruct (sql_bind (Py.get cd "sentiment" VNone)) as [b8|]; [|discriminate].
  destruct (sql_bind assigned_team) as [b9|]; [|discriminate].
  destruct (sql_bind (Py.get cd "key_entities" (VStr ""))) as [b10|]; [|discriminate].
  destruct (sql_bind (Py.get cd "summary" (VStr ""))) as [b11|]; [|discriminate].
  destruct (sql_bind (Py.get cd "suggested_action" (VStr ""))) as [b12|];
    [|discriminate].
  destruct (sql_text E b2); [|discriminate].
  destruct (sql_text E b4); [|discriminate].
  destruct (sql_text E b5); [|discriminate].
  destruct (sql_text E b6); [|discriminate].
  destruct (sql_text E b7); [|discriminate].
  destruct (sql_text E b9); [|discriminate].
  rewrite Hnew. reflexivity.
Qed.

Lemma consistent_empty : consistent (Database [] 0).
Proof. repeat split; simpl; constructor. Qed.

(** X13. [insert_complaint] keeps the store consistent: ids stay distinct
    and below the counter, e-mail ids stay distinct. *)
Theorem insert_keeps_consistent (E : Env) (t : nat) (cd : pydict) (db : database) :
  consistent db -> consistent (snd (insert_complaint E t cd db)).
Proof.
  intros Hc. destruct (insert_complaint E t cd db) as [[id|e] db'] eqn:H.
  - destruct (insert_ok E t cd db db' id H)
      as (r & v & -> & Hid & Hnew & Hf & _).
    destruct Hc as (Hi & He & Hle). cbn [snd]. unfold consistent. cbn [rows last_rowid].
    rewrite !map_app. cbn [map]. repeat split.
    + apply NoDup_app. split; [exact Hi|]. split; [|apply NoDup_singleton].
      intros x Hx Hk. apply list_elem_of_In in Hx, Hk. destruct Hk as [<-|[]].
      apply in_map_iff in Hx as (r' & Hr' & Hin).
      rewrite List.Forall_forall in Hle. apply Hle in Hin. lia.
    + apply NoDup_app. split; [exact He|]. split; [|apply NoDup_singleton].
      intros x Hx Hk. apply list_elem_of_In in Hx, Hk. destruct Hk as [<-|[]].
      exact (find_none_not_in _ _ Hf Hx).
    + apply Forall_app. split.
      * eapply Forall_impl; [exact Hle|]. cbn beta. intros; lia.
      * constructor; [lia|constructor].
  - assert (db' = db) as ->; [|exact Hc].
    revert H. unfold insert_complaint.
    match goal with |- match ?m with _ => _ end = _ -> _ => destruct m end;
      intros [= ]; congruence.
Qed.

Lemma find_map_same {A : Type} (p : A -> bool) (f : A -> A) (l : list A) :
  (forall x, p (f x) = p x) ->
  List.find p (map f l) = option_map f (List.find p l).
Proof.
  intros Hp. induction l as [|x l IH]; simpl; [done|].
  rewrite Hp. destruct (p x); [done|exact IH].
Qed.

Lemma find_by_id_le (id : Z) (db : database) (r : row) :
  find_by_id id db = Some r -> row_id r = id /\ In r (rows db).
Proof.
  unfold find_by_id. intros H. apply find_some in H as [Hin Heq].
  apply Z.eqb_eq in Heq. done.
Qed.

(** X14. The id [insert_complaint] returns is new, and afterwards the record
    is the one found under that id and under its e-mail id. *)
Theorem insert_then_get (E : Env) (t : nat) (cd : pydict)
    (db db' : database) (id : Z) :
  consistent db ->
  (- 2 ^ 63 <= id < 2 ^ 63)%Z ->
  insert_complaint E t cd db = (Ok id, db') ->
  get_complaint id db = Ok None /\
  exists found,
    get_complaint id db' = Ok (Some found) /\
    get_complaint_by_email_id E (Py.get cd "email_id" VNone) db' = Ok (Some found) /\
    found !! "id" = Some (VInt id).
Proof.
  intros (_ & _ & Hle) Hid H.
  destruct (insert_ok E t cd db db' id H)
    as (r & v & -> & Hr & Hnew & Hf & Hk & Hb & Ht & _ & _).
  assert (Hbind : sql_bind (VInt id) = Ok (VInt id)).
  { simpl. destruct (Z.leb_spec (- 2 ^ 63) id); [|lia].
    destruct (Z.ltb_spec id (2 ^ 63)); [reflexivity|lia]. }
  assert (Hold : find_by_id id db = None).
  { destruct (find_by_id id db) as [r'|] eqn:Hr'; [|done].
    apply find_by_id_le in Hr' as [Heq Hin].
    rewrite List.Forall_forall in Hle. apply Hle in Hin. lia. }
  unfold get_complaint, mbind, res_bind. rewrite Hbind, Hold.
  split; [reflexivity|]. exists (dict_of_row r).
  split; [|split].
  - unfold find_by_id in *. cbn [rows]. rewrite (find_app_none _ _ _ Hold).
    simpl. rewrite Hr, Z.eqb_refl. reflexivity.
  - unfold get_complaint_by_email_id, Py.get, mbind, res_bind.
    rewrite Hk, Hb, Ht, (find_by_email_id_new _ db r id Hf eq_refl). reflexivity.
  - unfold dict_of_row. rewrite Hr. apply lookup_insert_eq.
Qed.

Lemma set_status_frame (E : Env) (t : nat) (status : pyval) (team : option pyval)
    (r : row) (k : string) :
  k <> "status" -> k <> "updated_at" -> k <> "assigned_team" ->
  dict_of_row (set_status E t status team r) !! k = dict_of_row r !! k.
Proof.
  intros H1 H2 H3. unfold dict_of_row, set_status. cbn [row_id row_email_id row_columns].
  destruct (decide (k = "id")) as [->|Hi];
    [rewrite !lookup_insert_eq; reflexivity|rewrite !(lookup_insert_ne _ "id") by done].
  destruct (decide (k = "email_id")) as [->|He];
    [rewrite !lookup_insert_eq; reflexivity
    |rewrite !(lookup_insert_ne _ "email_id") by done].
  destruct team; repeat (rewrite lookup_insert_ne by done); reflexivity.
Qed.

(** X15. [update_status] changes the store only when it returns [True].
    Then the record of that id has the new status and, when a team was
    given, the new team; its other columns but [updated_at], and every
    other record, are as before. *)
Theorem update_status_frame (E : Env) (t : nat) (id : Z) (status team : pyval)
    (db : database) :
  match update_status E t id status team db with
  | (Updated true, db') =>
      exists before after,
        get_complaint id db = Ok (Some before) /\
        get_complaint id db' = Ok (Some after) /\
        after !! "status" = Some (sql_store E status) /\
        after !! "assigned_team"
        = (if Py.truthy team then Some (sql_store E team)
           else before !! "assigned_team") /\
        (forall k, k <> "status" -> k <> "updated_at" -> k <> "assigned_team" ->
                   after !! k = before !! k) /\
        (forall other, other <> id -> get_complaint other db' = get_complaint other db)
  | (_, db') => db' = db
  end.
Proof.
  unfold update_status, mbind, res_bind.
  destruct (sql_bind status) as [s|] eqn:Hs; [|reflexivity].
  apply sql_bind_ok in Hs as ->.
  destruct (if Py.truthy team then _ else _) as [bound|] eqn:Hteam; [|reflexivity].
  destruct (sql_bind (VInt id)) as [i|] eqn:Hi; [|reflexivity].
  destruct (find_by_id id db) as [r|] eqn:Hr; [|reflexivity].
  destruct (match bound with Some v => _ | None => false end); [reflexivity|].
  set (f := fun r0 : row => if Z.eqb (row_id r0) id
                            then set_status E t status bound r0 else r0).
  assert (Hf : forall other, find_by_id other
                               (Database (map f (rows db)) (last_rowid db))
                             = option_map f (find_by_id other db)).
  { intros other. unfold find_by_id. cbn [rows]. apply find_map_same.
    intros x. unfold f. destruct (Z.eqb (row_id x) id); reflexivity. }
  pose proof (find_by_id_le id db r Hr) as [Hrid _].
  assert (Hfr : f r = set_status E t status bound r)
    by (unfold f; rewrite Hrid, Z.eqb_refl; reflexivity).
  exists (dict_of_row r), (dict_of_row (set_status E t status bound r)).
  unfold get_complaint, mbind, res_bind. rewrite Hi, Hf, Hr. cbn [option_map].
  rewrite Hfr. repeat split.
  - unfold dict_of_row, set_status. cbn [row_id row_email_id row_columns].
    do 2 (rewrite lookup_insert_ne by done).
    destruct bound; repeat (rewrite lookup_insert_ne by done); apply lookup_insert_eq.
  - unfold dict_of_row, set_status. cbn [row_id row_email_id row_columns].
    do 2 (rewrite lookup_insert_ne by done).
    destruct (Py.truthy team).
    + destruct (sql_bind team) as [b|] eqn:Hb; [|discriminate].
      apply sql_bind_ok in Hb as ->. injection Hteam as <-. apply lookup_insert_eq.
    + injection Hteam as <-. do 2 (rewrite lookup_insert_ne by done).
      do 2 (rewrite lookup_insert_ne by done). reflexivity.
  - intros k H1 H2 H3. by apply set_status_frame.
  - intros other Hne. rewrite Hf.
    destruct (sql_bind (VInt other)); [|reflexivity].
    destruct (find_by_id other db) as [r'|] eqn:Hr'; [|reflexivity].
    cbn [option_map]. apply find_by_id_le in Hr' as [Hid' _].
    unfold f. destruct (Z.eqb_spec (row_id r') id); [congruence|reflexivity].
Qed.

(** X16. [update_status] keeps the store consistent and the e-mail ids in
    place: a lookup by e-mail id finds a record of the same id as before. *)
Theorem update_status_keeps_keys (E : Env) (t : nat) (id : Z) (status team : pyval)
    (db : database) :
  let db' := snd (update_status E t id status team db) in
  (consistent db -> consistent db') /\
  forall key, option_map row_id (find_by_email_id key db')
              = option_map row_id (find_by_email_id key db).
Proof.
  unfold update_status, mbind, res_bind.
  destruct (sql_bind status) as [s|]; [|done].
  destruct (if Py.truthy team then _ else _) as [bound|]; [|done].
  destruct (sql_bind (VInt id)) as [i|]; [|done].
  destruct (find_by_id id db) as [r|]; [|done].
  destruct (match bound with Some v => _ | None => false end); [done|].
  cbn [snd].
  set (f := fun r0 : row => if Z.eqb (row_id r0) id
                            then set_status E t s bound r0 else r0).
  assert (Hid : forall x, row_id (f x) = row_id x)
    by (intros x; unfold f; destruct (Z.eqb (row_id x) id); reflexivity).
  assert (Hem : forall x, row_email_id (f x) = row_email_id x)
    by (intros x; unfold f; destruct (Z.eqb (row_id x) id); reflexivity).
  split.
  - intros (Hi & He & Hle). unfold consistent. cbn [rows last_rowid].
    rewrite !map_map.
    rewrite (map_ext (fun x => row_id (f x)) row_id Hid).
    rewrite (map_ext (fun x => row_email_id (f x)) row_email_id Hem).
    repeat split; try done.
    apply List.Forall_forall. intros x Hx. apply in_map_iff in Hx as (y & <- & Hy).
    rewrite Hid. rewrite List.Forall_forall in Hle. by apply Hle.
  - intros key. unfold find_by_email_id. cbn [rows].
    rewrite (find_map_same _ f); [|intros x; rewrite Hem; reflexivity].
    destruct (List.find _ (rows db)); [cbn [option_map]; rewrite Hid|]; reflexivity.
Qed.

(** What [update_status] did, by outcome. *)
Lemma update_status_cases (E : Env) (t : nat) (id : Z) (status team : pyval)
    (db : database) :
  match update_status E t id status team db with
  | (Updated true, db') =>
      sql_bind (VInt id) = Ok (VInt id) /\
      exists r,
        find_by_id id db = Some r /\
        find_by_id id db'
        = Some (set_status E t status (if Py.truthy team then Some team else None) r) /\
        db' = Database
                (map (fun r0 => if Z.eqb (row_id r0) id
                                then set_status E t status
                                       (if Py.truthy team then Some team else None) r0
                                else r0) (rows db))
                (last_rowid db)
  | (Updated false, db') =>
      db' = db /\ sql_bind (VInt id) = Ok (VInt id) /\ find_by_id id db = None
  | (_, db') => db' = db
  end.
Proof.
  unfold update_status, mbind, res_bind.
  destruct (sql_bind status) as [s|] eqn:Hs; [|reflexivity].
  apply sql_bind_ok in Hs as ->.
  destruct (if Py.truthy team then _ else _) as [bound|] eqn:Hteam; [|reflexivity].
  assert (bound = if Py.truthy team then Some team else None) as Hbound.
  { destruct (Py.truthy team); [|congruence].
    destruct (sql_bind team) as [b|] eqn:Hb; [|discriminate].
    apply sql_bind_ok in Hb as ->. congruence. }
  destruct (sql_bind (VInt id)) as [i|] eqn:Hi; [|reflexivity].
  pose proof (sql_bind_ok _ _ Hi) as ->.
  destruct (find_by_id id db) as [r|] eqn:Hr; [|done].
  destruct (match bound with Some v => _ | None => false end); [reflexivity|].
  split; [reflexivity|]. exists r. rewrite <- Hbound.
  split; [reflexivity|]. split; [|reflexivity].
  unfold find_by_id. cbn [rows].
  rewrite (find_map_same _ (fun r0 => if Z.eqb (row_id r0) id
                                      then set_status E t status bound r0 else r0)).
  - unfold find_by_id in Hr. rewrite Hr. cbn [option_map].
    apply find_by_id_le in Hr as [-> _]. by rewrite Z.eqb_refl.
  - intros x. destruct (Z.eqb (row_id x) id) eqn:Hx; [exact Hx|exact Hx].
Qed.

Lemma set_status_status (E : Env) (t : nat) (status : pyval) (team : option pyval)
    (r : row) :
  dict_of_row (set_status E t status team r) !! "status" = Some (sql_store E status).
Proof.
  unfold dict_of_row, set_status. cbn [row_id row_email_id row_columns].
  do 2 (rewrite lookup_insert_ne by done).
  destruct team; repeat (rewrite lookup_insert_ne by done); apply lookup_insert_eq.
Qed.

Lemma set_status_team (E : Env) (t : nat) (status team : pyval) (r : row) :
  dict_of_row (set_status E t status (Some team) r) !! "assigned_team"
  = Some (sql_store E team).
Proof.
  unfold dict_of_row, set_status. cbn [row_id row_email_id row_columns].
  do 2 (rewrite lookup_insert_ne by done). apply lookup_insert_eq.
Qed.

Lemma same_but_refl (columns : list string) (db : database) : same_but columns db db.
Proof.
  split; [reflexivity|]. induction (rows db); constructor; auto.
Qed.

Lemma same_but_weaken (columns columns' : list string) (db db' : database) :
  (forall k, In k columns -> In k columns') ->
  same_but columns db db' -> same_but columns' db db'.
Proof.
  intros Hsub [Hl Hr]. split; [exact Hl|].
  eapply Forall2_impl; [exact Hr|]. cbn beta. intros r r' (Hi & He & Hk).
  repeat split; auto.
Qed.

(** [update_status] writes the status and the time of the update, and the
    team when one is given. *)
Lemma update_status_same_but (E : Env) (t : nat) (id : Z) (status team : pyval)
    (db : database) :
  same_but (if Py.truthy team then ["status"; "updated_at"; "assigned_team"]
            else ["status"; "updated_at"])
    db (snd (update_status E t id status team db)).
Proof.
  pose proof (update_status_cases E t id status team db) as H.
  destruct (update_status E t id status team db) as [[[]| |] db']; cbn [snd].
  - destruct H as (_ & r & _ & _ & ->). split; [reflexivity|]. cbn [rows].
    induction (rows db) as [|x l IH]; cbn [map]; constructor; [|exact IH].
    destruct (Z.eqb (row_id x) id); [|auto].
    unfold set_status. cbn [row_id row_email_id row_columns].
    repeat split. intros k Hk.
    destruct (Py.truthy team); simpl in Hk;
      repeat (rewrite lookup_insert_ne by (intros Heq; apply Hk; tauto)); reflexivity.
  - destruct H as [-> _]. apply same_but_refl.
  - subst. apply same_but_refl.
  - subst. apply same_but_refl.
Qed.

(** Instances on the store that holds [web_complaint] alone. *)

Lemma insert_then_lookup_witness :
  exists found,
    get_complaint_by_email_id offline_env (Py.get web_complaint "email_id" VNone)
      one_record = Ok (Some found) /\
    found !! "id" = Some (VInt 1) /\
    found !! "status" = Some (VStr "New") /\
    Forall (fun k => found !! k
                     = Some (sql_store offline_env (Py.get web_complaint k VNone)))
      not_null_columns.
Proof.
  apply (insert_then_lookup offline_env 0 web_complaint (Database [] 0) one_record 1).
  vm_compute. reflexivity.
Defined.

Lemma insert_twice_conflict_witness :
  insert_complaint offline_env 5 web_complaint one_record
  = (Raise integrity_error, one_record).
Proof.
  apply (insert_twice_conflict offline_env 0 5 web_complaint (Database [] 0)
           one_record 1).
  vm_compute. reflexivity.
Defined.

Lemma insert_keeps_consistent_witness :
  consistent (snd (insert_complaint offline_env 0 web_complaint (Database [] 0))).
Proof.
  apply (insert_keeps_consistent offline_env 0 web_complaint (Database [] 0)).
  exact consistent_empty.
Defined.

Lemma insert_then_get_witness :
  get_complaint 1 (Database [] 0) = Ok None /\
  exists found,
    get_complaint 1 one_record = Ok (Some found) /\
    get_complaint_by_email_id offline_env (Py.get web_complaint "email_id" VNone)
      one_record = Ok (Some found) /\
    found !! "id" = Some (VInt 1).
Proof.
  apply (insert_then_get offline_env 0 web_complaint (Database [] 0) one_record 1).
  - exact consistent_empty.
  - lia.
  - vm_compute. reflexivity.
Defined.

(** ** Processing the inbox *)

Lemma process_skips_existing_witness :
  process_single_complaint sample_config offline_env repeated_mail
    (World one_record [])
  = (Ok (Result 0 0 0), World one_record []).
Proof.
  apply (process_skips_existing sample_config offline_env repeated_mail
           (World one_record [])
           (match rows one_record with
            | r :: _ => dict_of_row r
            | [] => ∅
            end)).
  vm_compute. reflexivity.
Defined.

Lemma process_each_stores_nothing (config : Config) (E : Env)
    (emails : list pydict) (r : ProcessingCycle.results) (w : world) :
  let out := ProcessingCycle.process_each config E emails r w in
  w_db (snd out) = w_db w /\
  notifications (w_trace (snd out)) = notifications (w_trace w) /\
  ProcessingCycle.complaints_classified (fst out)
  = ProcessingCycle.complaints_classified r /\
  ProcessingCycle.complaints_routed (fst out) = ProcessingCycle.complaints_routed r /\
  ProcessingCycle.notifications_sent (fst out) = ProcessingCycle.notifications_sent r /\
  (ProcessingCycle.emails_processed (fst out) + ProcessingCycle.errors (fst out)
   = ProcessingCycle.emails_processed r + ProcessingCycle.errors r
     + Z.of_nat (length emails))%Z.
Proof.
  revert r w. induction emails as [|email_data emails IH]; intros r w.
  - simpl. repeat split; lia.
  - cbn [ProcessingCycle.process_each].
    destruct (process_never_stores config E email_data w) as (Hdb & Hn & Hout).
    destruct (process_single_complaint config E email_data w) as [outcome w1].
    cbn [fst snd] in Hdb, Hn, Hout.
    destruct (IH (ProcessingCycle.count outcome r) w1)
      as (Hdb' & Hn' & Hc & Hr & Hs & He).
    cbn zeta. rewrite Hdb', Hn', Hc, Hr, Hs, He, Hdb, Hn.
    destruct Hout as [->|[e ->]]; cbn; repeat split; lia.
Qed.

(** X18. A processing cycle stores no record and sends no notification,
    whatever unread mails it is given: each mail is skipped, because its
    key has a record, or counted as an error. The counters of classified
    and routed complaints and of notifications stay at zero, and the mails
    taken from the inbox are all counted, as processed or as errors. *)
Theorem cycle_stores_nothing (config : Config) (E : Env)
    (unread : res (list pydict)) (max_emails : Z) (elapsed : float) (w : world) :
  let out := ProcessingCycle.process_complaints config E unread max_emails elapsed w in
  w_db (snd out) = w_db w /\
  notifications (w_trace (snd out)) = notifications (w_trace w) /\
  ProcessingCycle.complaints_classified (fst out) = 0%Z /\
  ProcessingCycle.complaints_routed (fst out) = 0%Z /\
  ProcessingCycle.notifications_sent (fst out) = 0%Z /\
  (ProcessingCycle.emails_processed (fst out) + ProcessingCycle.errors (fst out)
   = match unread with
     | Ok unread_emails =>
         Z.of_nat (length (ProcessingCycle.py_slice_to max_emails unread_emails))
     | Raise _ => 1
     end)%Z.
Proof.
  unfold ProcessingCycle.process_complaints.
  destruct unread as [[|email_data unread_emails]|e].
  - cbn. repeat split; try reflexivity.
    unfold ProcessingCycle.py_slice_to.
    destruct (0 <=? max_emails)%Z; by rewrite firstn_nil.
  - set (emails := ProcessingCycle.py_slice_to max_emails (email_data :: unread_emails)).
    destruct (process_each_stores_nothing config E emails
                (ProcessingCycle.Results 0 0 0 0 0 (VInt 0)) w)
      as (Hdb & Hn & Hc & Hr & Hs & He).
    destruct (ProcessingCycle.process_each config E emails _ w) as [r w1].
    cbn [fst snd] in *.
    cbn [ProcessingCycle.emails_processed ProcessingCycle.errors
         ProcessingCycle.complaints_classified ProcessingCycle.complaints_routed
         ProcessingCycle.notifications_sent] in *.
    repeat split; first [assumption|lia].
  - cbn. repeat split; reflexivity.
Qed.

(** The slice [unread_emails[:max_emails]] takes at most [max_emails]
    mails when [max_emails] is not negative; a negative [max_emails] does
    not stop the cycle, it leaves that many mails at the end of the inbox
    unprocessed. *)
Lemma slice_takes_prefix {A : Type} (n : Z) (l : list A) :
  exists rest,
    l = ProcessingCycle.py_slice_to n l ++ rest /\
    Z.of_nat (length (ProcessingCycle.py_slice_to n l))
    = (if (0 <=? n)%Z then Z.min n (Z.of_nat (length l))
       else Z.max 0 (Z.of_nat (length l) + n))%Z.
Proof.
  unfold ProcessingCycle.py_slice_to.
  destruct (0 <=? n)%Z eqn:Hn.
  - exists (skipn (Z.to_nat n) l). split; [symmetry; apply firstn_skipn|].
    rewrite length_firstn. apply Z.leb_le in Hn. lia.
  - exists (skipn (Z.to_nat (Z.of_nat (length l) + n)) l).
    split; [symmetry; apply firstn_skipn|].
    rewrite length_firstn. apply Z.leb_gt in Hn. lia.
Qed.

(** Past the lookup of the key, [process_single_complaint] is left by an
    exception: of the classifier, or of the insertion. *)
Ltac leaves_by_exception config E email_data :=
  cbn zeta;
  destruct (classify_complaint E _ email_data) as [c|e] eqn:Hc;
    [|cbn [fst]; eauto];
  destruct (classify_key_entities E _ email_data c Hc) as [entities Hk];
  match goal with
  | |- context [insert_complaint E ?t ?cd ?db] =>
      destruct (insert_refuses_dict_entities E t cd db entities) as [e ->];
        [unfold Py.merge; apply lookup_union_Some_l; exact Hk|]
  end;
  cbn [fst]; eauto.

(** The result of [process_single_complaint] is decided by the lookup of
    the key. *)
Lemma process_single_outcome (config : Config) (E : Env) (email_data : pydict)
    (w : world) :
  if has_record E (w_db w) email_data
  then fst (process_single_complaint config E email_data w) = Ok (Result 0 0 0)
  else exists e, fst (process_single_complaint config E email_data w) = Raise e.
Proof.
  unfold has_record, process_single_complaint.
  destruct (get_complaint_by_email_id E _ (w_db w)) as [[found|]|e].
  - destruct (Py.truthy (VDict found)); [reflexivity|].
    leaves_by_exception config E email_data.
  - leaves_by_exception config E email_data.
  - cbn [fst]. eauto.
Qed.

Lemma process_each_counts (config : Config) (E : Env)
    (emails : list pydict) (r : ProcessingCycle.results) (w : world) :
  let out := ProcessingCycle.process_each config E emails r w in
  ProcessingCycle.emails_processed (fst out)
  = (ProcessingCycle.emails_processed r
     + Z.of_nat (length (List.filter (has_record E (w_db w)) emails)))%Z /\
  ProcessingCycle.errors (fst out)
  = (ProcessingCycle.errors r
     + Z.of_nat (length (List.filter (fun m => negb (has_record E (w_db w) m))
                           emails)))%Z.
Proof.
  revert r w. induction emails as [|email_data emails IH]; intros r w.
  - simpl. split; lia.
  - cbn [ProcessingCycle.process_each List.filter].
    destruct (process_never_stores config E email_data w) as (Hdb & _ & _).
    pose proof (process_single_outcome config E email_data w) as Hout.
    destruct (process_single_complaint config E email_data w) as [outcome w1].
    cbn [fst snd] in Hdb, Hout.
    destruct (IH (ProcessingCycle.count outcome r) w1) as (Hp & He).
    cbn zeta. rewrite Hp, He, Hdb.
    destruct (has_record E (w_db w) email_data).
    + subst outcome. cbn. split; lia.
    + destruct Hout as [e ->]. cbn. split; lia.
Qed.

(** X26. [run_once] ends the program with exit status 1 exactly when
    fetching the unread mails raised or one of the first fifty unread
    mails has no record yet: a mail that is new is counted as an error,
    never as a complaint that was processed. The number of mails
    processed is the number of those that were skipped. *)
Theorem run_once_fails_on_new_mail (config : Config) (E : Env)
    (unread : res (list pydict)) (elapsed : float) (w : world) :
  let taken := match unread with
               | Ok unread_emails => firstn 50 unread_emails
               | Raise _ => []
               end in
  let cycle := ProcessingCycle.process_complaints config E unread 50 elapsed w in
  fst (ProcessingCycle.run_once config E unread elapsed w)
  = (if match unread with
        | Ok _ => negb (forallb (has_record E (w_db w)) taken)
        | Raise _ => true
        end
     then Some 1%Z else None) /\
  ProcessingCycle.emails_processed (fst cycle)
  = Z.of_nat (length (List.filter (has_record E (w_db w)) taken)) /\
  w_db (snd (ProcessingCycle.run_once config E unread elapsed w)) = w_db w.
Proof.
  intros taken cycle. subst taken cycle.
  unfold ProcessingCycle.run_once, ProcessingCycle.process_complaints.
  destruct unread as [[|email_data unread_emails]|e]; [by cbn| |by cbn].
  change (ProcessingCycle.py_slice_to 50 (email_data :: unread_emails))
    with (firstn 50 (email_data :: unread_emails)).
  set (emails := firstn 50 (email_data :: unread_emails)).
  destruct (process_each_counts config E emails
              (ProcessingCycle.Results 0 0 0 0 0 (VInt 0)) w) as (Hp & He).
  destruct (process_each_stores_nothing config E emails
              (ProcessingCycle.Results 0 0 0 0 0 (VInt 0)) w) as (Hdb & _).
  destruct (ProcessingCycle.process_each config E emails _ w) as [r w1].
  cbn [fst snd ProcessingCycle.emails_processed ProcessingCycle.errors] in *.
  split; [|split; [lia|exact Hdb]].
  rewrite He. clear.
  induction emails as [|m emails IH]; [reflexivity|].
  cbn [List.filter forallb].
  destruct (has_record E (w_db w) m); cbn [negb andb length].
  - exact IH.
  - clear IH. rewrite (proj2 (Z.ltb_lt _ _)) by lia. reflexivity.
Qed.

(** ** The web form *)

Lemma acknowledgment_event (config : Config) (E : Env) (to : pyval) (cd : pydict)
    (tr : list event) :
  exists a, snd (EmailHandler.send_acknowledgment_email config E to cd tr)
            = tr ++ [EvAcknowledgment a].
Proof.
  unfold EmailHandler.send_acknowledgment_email.
  destruct (EmailHandler._create_acknowledgment_text E cd); eexists; reflexivity.
Qed.

Lemma slack_appends (config : Config) (E : Env) (rr cd : pydict) (tr : list event) :
  exists l, snd (ComplaintRouter._send_slack_notification config E rr cd tr) = tr ++ l.
Proof.
  unfold ComplaintRouter._send_slack_notification.
  destruct (slack_webhook_url config) as [url|]; [|exists []; by rewrite app_nil_r].
  destruct (String.eqb url ""); [exists []; by rewrite app_nil_r|].
  destruct (ComplaintRouter.slack_payload E (length tr) rr cd); eexists; reflexivity.
Qed.

(** The fan-out starts with the mail to the team. *)
Lemma fan_out_appends (config : Config) (E : Env) (rr cd : pydict) (tr : list event)
    (team_email priority : pyval) :
  rr !! "team_email" = Some team_email ->
  rr !! "priority" = Some priority ->
  exists a rest,
    snd (ComplaintRouter.send_team_notification config E rr cd tr)
    = tr ++ EvTeamNotification a :: rest.
Proof.
  intros Ht Hp. rewrite (send_team_notification_steps config E rr _ _ _ _ Ht Hp).
  cbn [snd].
  destruct (team_mail_event config E team_email cd tr) as (a & Ha & _).
  rewrite Ha. exists a.
  assert (exists l,
             snd (if ComplaintRouter.webhook_configured config
                     && Py.in_strs priority ["Urgent"; "High"]
                  then ComplaintRouter._send_slack_notification config E rr cd
                         (tr ++ [EvTeamNotification a])
                  else (false, tr ++ [EvTeamNotification a]))
             = (tr ++ [EvTeamNotification a]) ++ l) as [l ->].
  { destruct (_ && _); [apply slack_appends|exists []; by rewrite app_nil_r]. }
  destruct (escalation_events config E rr cd ((tr ++ [EvTeamNotification a]) ++ l))
    as [->|(b & -> & _)].
  - exists l. by rewrite <- app_assoc.
  - exists (l ++ [EvTeamNotification b]). by rewrite <- !app_assoc.
Qed.

Lemma insert_raise_keeps (E : Env) (t : nat) (cd : pydict) (db db' : database)
    (e : exn) :
  insert_complaint E t cd db = (Raise e, db') -> db' = db.
Proof.
  unfold insert_complaint.
  match goal with |- match ?m with _ => _ end = _ -> _ => destruct m end;
    [discriminate|]. by intros [= _ <-].
Qed.

Lemma notifications_classify (tr : list event) (email_data : pydict) :
  notifications (tr ++ [EvClassify email_data]) = notifications tr.
Proof. unfold notifications. rewrite List.filter_app. simpl. apply app_nil_r. Qed.

(** What [form_complaint_data] puts into the record. *)
Lemma form_complaint_data_ok (E : Env) (data email_data c cd : pydict) :
  Api.form_complaint_data E data email_data c = Ok cd ->
  cd !! "email_id" = email_data !! "email_id" /\
  cd !! "category" = c !! "category" /\
  cd !! "priority" = c !! "priority" /\
  cd !! "sentiment" = c !! "sentiment" /\
  exists team,
    ComplaintRouter._determine_assigned_team (Py.get c "category" VNone) = Ok team /\
    cd !! "assigned_team" = Some (VStr team).
Proof.
  unfold Api.form_complaint_data, Py.item, Py.get, mbind, res_bind. intros H.
  destruct (email_data !! "email_id") as [email_id|]; [|discriminate].
  destruct (data !! "customer_email") as [customer_email|]; [|discriminate].
  destruct (data !! "customer_name") as [customer_name|]; [|discriminate].
  destruct (data !! "subject") as [subject|]; [|discriminate].
  destruct (data !! "body") as [body|]; [|discriminate].
  destruct (c !! "category") as [category|]; [|discriminate].
  destruct (c !! "priority") as [priority|]; [|discriminate].
  destruct (c !! "sentiment") as [sentiment|]; [|discriminate].
  destruct (ComplaintRouter._determine_assigned_team category) as [team|] eqn:Ht;
    [|discriminate].
  destruct (c !! "key_entities") as [key_entities|]; [|discriminate].
  destruct (c !! "summary") as [summary|]; [|discriminate].
  destruct (c !! "suggested_action") as [suggested_action|]; [|discriminate].
  injection H as <-.
  repeat split; try dict_lookup. exists team. split; [reflexivity|dict_lookup].
Qed.

Lemma has_enum_stored (E : Env) (cd c stored : pydict) (k : string)
    (values : list string) (v : pyval) :
  has_enum c k values ->
  cd !! k = c !! k ->
  cd !! k = Some v ->
  stored !! k = Some (sql_store E v) ->
  has_enum stored k values.
Proof.
  intros (s & Hs & Hin) Hcd Hv Hst. exists s. split; [|exact Hin].
  rewrite Hst. assert (v = VStr s) as -> by congruence. reflexivity.
Qed.

(** X19. [create_complaint] answers 200, 400 or 500. When it answers 200 it
    has stored exactly one record, under the key of the form submission,
    with status [New], with category, priority and sentiment within the
    enumerations and with the team of its category, and it has run the
    classifier, then the acknowledgment, then the notification fan-out.
    When it answers anything else the store is as before and nobody has
    been notified. *)
Theorem create_stores_iff_created (config : Config) (E : Env) (stamp : string)
    (request_json : res pyval) (w : world) :
  let out := Api.create_complaint config E stamp request_json w in
  if Z.eqb (Api.status_code (fst out)) 200
  then exists r team,
         w_db (snd out) = Database (rows (w_db w) ++ [r]) (row_id r) /\
         row_email_id r = "web-form-" +:+ stamp /\
         valid_classification (dict_of_row r) /\
         ComplaintRouter._determine_assigned_team
           (Py.get (dict_of_row r) "category" VNone) = Ok team /\
         dict_of_row r !! "assigned_team" = Some (VStr team) /\
         dict_of_row r !! "status" = Some (VStr "New") /\
         exists email_data ack fan rest,
           w_trace (snd out)
           = w_trace w ++ EvClassify email_data :: EvAcknowledgment ack
                       :: EvTeamNotification fan :: rest
  else w_db (snd out) = w_db w /\
       notifications (w_trace (snd out)) = notifications (w_trace w) /\
       In (Api.status_code (fst out)) [400; 500]%Z.
Proof.
  unfold Api.create_complaint.
  destruct request_json as [[| | | | | |data]|e];
    try (cbn; repeat split; auto; fail).
  destruct (find _ Api.required_fields) as [field|] eqn:Hfind.
  { cbn. repeat split; auto. }
  destruct (Api.form_email_data E stamp data) as [email_data|] eqn:Hed.
  2:{ cbn. repeat split; auto. }
  set (tr := w_trace w ++ [EvClassify email_data]).
  pose proof (classify_cases E (length tr) email_data) as Hvalid.
  destruct (ComplaintClassifier.classify_complaint E (length tr) email_data)
    as [c|] eqn:Hc.
  2:{ cbn. repeat split; auto. apply notifications_classify. }
  destruct (Api.form_complaint_data E data email_data c) as [cd|] eqn:Hcd.
  2:{ cbn. repeat split; auto. apply notifications_classify. }
  destruct (insert_complaint E (length tr) cd (w_db w)) as [[id|e] db] eqn:Hins.
  2:{ cbn. apply insert_raise_keeps in Hins. subst db.
      repeat split; auto. apply notifications_classify. }
  destruct (ComplaintRouter.route_complaint config E (length tr)
              (<["id" := VInt id]> cd)) as [rr cd'] eqn:Hroute.
  assert (Hemail : exists v, data !! "customer_email" = Some v).
  { pose proof (find_none _ _ Hfind "customer_email") as Hn.
    cbn in Hn. specialize (Hn ltac:(auto)). apply negb_false_iff in Hn.
    unfold Py.truthy_get in Hn. destruct (data !! "customer_email"); [eauto|done]. }
  destruct Hemail as [customer_email Hemail].
  unfold Py.item. rewrite Hemail.
  destruct (acknowledgment_event config E customer_email (Py.merge cd' rr) tr)
    as [ack Hack].
  destruct (EmailHandler.send_acknowledgment_email config E customer_email
              (Py.merge cd' rr) tr) as [email_sent tr1].
  cbn [snd] in Hack. subst tr1.
  destruct (route_has_keys config E (length tr) (<["id" := VInt id]> cd))
    as (team_email & p & Hte & Hp).
  rewrite Hroute in Hte, Hp. cbn [fst] in Hte, Hp.
  destruct (fan_out_appends config E rr (Py.merge cd' rr)
              (tr ++ [EvAcknowledgment ack]) _ _ Hte Hp) as (fan & rest & Hfan).
  destruct (ComplaintRouter.send_team_notification config E rr (Py.merge cd' rr)
              (tr ++ [EvAcknowledgment ack])) as [notification_sent tr2].
  cbn [snd] in Hfan. subst tr2.
  cbn [fst snd Api.status_code w_db w_trace Z.eqb Pos.eqb].
  destruct (insert_ok E _ _ _ _ _ Hins)
    as (r & key & -> & Hid & _ & _ & Hkey & _ & Htext & Hstatus & Hcols & Hsent).
  destruct (form_complaint_data_ok E _ _ _ _ Hcd)
    as (Hcid & Hccat & Hcpri & Hcsen & team & Hteam & Hcteam).
  apply Forall_cons_1 in Hcols as [_ Hcols].
  apply Forall_cons_1 in Hcols as [_ Hcols].
  apply Forall_cons_1 in Hcols as [_ Hcols].
  apply Forall_cons_1 in Hcols as [(vcat & Hvcat & Hrcat) Hcols].
  apply Forall_cons_1 in Hcols as [(vpri & Hvpri & Hrpri) Hcols].
  apply Forall_cons_1 in Hcols as [(vteam & Hvteam & Hrteam) _].
  destruct Hvalid as (Hcat & Hpri & Hsen).
  exists r, team. rewrite Hid.
  split; [reflexivity|].
  split.
  { unfold Api.form_email_data, Py.item, mbind, res_bind in Hed.
    destruct (data !! "subject"); [|discriminate].
    destruct (data !! "body"); [|discriminate].
    destruct (data !! "customer_name"); [|discriminate].
    destruct (data !! "customer_email"); [|discriminate].
    injection Hed as <-.
    assert (key = VStr ("web-form-" +:+ stamp)) as ->.
    { rewrite Hkey in Hcid. revert Hcid. unfold dict_of. simpl.
      rewrite lookup_insert_eq. congruence. }
    simpl in Htext. congruence. }
  split.
  { split; [|split].
    - by eapply has_enum_stored.
    - by eapply has_enum_stored.
    - destruct Hsen as (s & Hs & Hin). exists s. split; [|exact Hin].
      rewrite Hsent. unfold Py.get. rewrite Hcsen, Hs. reflexivity. }
  destruct Hcat as (s & Hs & Hin).
  assert (vcat = VStr s) as -> by congruence.
  split.
  { unfold Py.get in *. rewrite Hrcat. rewrite Hs in Hteam. exact Hteam. }
  split.
  { rewrite Hrteam. assert (vteam = VStr team) as -> by congruence. reflexivity. }
  split; [exact Hstatus|].
  exists email_data, ack, fan, rest. subst tr. by rewrite <- !app_assoc.
Qed.

(** [next(x for x in l if p(x))]: what [find] returns is the first
    element that passes the test. *)
Lemma find_first {A : Type} (p : A -> bool) (l : list A) (x : A) :
  find p l = Some x ->
  exists before after,
    l = before ++ x :: after /\
    Forall (fun y => p y = false) before /\
    p x = true.
Proof.
  induction l as [|y l IH]; simpl; [discriminate|].
  destruct (p y) eqn:Hy.
  - intros [= ->]. exists [], l. by repeat split.
  - intros Hf. destruct (IH Hf) as (before & after & -> & Hb & Hx).
    exists (y :: before), after. split; [reflexivity|]. split; [by constructor|done].
Qed.

(** X20. A request that lacks one of the four required fields, or has it
    with a value that is false in the Python sense (an empty string), is
    answered with 400 and the name of the first such field in the order
    customer name, customer e-mail, subject, body: every required field
    before the one named is given with a value that is true. Nothing is
    classified, stored or sent. *)
Theorem create_rejects_incomplete (config : Config) (E : Env) (stamp : string)
    (data : pydict) (w : world) (field : string) :
  In field Api.required_fields ->
  Py.truthy_get data field = false ->
  exists before missing after,
    Api.required_fields = before ++ missing :: after /\
    Forall (fun earlier => Py.truthy_get data earlier = true) before /\
    In missing Api.required_fields /\
    Py.truthy_get data missing = false /\
    Api.create_complaint config E stamp (Ok (VDict data)) w
    = (Api.error_response ("Missing required field: " +:+ missing) 400, w).
Proof.
  intros Hin Hfalse. unfold Api.create_complaint.
  destruct (find _ Api.required_fields) as [missing|] eqn:Hfind.
  - destruct (find_first _ _ _ Hfind) as (before & after & Hl & Hb & Hm).
    apply find_some in Hfind as [Hmem _]. apply negb_true_iff in Hm.
    exists before, missing, after. split; [exact Hl|].
    split; [|by repeat split].
    eapply Forall_impl; [exact Hb|]. intros y Hy. simpl in Hy.
    by apply negb_false_iff in Hy.
  - pose proof (find_none _ _ Hfind field Hin) as Hn. cbn in Hn.
    rewrite Hfalse in Hn. discriminate.
Qed.

Lemma create_rejects_incomplete_witness :
  exists before missing after,
    Api.required_fields = before ++ missing :: after /\
    Forall (fun earlier => Py.truthy_get form_without_subject earlier = true) before /\
    In missing Api.required_fields /\
    Py.truthy_get form_without_subject missing = false /\
    Api.create_complaint sample_config offline_env "1704067200.5"
      (Ok (VDict form_without_subject)) empty_world
    = (Api.error_response ("Missing required field: " +:+ missing) 400, empty_world).
Proof.
  apply (create_rejects_incomplete sample_config offline_env "1704067200.5"
           form_without_subject empty_world "subject").
  - simpl. tauto.
  - vm_compute. reflexivity.
Defined.

(** The form with the text of [unusual_charge], the classification
    service being unavailable: the complaint is stored for the billing
    team, the customer gets the acknowledgment and the team its mail. *)
Example create_complaint_offline :
  let out := Api.create_complaint sample_config offline_env "1704067200.5"
               (Ok (VDict (dict_of
                  [("customer_name", VStr "John Doe");
                   ("customer_email", VStr "john@x.com");
                   ("subject", VStr "Unusual charge");
                   ("body", VStr "Charged $150 for a service I never ordered. Unacceptable.")])))
               empty_world in
  Api.status_code (fst out) = 200%Z /\
  map (fun r => (row_id r, row_email_id r, row_columns r !! "assigned_team",
                 row_columns r !! "priority"))
    (rows (w_db (snd out)))
  = [(1%Z, "web-form-1704067200.5", Some (VStr "Billing Team"), Some (VStr "Medium"))] /\
  deliveries (w_trace (snd out)) = [(VStr "billing@company.com", true)] /\
  length (notifications (w_trace (snd out))) = 2.
Proof. vm_compute. repeat split; reflexivity. Qed.

(** ** The life of a record *)

Lemma present_row (o : option row) :
  present (option_map dict_of_row o) = option_map dict_of_row o.
Proof.
  destruct o as [r|]; [|reflexivity]. unfold present. cbn [option_map].
  unfold dict_of_row, Py.truthy.
  rewrite bool_decide_eq_false_2; [reflexivity|]. apply insert_non_empty.
Qed.

Lemma get_complaint_found (id : Z) (db : database) (complaint : option pydict) :
  get_complaint id db = Ok complaint ->
  sql_bind (VInt id) = Ok (VInt id) /\
  complaint = option_map dict_of_row (find_by_id id db) /\
  present complaint = complaint.
Proof.
  unfold get_complaint, mbind, res_bind.
  destruct (sql_bind (VInt id)) as [v|] eqn:Hb; [|discriminate].
  apply sql_bind_ok in Hb as ->. intros [= <-].
  repeat split. apply present_row.
Qed.

Lemma get_complaint_row (id : Z) (db : database) (r : row) :
  sql_bind (VInt id) = Ok (VInt id) ->
  find_by_id id db = Some r ->
  get_complaint id db = Ok (Some (dict_of_row r)).
Proof. intros Hb Hr. unfold get_complaint, mbind, res_bind. by rewrite Hb, Hr. Qed.

Local Opaque String.eqb.

(** The teams of the table have a name. *)
Lemma team_is_named (category : pyval) (team : string) :
  ComplaintRouter._determine_assigned_team category = Ok team ->
  Py.truthy (VStr team) = true.
Proof.
  unfold ComplaintRouter._determine_assigned_team, Py.table_get.
  destruct category as [| | | |s| |]; try discriminate;
    try (intros [= <-]; reflexivity).
  intros [= <-]. unfold ComplaintRouter.team_table. cbn [find fst snd].
  repeat (match goal with
          | |- context [String.eqb ?k s] => destruct (String.eqb k s)
          end; [vm_compute; reflexivity|]).
  vm_compute; reflexivity.
Qed.

Local Transparent String.eqb.

Lemma updated_data_ok (E : Env) (c updated : pydict) :
  Api.updated_data E c = Ok updated ->
  exists team,
    ComplaintRouter._determine_assigned_team (Py.get c "category" VNone) = Ok team /\
    updated !! "assigned_team" = Some (VStr team).
Proof.
  unfold Api.updated_data, Py.item, Py.get, mbind, res_bind. intros H.
  destruct (c !! "category") as [category|]; [|discriminate].
  destruct (c !! "priority") as [priority|]; [|discriminate].
  destruct (c !! "sentiment") as [sentiment|]; [|discriminate].
  destruct (ComplaintRouter._determine_assigned_team category) as [team|];
    [|discriminate].
  destruct (c !! "key_entities") as [key_entities|]; [|discriminate].
  destruct (c !! "summary") as [summary|]; [|discriminate].
  destruct (c !! "suggested_action") as [suggested_action|]; [|discriminate].
  injection H as <-. exists team. split; [reflexivity|dict_lookup].
Qed.

(** Where the store of an endpoint comes from. *)
Lemma resolve_store (E : Env) (id : Z) (w : world) :
  w_db (snd (Api.resolve_complaint E id w))
  = snd (update_status E (length (w_trace w)) id (VStr "Resolved") VNone (w_db w)).
Proof.
  unfold Api.resolve_complaint.
  destruct (update_status _ _ _ _ _ _) as [[[]| |] db]; cbn [snd];
    try reflexivity.
  destruct (get_complaint id db); reflexivity.
Qed.

Lemma escalate_store (config : Config) (E : Env) (id : Z) (w : world) :
  w_db (snd (Api.escalate_complaint config E id w)) = w_db w \/
  exists status,
    w_db (snd (Api.escalate_complaint config E id w))
    = snd (update_status E (length (w_trace w)) id status VNone (w_db w)).
Proof.
  unfold Api.escalate_complaint.
  destruct (get_complaint id (w_db w)) as [complaint|]; [|by left].
  destruct (present complaint) as [found|]; [|by left].
  destruct (Py.item found "priority") as [priority|]; [|by left].
  destruct (negb (Py.eq_str priority "Urgent")).
  - destruct (Py.item found "status") as [status|]; [|by left].
    destruct (update_status E (length (w_trace w)) id status VNone (w_db w))
      as [[flag| |] db] eqn:Hu; try by left.
    right. exists status. rewrite Hu. cbn [snd].
    destruct (EmailHandler.send_team_notification _ _ _ _ _) as [sent tr].
    destruct (get_complaint id db) as [[updated|]|]; reflexivity.
  - left. destruct (EmailHandler.send_team_notification _ _ _ _ _) as [sent tr].
    destruct (get_complaint id (w_db w)) as [[updated|]|]; reflexivity.
Qed.

Lemma reclassify_store (E : Env) (id : Z) (w : world) :
  w_db (snd (Api.reclassify_complaint E id w)) = w_db w \/
  exists t status team,
    w_db (snd (Api.reclassify_complaint E id w))
    = snd (update_status E t id status team (w_db w)).
Proof.
  unfold Api.reclassify_complaint.
  destruct (get_complaint id (w_db w)) as [complaint|]; [|by left].
  destruct (present complaint) as [found|]; [|by left].
  destruct (Api.stored_email_data E found) as [email_data|]; [|by left].
  match goal with
  | |- context [match ?m with Ok _ => _ | Raise _ => _ end] =>
      destruct m as [[[c status] team]|]
  end; [|by left].
  right. exists (length (w_trace w ++ [EvClassify email_data])), status, team.
  destruct (update_status _ _ _ _ _ _) as [[flag| |] db]; cbn [snd]; try reflexivity.
  destruct (get_complaint id db) as [[updated|]|]; reflexivity.
Qed.

Lemma update_store (E : Env) (id : Z) (request_json : res pyval) (w : world) :
  w_db (snd (Api.update_complaint E id request_json w)) = w_db w \/
  exists status team,
    w_db (snd (Api.update_complaint E id request_json w))
    = snd (update_status E (length (w_trace w)) id status team (w_db w)).
Proof.
  unfold Api.update_complaint.
  match goal with
  | |- context [match ?m with Ok _ => _ | Raise _ => _ end] =>
      destruct m as [[data complaint]|]
  end; [|by left].
  destruct (present complaint) as [found|]; [|by left].
  destruct (Api.update_fields data) as [fields|]; [|by left].
  destruct (Py.truthy (VDict fields)).
  - destruct (Py.item found "status") as [current|]; [|by left].
    destruct (update_status _ _ _ _ _ _) as [[flag| |] db] eqn:Hu; try by left.
    right. eexists _, _. rewrite Hu. cbn [snd].
    destruct flag; [|reflexivity].
    destruct (get_complaint id db); reflexivity.
  - left. destruct (get_complaint id (w_db w)); reflexivity.
Qed.

Lemma same_but_status (E : Env) (t : nat) (id : Z) (status team : pyval)
    (db : database) :
  same_but ["status"; "updated_at"; "assigned_team"] db
    (snd (update_status E t id status team db)).
Proof.
  eapply same_but_weaken; [|apply update_status_same_but].
  intros k. destruct (Py.truthy team); simpl; tauto.
Qed.

(** X21. The four endpoints that work on an existing complaint (update,
    resolve, escalate, reclassify) leave every record in place under its
    id and its e-mail id, add and remove none, and write no column but the
    status, the time of the update and the assigned team: the stored
    category, priority, sentiment, entities, summary and creation time
    never change. Resolving and escalating do not write the team
    either. *)
Theorem lifecycle_keeps_records (config : Config) (E : Env) (id : Z)
    (request_json : res pyval) (w : world) :
  same_but ["status"; "updated_at"; "assigned_team"] (w_db w)
    (w_db (snd (Api.update_complaint E id request_json w))) /\
  same_but ["status"; "updated_at"] (w_db w)
    (w_db (snd (Api.resolve_complaint E id w))) /\
  same_but ["status"; "updated_at"] (w_db w)
    (w_db (snd (Api.escalate_complaint config E id w))) /\
  same_but ["status"; "updated_at"; "assigned_team"] (w_db w)
    (w_db (snd (Api.reclassify_complaint E id w))).
Proof.
  split; [|split; [|split]].
  - destruct (update_store E id request_json w) as [->|(status & team & ->)];
      [apply same_but_refl|apply same_but_status].
  - rewrite resolve_store.
    apply (update_status_same_but E _ id (VStr "Resolved") VNone).
  - destruct (escalate_store config E id w) as [->|(status & ->)];
      [apply same_but_refl|].
    apply (update_status_same_but E _ id status VNone).
  - destruct (reclassify_store E id w) as [->|(t & status & team & ->)];
      [apply same_but_refl|apply same_but_status].
Qed.

Lemma set_status_frame_none (E : Env) (t : nat) (status : pyval) (r : row)
    (k : string) :
  k <> "status" -> k <> "updated_at" ->
  dict_of_row (set_status E t status None r) !! k = dict_of_row r !! k.
Proof.
  intros H1 H2. unfold dict_of_row, set_status. cbn [row_id row_email_id row_columns].
  destruct (decide (k = "id")) as [->|Hi];
    [rewrite !lookup_insert_eq; reflexivity|rewrite !(lookup_insert_ne _ "id") by done].
  destruct (decide (k = "email_id")) as [->|He];
    [rewrite !lookup_insert_eq; reflexivity
    |rewrite !(lookup_insert_ne _ "email_id") by done].
  repeat (rewrite lookup_insert_ne by done); reflexivity.
Qed.

Ltac answer :=
  unfold Api.error_response;
  cbn [fst snd Api.status_code Api.document w_db w_trace Z.eqb Pos.eqb].

Lemma world_eta (w : world) : World (w_db w) (w_trace w) = w.
Proof. by destruct w. Qed.

Lemma success_data (data message : pyval) :
  Api.success_response data message !! "data" = Some data.
Proof.
  unfold Api.success_response. destruct (Py.truthy message).
  - rewrite lookup_insert_ne by done. dict_lookup.
  - dict_lookup.
Qed.

(** X22. [resolve_complaint] answers 404 exactly when no record has the id,
    and then changes nothing; when it answers 200 the record has the
    status [Resolved], whatever its status was, and its other columns but
    the time of the update are as before; it answers 500, and changes
    nothing, only for an id that SQLite cannot take. It sends nothing. *)
Theorem resolve_sets_status (E : Env) (id : Z) (w : world) :
  let out := Api.resolve_complaint E id w in
  w_trace (snd out) = w_trace w /\
  if Z.eqb (Api.status_code (fst out)) 200
  then exists before after,
         get_complaint id (w_db w) = Ok (Some before) /\
         get_complaint id (w_db (snd out)) = Ok (Some after) /\
         after !! "status" = Some (VStr "Resolved") /\
         (forall k, k <> "status" -> k <> "updated_at" -> after !! k = before !! k) /\
         Api.document (fst out) !! "data" = Some (VDict after)
  else if Z.eqb (Api.status_code (fst out)) 404
  then get_complaint id (w_db w) = Ok None /\ snd out = w
  else (exists e, get_complaint id (w_db w) = Raise e) /\ snd out = w.
Proof.
  unfold Api.resolve_complaint.
  pose proof (update_status_cases E (length (w_trace w)) id (VStr "Resolved")
                VNone (w_db w)) as H.
  assert (Hraise : sql_bind (VInt id) = Ok (VInt id) \/
                   exists e, get_complaint id (w_db w) = Raise e).
  { unfold get_complaint, mbind, res_bind.
    destruct (sql_bind (VInt id)) as [v|e] eqn:Hb; [|eauto].
    apply sql_bind_ok in Hb as ->. by left. }
  destruct (update_status _ _ _ _ _ _) as [[[]| |] db] eqn:Hu.
  - destruct H as (Hb & r & Hr & Hr' & _). cbn [Py.truthy] in Hr'.
    rewrite (get_complaint_row id db _ Hb Hr'). answer.
    split; [reflexivity|].
    exists (dict_of_row r), (dict_of_row (set_status E (length (w_trace w))
                                            (VStr "Resolved") None r)).
    split; [by apply get_complaint_row|].
    split; [by apply get_complaint_row|].
    split; [apply set_status_status|].
    split; [intros k H1 H2; by apply set_status_frame_none|].
    apply success_data.
  - destruct H as (-> & Hb & Hr). answer. split; [reflexivity|].
    split; [|apply world_eta].
    unfold get_complaint, mbind, res_bind. by rewrite Hb, Hr.
  - subst db. answer. split; [reflexivity|]. split; [|apply world_eta].
    destruct Hraise as [Hb|He]; [|exact He]. exfalso.
    revert Hu. unfold update_status, mbind, res_bind.
    change (sql_bind (VStr "Resolved")) with (Ok (VStr "Resolved")).
    cbn [Py.truthy]. rewrite Hb. destruct (find_by_id id (w_db w)); discriminate.
  - subst db. exfalso.
    revert Hu. unfold update_status, mbind, res_bind.
    change (sql_bind (VStr "Resolved")) with (Ok (VStr "Resolved")).
    cbn [Py.truthy]. destruct (sql_bind (VInt id)); [|discriminate].
    destruct (find_by_id id (w_db w)); discriminate.
Qed.

(** The text that [reclassify_complaint] hands to the classifier is the
    stored one. *)
Lemma stored_email_data_text (E : Env) (complaint email_data : pydict) :
  Api.stored_email_data E complaint = Ok email_data ->
  email_data !! "subject" = complaint !! "subject" /\
  email_data !! "body" = complaint !! "body".
Proof.
  unfold Api.stored_email_data, Py.item, mbind, res_bind. intros H.
  destruct (complaint !! "email_id") as [email_id|]; [|discriminate].
  destruct (complaint !! "subject") as [subject|]; [|discriminate].
  destruct (complaint !! "body") as [body|]; [|discriminate].
  destruct (complaint !! "customer_name") as [customer_name|]; [|discriminate].
  destruct (complaint !! "customer_email") as [customer_email|]; [|discriminate].
  injection H as <-. split; dict_lookup.
Qed.

(** [{**updated_complaint, "reclassification_result": ...}] *)
Lemma merge_one (a : pydict) (key : string) (v : pyval) :
  Py.merge a (dict_of [(key, v)]) !! key = Some v /\
  forall k, k <> key -> Py.merge a (dict_of [(key, v)]) !! k = a !! k.
Proof.
  unfold Py.merge, dict_of. simpl. split.
  - apply lookup_union_Some_l. apply lookup_insert_eq.
  - intros k Hne. apply lookup_union_r. by rewrite lookup_insert_ne.
Qed.

(** X23. [reclassify_complaint] runs the classifier once, on the dict made
    of the stored record (its subject and body are the stored ones), and,
    when it answers 200, has written the team of the new category into
    the record; the stored category, priority and sentiment, like every
    column other than the team, the status and the time of the update,
    are those of before: the new classification is only returned, under
    [reclassification_result], next to the columns of the record read
    back. With any other answer the store is unchanged and nobody is
    notified. *)
Theorem reclassify_writes_team_only (E : Env) (id : Z) (w : world) :
  let out := Api.reclassify_complaint E id w in
  notifications (w_trace (snd out)) = notifications (w_trace w) /\
  if Z.eqb (Api.status_code (fst out)) 200
  then exists before after c team email_data,
         get_complaint id (w_db w) = Ok (Some before) /\
         get_complaint id (w_db (snd out)) = Ok (Some after) /\
         w_trace (snd out) = w_trace w ++ [EvClassify email_data] /\
         ComplaintClassifier.classify_complaint E (S (length (w_trace w))) email_data
         = Ok c /\
         valid_classification c /\
         ComplaintRouter._determine_assigned_team (Py.get c "category" VNone)
         = Ok team /\
         after !! "assigned_team" = Some (VStr team) /\
         (forall k, k <> "status" -> k <> "updated_at" -> k <> "assigned_team" ->
                    after !! k = before !! k) /\
         Api.stored_email_data E before = Ok email_data /\
         email_data !! "subject" = before !! "subject" /\
         email_data !! "body" = before !! "body" /\
         exists data,
           Api.document (fst out) !! "data" = Some (VDict data) /\
           data !! "reclassification_result" = Some (VDict c) /\
           (forall k, k <> "reclassification_result" -> data !! k = after !! k)
  else w_db (snd out) = w_db w.
Proof.
  unfold Api.reclassify_complaint.
  destruct (get_complaint id (w_db w)) as [complaint|] eqn:Hget; [|by answer].
  destruct (get_complaint_found _ _ _ Hget) as (Hb & Hfind & ->).
  destruct complaint as [before|]; [|by answer]. cbn [present].
  destruct (find_by_id id (w_db w)) as [r|] eqn:Hr; [|discriminate].
  injection Hfind as ->.
  destruct (Api.stored_email_data E (dict_of_row r)) as [email_data|] eqn:Hstored;
    [|by answer].
  set (tr := w_trace w ++ [EvClassify email_data]).
  assert (Htr : length tr = S (length (w_trace w)))
    by (subst tr; rewrite length_app; simpl; lia).
  pose proof (classify_cases E (length tr) email_data) as Hvalid.
  destruct (ComplaintClassifier.classify_complaint E (length tr) email_data)
    as [c|] eqn:Hc; cbn [mbind res_bind].
  2:{ answer. split; [apply notifications_classify|reflexivity]. }
  destruct (Api.updated_data E c) as [updated|] eqn:Hu; cbn [mbind res_bind].
  2:{ answer. split; [apply notifications_classify|reflexivity]. }
  destruct (updated_data_ok E c updated Hu) as (team & Hteam & Hut).
  destruct (Py.item (dict_of_row r) "status") as [status|]; cbn [mbind res_bind].
  2:{ answer. split; [apply notifications_classify|reflexivity]. }
  assert (Hitem : Py.item updated "assigned_team" = Ok (VStr team))
    by (unfold Py.item; by rewrite Hut).
  rewrite Hitem. cbn [mbind res_bind].
  pose proof (update_status_cases E (length tr) id status (VStr team) (w_db w)) as H.
  rewrite (team_is_named _ _ Hteam) in H.
  destruct (update_status _ _ _ _ _ _) as [[[]| |] db].
  - destruct H as (_ & r' & Hr' & Hnew & _).
    assert (r' = r) as -> by congruence.
    rewrite (get_complaint_row id db _ Hb Hnew). answer.
    split; [apply notifications_classify|].
    exists (dict_of_row r),
           (dict_of_row (set_status E (length tr) status (Some (VStr team)) r)),
           c, team, email_data.
    rewrite <- Htr.
    split; [first [reflexivity|by apply get_complaint_row]|].
    split; [first [reflexivity|by apply get_complaint_row]|].
    split; [reflexivity|].
    split; [exact Hc|]. split; [exact Hvalid|]. split; [exact Hteam|].
    split; [apply set_status_team|].
    split; [intros k H1 H2 H3; by apply set_status_frame|].
    split; [exact Hstored|].
    destruct (stored_email_data_text E _ _ Hstored) as [Hsubject Hbody].
    split; [exact Hsubject|]. split; [exact Hbody|].
    eexists. split; [apply success_data|]. apply merge_one.
  - destruct H as (_ & _ & Hnone). congruence.
  - subst db. answer. split; [apply notifications_classify|reflexivity].
  - subst db. answer. split; [apply notifications_classify|reflexivity].
Qed.

(** X24. [escalate_complaint], when it answers 200, has handed exactly one
    mail to the mail handler, addressed to the manager; that mail has the
    subject line of a team notification, which does not start with
    [ESCALATION:]. The stored priority is not raised: no column but the
    status and the time of the update can differ. With any other answer
    nothing is sent and the store is unchanged. *)
Theorem escalate_sends_team_mail (config : Config) (E : Env) (id : Z) (w : world) :
  let out := Api.escalate_complaint config E id w in
  if Z.eqb (Api.status_code (fst out)) 200
  then exists before after a,
         get_complaint id (w_db w) = Ok (Some before) /\
         get_complaint id (w_db (snd out)) = Ok (Some after) /\
         (forall k, k <> "status" -> k <> "updated_at" -> after !! k = before !! k) /\
         w_trace (snd out) = w_trace w ++ [EvTeamNotification a] /\
         match a with
         | MailSent m _ =>
             mail_to m = VStr (manager_email config) /\
             String.prefix "ESCALATION:" (mail_subject m) = false
         | MailNotBuilt _ => True
         end
  else snd out = w.
Proof.
  unfold Api.escalate_complaint.
  destruct (get_complaint id (w_db w)) as [complaint|] eqn:Hget; [|by answer].
  destruct (get_complaint_found _ _ _ Hget) as (Hb & Hfind & ->).
  destruct complaint as [before|]; [|by answer]. cbn [present].
  destruct (find_by_id id (w_db w)) as [r|] eqn:Hr; [|discriminate].
  injection Hfind as ->.
  destruct (Py.item (dict_of_row r) "priority") as [priority|]; [|by answer].
  assert (Hsubject : forall a : mail_attempt,
             (exists data,
                 match a with
                 | MailSent m _ =>
                     mail_to m = VStr (manager_email config) /\
                     mail_subject m = EmailHandler.team_subject E data
                 | MailNotBuilt _ => True
                 end) ->
             match a with
             | MailSent m _ =>
                 mail_to m = VStr (manager_email config) /\
                 String.prefix "ESCALATION:" (mail_subject m) = false
             | MailNotBuilt _ => True
             end).
  { intros [|m ok] [data Ha]; [done|]. destruct Ha as [-> ->].
    split; [reflexivity|apply team_subject_not_escalation]. }
  destruct (negb (Py.eq_str priority "Urgent")).
  - destruct (Py.item (dict_of_row r) "status") as [status|]; [|by answer].
    pose proof (update_status_cases E (length (w_trace w)) id status VNone (w_db w))
      as H.
    destruct (update_status _ _ _ _ _ _) as [[[]| |] db]; try by answer.
    + destruct H as (_ & r' & Hr' & Hnew & _). cbn [Py.truthy] in Hnew.
      assert (r' = r) as -> by congruence.
      rewrite (get_complaint_row id db _ Hb Hnew).
      match goal with
      | |- context [EmailHandler.send_team_notification config E ?to ?data ?tr] =>
          destruct (team_mail_event config E to data tr) as (a & Ha & Hto);
          destruct (EmailHandler.send_team_notification config E to data tr)
            as [sent tr1]
      end.
      cbn [snd] in Ha. subst tr1. answer.
      exists (dict_of_row r),
             (dict_of_row (set_status E (length (w_trace w)) status None r)), a.
      split; [reflexivity|]. split; [by apply get_complaint_row|].
      split; [intros k H1 H2; by apply set_status_frame_none|].
      split; [reflexivity|]. apply Hsubject. eauto.
    + destruct H as (_ & _ & Hnone). congruence.
  - match goal with
    | |- context [EmailHandler.send_team_notification config E ?to ?data ?tr] =>
        destruct (team_mail_event config E to data tr) as (a & Ha & Hto);
        destruct (EmailHandler.send_team_notification config E to data tr)
          as [sent tr1]
    end.
    cbn [snd] in Ha. subst tr1. rewrite Hget. answer.
    exists (dict_of_row r), (dict_of_row r), a.
    split; [reflexivity|]. split; [first [reflexivity|exact Hget]|].
    split; [done|]. split; [reflexivity|]. apply Hsubject. eauto.
Qed.

(** ** Pages of complaints *)

Lemma firstn_add_skipn {A : Type} (a b : nat) (l : list A) :
  firstn (a + b) l = firstn a l ++ firstn b (skipn a l).
Proof.
  revert l. induction a as [|a IH]; intros [|x l]; simpl; try reflexivity.
  - by rewrite firstn_nil.
  - by rewrite IH.
Qed.

Lemma pages_concat {A : Type} (k n : nat) (l : list A) :
  concat (map (fun i => firstn k (skipn (i * k) l)) (seq 0 n)) = firstn (n * k) l.
Proof.
  induction n as [|n IH]; [reflexivity|].
  rewrite seq_S, map_app, concat_app, IH. simpl.
  rewrite app_nil_r. symmetry. rewrite Nat.add_comm. apply firstn_add_skipn.
Qed.

Lemma concat_map_each {A B C : Type} (f : B -> C) (g : A -> list B) (l : list A) :
  concat (map (fun i => map f (g i)) l) = map f (concat (map g l)).
Proof.
  induction l as [|x l IH]; [reflexivity|]. simpl. by rewrite map_app, IH.
Qed.

(** A slice that starts at an index that is not negative. *)
Lemma py_slice_page {A : Type} (start k : Z) (l : list A) :
  (0 <= start)%Z -> (0 <= k)%Z ->
  Api.py_slice start (start + k) l
  = firstn (Z.to_nat k) (skipn (Z.to_nat start) l).
Proof.
  intros Hs Hk. unfold Api.py_slice.
  destruct (Z.ltb_spec start 0) as [|_]; [lia|].
  destruct (Z.ltb_spec (start + k) 0) as [|_]; [lia|].
  destruct (Z.le_gt_cases (Z.of_nat (length l)) start) as [Hlong|Hshort].
  - rewrite !skipn_all2 by lia. by rewrite !firstn_nil.
  - replace (Z.to_nat (Z.min start (Z.of_nat (length l)))) with (Z.to_nat start)
      by lia.
    destruct (Z.le_gt_cases (start + k) (Z.of_nat (length l))) as [Hin|Hout].
    + f_equal. lia.
    + rewrite !firstn_all2; [reflexivity| |]; rewrite length_skipn; lia.
Qed.

Lemma filter_complaints_sublist (status priority category search : option string)
    (all_complaints filtered : list pydict) :
  Api.filter_complaints status priority category search all_complaints = Ok filtered ->
  sublist filtered all_complaints.
Proof.
  revert filtered. induction all_complaints as [|complaint rest IH]; intros filtered.
  - intros [= <-]. constructor.
  - cbn [Api.filter_complaints]. unfold mbind at 1, res_bind at 1.
    match goal with
    | |- match ?m with Ok _ => _ | Raise _ => _ end = _ -> _ =>
        destruct m as [skip|]
    end; [|discriminate].
    unfold mbind, res_bind.
    destruct (Api.filter_complaints status priority category search rest)
      as [filtered'|]; [|discriminate].
    intros [= <-]. specialize (IH filtered' eq_refl).
    destruct skip; by constructor.
Qed.

(** The page [p] of the filtered complaints. *)
Lemma page_is_slice (status priority category search : option string)
    (all_complaints filtered : list pydict) (p limit : Z) :
  (1 <= limit)%Z -> (1 <= p)%Z ->
  Api.filter_complaints status priority category search all_complaints = Ok filtered ->
  let r := Api.get_complaints status priority category search (Ok p) (Ok limit)
             (Ok all_complaints) in
  Api.status_code r = 200%Z /\
  Api.page_complaints r
  = map VDict (firstn (Z.to_nat limit)
                 (skipn (Z.to_nat (p - 1) * Z.to_nat limit) filtered)).
Proof.
  intros Hl Hp Hf. unfold Api.get_complaints, mbind, res_bind. rewrite Hf.
  destruct (Z.eqb_spec limit 0) as [|_]; [lia|].
  split; [reflexivity|].
  unfold Api.page_complaints. cbn [Api.document].
  rewrite success_data. unfold dict_of. cbn [list_to_map foldr uncurry fst snd
                                              curry].
  rewrite lookup_insert_eq.
  rewrite py_slice_page by nia. do 3 f_equal. nia.
Qed.

(** X27. [get_complaints] with a limit of at least one answers every page
    from the first on with at most [limit] complaints; the pages from the
    first to page [total_pages], put one after the other, are the
    complaints that pass the filters, each once and in the order of the
    query, and the pages after that are empty. The complaints that pass
    are among those of the query, in the same order. *)
Theorem pages_partition (status priority category search : option string)
    (all_complaints filtered : list pydict) (limit : Z) :
  (1 <= limit)%Z ->
  Api.filter_complaints status priority category search all_complaints = Ok filtered ->
  let page p := Api.get_complaints status priority category search (Ok p) (Ok limit)
                  (Ok all_complaints) in
  let total_pages := ((Z.of_nat (length filtered) + limit - 1) / limit)%Z in
  concat (map (fun i => Api.page_complaints (page (Z.of_nat i + 1)%Z))
            (seq 0 (Z.to_nat total_pages)))
  = map VDict filtered /\
  (forall p, (1 <= p)%Z ->
     Api.status_code (page p) = 200%Z /\
     length (Api.page_complaints (page p)) <= Z.to_nat limit /\
     ((total_pages < p)%Z -> Api.page_complaints (page p) = [])) /\
  sublist filtered all_complaints.
Proof.
  intros Hl Hf page total_pages.
  assert (Hpages : (Z.of_nat (length filtered) <= total_pages * limit
                    < Z.of_nat (length filtered) + limit)%Z).
  { subst total_pages.
    pose proof (Z.div_mod (Z.of_nat (length filtered) + limit - 1) limit) as Hdm.
    pose proof (Z.mod_pos_bound (Z.of_nat (length filtered) + limit - 1) limit).
    nia. }
  assert (Hpos : (0 <= total_pages)%Z) by nia.
  split; [|split].
  - rewrite (map_ext_in _ (fun i => map VDict
                                      (firstn (Z.to_nat limit)
                                         (skipn (i * Z.to_nat limit) filtered)))).
    + rewrite concat_map_each, pages_concat. f_equal. apply firstn_all2. nia.
    + intros i _. subst page.
      destruct (page_is_slice status priority category search all_complaints
                  filtered (Z.of_nat i + 1) limit Hl ltac:(lia) Hf) as [_ ->].
      do 3 f_equal. lia.
  - intros p Hp.
    destruct (page_is_slice status priority category search all_complaints
                filtered p limit Hl Hp Hf) as [Hcode Hpage].
    fold (page p) in Hcode, Hpage. rewrite Hpage.
    split; [exact Hcode|]. split.
    + rewrite length_map, length_firstn. lia.
    + intros Hlate. rewrite skipn_all2 by nia. by rewrite firstn_nil.
  - by eapply filter_complaints_sublist.
Qed.

Lemma pages_partition_witness :
  let filtered := [billing_complaint; second_billing_complaint] in
  let page p := Api.get_complaints None (Some "High") None None (Ok p) (Ok 1%Z)
                  (Ok [billing_complaint; unknown_complaint;
                       second_billing_complaint]) in
  let total_pages := ((Z.of_nat (length filtered) + 1 - 1) / 1)%Z in
  concat (map (fun i => Api.page_complaints (page (Z.of_nat i + 1)%Z))
            (seq 0 (Z.to_nat total_pages)))
  = map VDict filtered /\
  (forall p, (1 <= p)%Z ->
     Api.status_code (page p) = 200%Z /\
     length (Api.page_complaints (page p)) <= Z.to_nat 1 /\
     ((total_pages < p)%Z -> Api.page_complaints (page p) = [])) /\
  sublist filtered [billing_complaint; unknown_complaint; second_billing_complaint].
Proof.
  apply (pages_partition None (Some "High") None None
           [billing_complaint; unknown_complaint; second_billing_complaint]
           [billing_complaint; second_billing_complaint] 1).
  - lia.
  - vm_compute. reflexivity.
Defined.

(** ** Assigning a complaint to a team *)

(** X28. [assign_to_team] never assigns: whatever the request, the
    analytics and the code that follows the reading of the teams, it
    answers 400 (no complaint id) or 500 and leaves the store and the
    effects as they are. When [get_teams] succeeds, what it returns cannot
    be subscripted; when it fails, the document it returns has no
    ["data"]. *)
Theorem assign_to_team_never_assigns
    (assign : pyval -> pyval -> Z -> world -> Api.response * world)
    (config : Config) (team_id : Z) (request_json : res pyval)
    (analytics : res pydict) (w : world) :
  let out := Api.assign_to_team assign config team_id request_json analytics w in
  snd out = w /\ In (Api.status_code (fst out)) [400; 500]%Z.
Proof.
  unfold Api.assign_to_team.
  destruct request_json as [[| | | | | |data]|e];
    try (cbn; split; [reflexivity|tauto]).
  destruct (negb (Py.truthy (Py.get data "complaint_id" VNone)));
    [cbn; split; [reflexivity|tauto]|].
  unfold Api.get_teams, mbind, res_bind.
  destruct analytics as [a|e]; [|cbn; split; [reflexivity|tauto]].
  destruct (Py.get a "by_team" (VDict ∅)); cbn; split; (reflexivity || tauto).
Qed.
